(** * Cost-volume-profit analyzer: a shallow embedding of [financial_analysis.py]

    The module [financial_analysis.py] holds one class, [FinancialAnalyzer],
    that keeps a pandas [DataFrame] of products and answers queries on it.

    Modelling choices.
    - Numbers.  The program computes on binary64 floats.  A number is an
      exact rational extended with the three special values a float division
      can produce ([+inf], [-inf], [nan]); the zero is unsigned and counts
      as [+0] in a division.  The methods are run in exact arithmetic, for
      the figures and the relations between them, where rounding and
      overflow are not modelled and the inputs of an analyzer (prices,
      costs, quantities, fixed costs) are finite rationals; and on binary64,
      every operation rounded to the nearest float, for the outcomes that
      are decided by a comparison of computed numbers: the infinite
      operating leverage and the verdict on a combo.
    - dtypes.  A numeric column has no dtype of its own.  On binary64 the
      prices and the costs are floats; a column of [int]s only, which
      pandas keeps as int64, is outside of what is proved there.
    - Tables.  A [DataFrame] is an index (the row labels) and an ordered
      list of named columns; a column is numeric or of objects.
    - Objects.  DataFrames are mutable Python objects: they live in a store
      and are named by references.  [df.copy()] allocates a new object, an
      assignment to [df[col]] or [df.loc[idx, col]] updates the object in
      place.  Methods run in a state-and-exception monad over that store.
    - Dictionaries are association lists in insertion order. *)

From Stdlib Require Import ZArith QArith Lqa Lia List String Bool Arith Sorted
  Permutation SpecFloat.
Import ListNotations.

Set Implicit Arguments.

Local Open Scope string_scope.
Local Open Scope list_scope.
Local Open Scope Q_scope.

(** ** Numbers *)

Module Num.

(** A float64 value, with exact arithmetic on the finite ones. *)
Inductive xnum : Type :=
| Fin (q : Q)
| PInf
| NInf
| NaN.

Definition zero : xnum := Fin 0.
Definition hundred : xnum := Fin 100.

Definition is_nan (x : xnum) : bool :=
  match x with NaN => true | _ => false end.

Definition Qltb (a b : Q) : bool := negb (Qle_bool b a).

Definition xneg (x : xnum) : xnum :=
  match x with
  | Fin q => Fin (- q)
  | PInf => NInf
  | NInf => PInf
  | NaN => NaN
  end.

Definition xadd (x y : xnum) : xnum :=
  match x, y with
  | NaN, _ | _, NaN => NaN
  | Fin a, Fin b => Fin (a + b)
  | PInf, NInf | NInf, PInf => NaN
  | PInf, _ | _, PInf => PInf
  | NInf, _ | _, NInf => NInf
  end.

Definition xsub (x y : xnum) : xnum := xadd x (xneg y).

(** The infinity of the sign of [q]; [nan] for [q = 0]. *)
Definition signed_inf (q : Q) : xnum :=
  match q ?= 0 with
  | Gt => PInf
  | Lt => NInf
  | Eq => NaN
  end.

Definition xmul (x y : xnum) : xnum :=
  match x, y with
  | NaN, _ | _, NaN => NaN
  | Fin a, Fin b => Fin (a * b)
  | Fin a, PInf | PInf, Fin a => signed_inf a
  | Fin a, NInf | NInf, Fin a => signed_inf (- a)
  | PInf, PInf | NInf, NInf => PInf
  | PInf, NInf | NInf, PInf => NInf
  end.

(** numpy's true division: a division by zero is not an exception, it
    yields an infinity, or [nan] for [0 / 0]. *)
Definition xdiv (x y : xnum) : xnum :=
  match x, y with
  | NaN, _ | _, NaN => NaN
  | Fin a, Fin b => if Qeq_bool b 0 then signed_inf a else Fin (a / b)
  | Fin _, PInf | Fin _, NInf => Fin 0
  | PInf, Fin b => if Qltb b 0 then NInf else PInf
  | NInf, Fin b => if Qltb b 0 then PInf else NInf
  | PInf, PInf | PInf, NInf | NInf, PInf | NInf, NInf => NaN
  end.

(** Comparisons; every comparison with [nan] is false. *)
Definition xltb (x y : xnum) : bool :=
  match x, y with
  | NaN, _ | _, NaN => false
  | Fin a, Fin b => Qltb a b
  | NInf, NInf => false
  | NInf, _ => true
  | _, NInf => false
  | PInf, _ => false
  | Fin _, PInf => true
  end.

Definition xgtb (x y : xnum) : bool := xltb y x.

Definition xeqb (x y : xnum) : bool :=
  match x, y with
  | Fin a, Fin b => Qeq_bool a b
  | PInf, PInf | NInf, NInf => true
  | _, _ => false
  end.

(** Equality of numbers as values: [Qeq] on the finite ones. *)
Definition xeq (x y : xnum) : Prop :=
  match x, y with
  | Fin a, Fin b => a == b
  | PInf, PInf | NInf, NInf | NaN, NaN => True
  | _, _ => False
  end.

End Num.
Export Num.

Infix "=x=" := xeq (at level 70, no associativity).

(** ** Python values, dictionaries and exceptions *)

Module Py.

(** A value held in a table cell or in a product dictionary. *)
Inductive cell : Type :=
| CNum (x : xnum)
| CStr (s : string).

(** One row as a Python dict, the element type of [products_data] and of
    [to_dict('records')]. *)
Definition record : Type := list (string * cell).

(** The values the result dictionaries hold. *)
Inductive pyval : Type :=
| VNum (x : xnum)
| VStr (s : string)
| VNames (l : list string)
| VRecords (l : list record).

Definition dict : Type := list (string * pyval).

Inductive exn : Type :=
| KeyError (k : string)
| TypeError
| ReferenceError.

Inductive result (A : Type) : Type :=
| Ok (a : A)
| Raise (e : exn).
Arguments Ok {A} a.
Arguments Raise {A} e.

Section Assoc.
Variable V : Type.

Fixpoint assoc_get (k : string) (l : list (string * V)) : option V :=
  match l with
  | [] => None
  | (k', v) :: l' => if String.eqb k' k then Some v else assoc_get k l'
  end.

(** [d[k] = v]: an existing key keeps its place, a new one goes last. *)
Fixpoint assoc_set (k : string) (v : V) (l : list (string * V))
  : list (string * V) :=
  match l with
  | [] => [(k, v)]
  | (k', v') :: l' =>
      if String.eqb k' k then (k, v) :: l' else (k', v') :: assoc_set k v l'
  end.

(** [{**a, **b}] *)
Definition assoc_update (a b : list (string * V)) : list (string * V) :=
  fold_left (fun acc kv => assoc_set (fst kv) (snd kv) acc) b a.
End Assoc.

(** [d.get(k, default)] *)
Definition dict_get (d : dict) (k : string) (default : pyval) : pyval :=
  match assoc_get k d with
  | Some v => v
  | None => default
  end.

(** [a - b] on Python values: numbers only. *)
Definition py_sub (a b : pyval) : result pyval :=
  match a, b with
  | VNum x, VNum y => Ok (VNum (xsub x y))
  | _, _ => Raise TypeError
  end.

End Py.
Export Py.

(** ** Series and DataFrames as values *)

Module Pandas.

(** A column: of dtype float64, or of dtype object. *)
Inductive column : Type :=
| NumCol (l : list xnum)
| ObjCol (l : list cell).

Record DataFrame : Type := mkFrame {
  index : list nat;
  columns : list (string * column)
}.

(** [pd.DataFrame()] *)
Definition empty_frame : DataFrame := mkFrame [] [].

Definition cell_is_num (c : cell) : bool :=
  match c with CNum _ => true | CStr _ => false end.

Definition cell_num (c : cell) : xnum :=
  match c with CNum x => x | CStr _ => NaN end.

Definition column_cells (c : column) : list cell :=
  match c with
  | NumCol l => map CNum l
  | ObjCol l => l
  end.

(** dtype inference: a column of numbers only is numeric. *)
Definition column_of_cells (l : list cell) : column :=
  if forallb cell_is_num l then NumCol (map cell_num l) else ObjCol l.

Definition add_key (acc : list string) (kv : string * cell) : list string :=
  if existsb (String.eqb (fst kv)) acc then acc else acc ++ [fst kv].

(** The keys of the records, in order of first appearance. *)
Definition record_keys (recs : list record) : list string :=
  fold_left (fun acc r => fold_left add_key r acc) recs [].

Definition record_cell (k : string) (r : record) : cell :=
  match assoc_get k r with
  | Some c => c
  | None => CNum NaN
  end.

(** [pd.DataFrame(records)]: one column per key, a missing entry is
    [nan], the index is [0..n-1]. *)
Definition DataFrame_of_records (recs : list record) : DataFrame :=
  mkFrame (seq 0 (List.length recs))
          (map (fun k => (k, column_of_cells (map (record_cell k) recs)))
               (record_keys recs)).

(** [df.to_dict('records')] *)
Definition to_dict_records (d : DataFrame) : list record :=
  map (fun i =>
         map (fun kc => (fst kc, nth i (column_cells (snd kc)) (CNum NaN)))
             (columns d))
      (seq 0 (List.length (index d))).

Fixpoint map2 (A B C : Type) (f : A -> B -> C) (a : list A) (b : list B)
  : list C :=
  match a, b with
  | x :: a', y :: b' => f x y :: map2 f a' b'
  | _, _ => []
  end.

(** Element-wise arithmetic of two numeric series of one frame. *)
Definition series_binop (f : xnum -> xnum -> xnum) (a b : column)
  : result column :=
  match a, b with
  | NumCol x, NumCol y => Ok (NumCol (map2 f x y))
  | _, _ => Raise TypeError
  end.

(** Arithmetic of a numeric series with a scalar. *)
Definition series_map (f : xnum -> xnum) (a : column) : result column :=
  match a with
  | NumCol x => Ok (NumCol (map f x))
  | ObjCol _ => Raise TypeError
  end.

(** [s.fillna(v)] *)
Definition fillna (v : xnum) (a : column) : column :=
  match a with
  | NumCol x => NumCol (map (fun y => if is_nan y then v else y) x)
  | ObjCol l =>
      ObjCol (map (fun c => match c with
                            | CNum NaN => CNum v
                            | _ => c
                            end) l)
  end.

Definition skipna (l : list xnum) : list xnum :=
  filter (fun x => negb (is_nan x)) l.

Definition sum_values (l : list xnum) : xnum :=
  fold_left xadd (skipna l) zero.

Definition of_nat (n : nat) : xnum := Fin (inject_Z (Z.of_nat n)).

(** [s.sum()], which skips [nan]. *)
Definition series_sum (a : column) : result xnum :=
  match a with
  | NumCol x => Ok (sum_values x)
  | ObjCol _ => Raise TypeError
  end.

(** [s.mean()], which skips [nan]; the mean of nothing is [nan]. *)
Definition series_mean (a : column) : result xnum :=
  match a with
  | NumCol x => Ok (xdiv (sum_values x) (of_nat (List.length (skipna x))))
  | ObjCol _ => Raise TypeError
  end.

(** [s == name] *)
Definition series_eq_str (a : column) (name : string) : list bool :=
  map (fun c => match c with
                | CStr s => String.eqb s name
                | CNum _ => false
                end) (column_cells a).

(** [s.isin(names)] *)
Definition series_isin (a : column) (names : list string) : list bool :=
  map (fun c => match c with
                | CStr s => existsb (String.eqb s) names
                | CNum _ => false
                end) (column_cells a).

Fixpoint select (A : Type) (mask : list bool) (l : list A) : list A :=
  match mask, l with
  | b :: mask', x :: l' =>
      if b then x :: select mask' l' else select mask' l'
  | _, _ => []
  end.

Definition select_column (mask : list bool) (c : column) : column :=
  match c with
  | NumCol l => NumCol (select mask l)
  | ObjCol l => ObjCol (select mask l)
  end.

(** [df[mask]]: the rows where the mask holds, with their labels. *)
Definition frame_filter (mask : list bool) (d : DataFrame) : DataFrame :=
  mkFrame (select mask (index d))
          (map (fun kc => (fst kc, select_column mask (snd kc))) (columns d)).

(** [df[k]] *)
Definition frame_get (d : DataFrame) (k : string) : result column :=
  match assoc_get k (columns d) with
  | Some c => Ok c
  | None => Raise (KeyError k)
  end.

(** [df[k] = c] *)
Definition frame_set (d : DataFrame) (k : string) (c : column) : DataFrame :=
  mkFrame (index d) (assoc_set k c (columns d)).

Fixpoint frame_cols_list (d : DataFrame) (ks : list string)
  : result (list (string * column)) :=
  match ks with
  | [] => Ok []
  | k :: ks' =>
      match frame_get d k, frame_cols_list d ks' with
      | Ok c, Ok cs => Ok ((k, c) :: cs)
      | Raise e, _ => Raise e
      | _, Raise e => Raise e
      end
  end.

(** [df[[k1, ..., kn]]] *)
Definition frame_cols (d : DataFrame) (ks : list string) : result DataFrame :=
  match frame_cols_list d ks with
  | Ok cs => Ok (mkFrame (index d) cs)
  | Raise e => Raise e
  end.

(** *** Label-based access, [df.loc[idx, k]] *)

(** A series that carries its labels. *)
Definition lseries : Type := list (nat * xnum).

Definition has_label (idx : list nat) (lbl : nat) : bool :=
  existsb (Nat.eqb lbl) idx.

Fixpoint lseries_at (s : lseries) (lbl : nat) : xnum :=
  match s with
  | [] => NaN
  | (l, x) :: s' => if Nat.eqb l lbl then x else lseries_at s' lbl
  end.

Definition lseries_map (f : xnum -> xnum) (s : lseries) : lseries :=
  map (fun lx => (fst lx, f (snd lx))) s.

(** Arithmetic of two labelled series aligns them on their labels. *)
Definition lseries_binop (f : xnum -> xnum -> xnum) (a b : lseries)
  : lseries :=
  map (fun lx => (fst lx, f (snd lx) (lseries_at b (fst lx)))) a.

(** [df.loc[idx, k]] read. *)
Definition frame_loc_get (d : DataFrame) (idx : list nat) (k : string)
  : result lseries :=
  match frame_get d k with
  | Ok (NumCol l) =>
      Ok (filter (fun lx => has_label idx (fst lx)) (combine (index d) l))
  | Ok (ObjCol _) => Raise TypeError
  | Raise e => Raise e
  end.

Definition assign_values (idx : list nat) (f : nat -> xnum)
           (labels : list nat) (c : column) : column :=
  match c with
  | NumCol l =>
      NumCol (map2 (fun lbl old => if has_label idx lbl then f lbl else old)
                   labels l)
  | ObjCol l =>
      ObjCol (map2 (fun lbl old =>
                      if has_label idx lbl then CNum (f lbl) else old)
                   labels l)
  end.

(** [df.loc[idx, k] = ...], the new value of label [lbl] being [f lbl];
    a column that does not exist yet is created, [nan] elsewhere. *)
Definition frame_loc_set (d : DataFrame) (idx : list nat) (k : string)
           (f : nat -> xnum) : DataFrame :=
  let old := match assoc_get k (columns d) with
             | Some c => c
             | None => NumCol (map (fun _ => NaN) (index d))
             end in
  frame_set d k (assign_values idx f (index d) old).

(** *** Ordering: [rank], [nlargest], [nsmallest] *)

Section Sort.
Variable A : Type.
Variable key : A -> xnum.
Variable better : xnum -> xnum -> bool.

(** [x] goes before the first element that is not strictly better:
    among equal keys the earlier input stays first. *)
Fixpoint insert_by (x : A) (s : list A) : list A :=
  match s with
  | [] => [x]
  | y :: s' =>
      if better (key y) (key x) then y :: insert_by x s' else x :: s
  end.

Definition sort_by (l : list A) : list A := fold_right insert_by [] l.
End Sort.

(** The 1-based places, from [pos] on, that hold a value equal to [v]. *)
Fixpoint tie_positions (v : xnum) (s : list xnum) (pos : nat) : list nat :=
  match s with
  | [] => []
  | y :: s' =>
      if xeqb y v then pos :: tie_positions v s' (S pos)
      else tie_positions v s' (S pos)
  end.

(** The rank of [v] among the sorted values: the mean of the places its
    group of ties takes; [nan] keeps no rank. *)
Definition average_rank (sorted : list xnum) (v : xnum) : xnum :=
  if is_nan v then NaN
  else
    let places := tie_positions v sorted 1 in
    xdiv (of_nat (list_sum places)) (of_nat (List.length places)).

(** [s.rank(ascending=False)], with pandas' defaults [method='average']
    and [na_option='keep']. *)
Definition rank_descending (l : list xnum) : list xnum :=
  map (average_rank (sort_by (fun x => x) xgtb (skipna l))) l.

Definition series_rank_descending (a : column) : result column :=
  match a with
  | NumCol x => Ok (NumCol (rank_descending x))
  | ObjCol _ => Raise TypeError
  end.

Definition take_column (positions : list nat) (c : column) : column :=
  match c with
  | NumCol l => NumCol (map (fun i => nth i l NaN) positions)
  | ObjCol l => ObjCol (map (fun i => nth i l (CNum NaN)) positions)
  end.

Definition frame_take (positions : list nat) (d : DataFrame) : DataFrame :=
  mkFrame (map (fun i => nth i (index d) 0%nat) positions)
          (map (fun kc => (fst kc, take_column positions (snd kc)))
               (columns d)).

(** The rows in the order of [better] on column [k], ties in input order
    ([keep='first']), rows without a value last; the first [n] of them. *)
Definition frame_nbest (better : xnum -> xnum -> bool) (n : nat) (k : string)
           (d : DataFrame) : result DataFrame :=
  match frame_get d k with
  | Ok (NumCol l) =>
      let keyed := combine (seq 0 (List.length l)) l in
      let valued := filter (fun ix => negb (is_nan (snd ix))) keyed in
      let missing := filter (fun ix => is_nan (snd ix)) keyed in
      let order := sort_by (@snd nat xnum) better valued ++ missing in
      Ok (frame_take (firstn n (map fst order)) d)
  | Ok (ObjCol _) => Raise TypeError
  | Raise e => Raise e
  end.

(** [df.nlargest(n, k)] and [df.nsmallest(n, k)] *)
Definition frame_nlargest := frame_nbest xgtb.
Definition frame_nsmallest := frame_nbest xltb.

End Pandas.
Export Pandas.

(** ** The store of DataFrame objects and the monad of methods *)

Module Store.

Definition ref : Type := nat.
Definition heap : Type := list DataFrame.

(** A computation: it reads and updates the store, and returns a value or
    raises; what it did to the store before raising stays done. *)
Definition M (A : Type) : Type := heap -> result A * heap.

Definition ret (A : Type) (a : A) : M A := fun h => (Ok a, h).

Definition raise (A : Type) (e : exn) : M A := fun h => (Raise e, h).

Definition bind (A B : Type) (m : M A) (k : A -> M B) : M B :=
  fun h =>
    match m h with
    | (Ok a, h') => k a h'
    | (Raise e, h') => (Raise e, h')
    end.

Definition lift (A : Type) (r : result A) : M A := fun h => (r, h).

(** Allocation of a new object. *)
Definition new_frame (d : DataFrame) : M ref :=
  fun h => (Ok (List.length h), h ++ [d]).

Definition read_frame (r : ref) : M DataFrame :=
  fun h =>
    match nth_error h r with
    | Some d => (Ok d, h)
    | None => (Raise ReferenceError, h)
    end.

Fixpoint replace_at (r : ref) (d : DataFrame) (h : heap) : heap :=
  match h, r with
  | [], _ => []
  | _ :: h', O => d :: h'
  | d' :: h', S r' => d' :: replace_at r' d h'
  end.

(** Update of an object in place. *)
Definition write_frame (r : ref) (d : DataFrame) : M unit :=
  fun h =>
    if Nat.ltb r (List.length h) then (Ok tt, replace_at r d h)
    else (Raise ReferenceError, h).

End Store.
Export Store.

Notation "x <- m ;; k" := (bind m (fun x => k))
  (at level 61, m at next level, right associativity).
Notation "m ;;; k" := (bind m (fun _ => k))
  (at level 61, right associativity).

(** ** DataFrame objects: the pandas operations the class uses *)

Module Frame.

(** [len(df)] *)
Definition len (r : ref) : M nat :=
  d <- read_frame r ;; ret (List.length (index d)).

(** [df[k]] *)
Definition getitem (r : ref) (k : string) : M column :=
  d <- read_frame r ;; lift (frame_get d k).

(** [df[k] = c], in place. *)
Definition setitem (r : ref) (k : string) (c : column) : M unit :=
  d <- read_frame r ;; write_frame r (frame_set d k c).

(** [df.copy()]: a new object with the same content. *)
Definition copy (r : ref) : M ref :=
  d <- read_frame r ;; new_frame d.

(** [df[mask]]: a new object. *)
Definition getitem_mask (r : ref) (mask : list bool) : M ref :=
  d <- read_frame r ;; new_frame (frame_filter mask d).

(** [df.index] *)
Definition get_index (r : ref) : M (list nat) :=
  d <- read_frame r ;; ret (index d).

(** [df.loc[idx, k]] *)
Definition loc_get (r : ref) (idx : list nat) (k : string) : M lseries :=
  d <- read_frame r ;; lift (frame_loc_get d idx k).

(** [df.loc[idx, k] = v] for a scalar [v], in place, on a column that
    takes the value.  A column of floats takes every number; a column of
    [int]s takes whole numbers only, and pandas raises [TypeError] on
    another one: columns have no dtype here, and what is proved of a run
    that assigns a number that is not whole assumes a column of floats. *)
Definition loc_set_scalar (r : ref) (idx : list nat) (k : string) (v : xnum)
  : M unit :=
  d <- read_frame r ;; write_frame r (frame_loc_set d idx k (fun _ => v)).

(** [df.loc[idx, k] = s] for a series [s], in place. *)
Definition loc_set (r : ref) (idx : list nat) (k : string) (s : lseries)
  : M unit :=
  d <- read_frame r ;; write_frame r (frame_loc_set d idx k (lseries_at s)).

(** [df.nlargest(n, k)] and [df.nsmallest(n, k)]: new objects. *)
Definition nlargest (n : nat) (k : string) (r : ref) : M ref :=
  d <- read_frame r ;; d' <- lift (frame_nlargest n k d) ;; new_frame d'.

Definition nsmallest (n : nat) (k : string) (r : ref) : M ref :=
  d <- read_frame r ;; d' <- lift (frame_nsmallest n k d) ;; new_frame d'.

(** [df[[k1, ..., kn]]]: a new object. *)
Definition getitem_cols (r : ref) (ks : list string) : M ref :=
  d <- read_frame r ;; d' <- lift (frame_cols d ks) ;; new_frame d'.

(** [df.to_dict('records')] *)
Definition to_dict (r : ref) : M (list record) :=
  d <- read_frame r ;; ret (to_dict_records d).

(** [df[k].sum()] and [df[k].mean()] *)
Definition column_sum (r : ref) (k : string) : M xnum :=
  c <- getitem r k ;; lift (series_sum c).

Definition column_mean (r : ref) (k : string) : M xnum :=
  c <- getitem r k ;; lift (series_mean c).

End Frame.
Export Frame.

(** ** The class [FinancialAnalyzer] *)

Record FinancialAnalyzer : Type := mkAnalyzer {
  products_data : list record;
  fixed_costs : Q;
  df : ref
}.

(** [_calculate_metrics]: the five derived columns, written into [self.df]
    when the table has rows. *)
Definition _calculate_metrics (self : FinancialAnalyzer) : M unit :=
  n <- len (df self) ;;
  if Nat.ltb 0 n then
    price <- getitem (df self) "price" ;;
    cost <- getitem (df self) "cost" ;;
    margin <- lift (series_binop xsub price cost) ;;
    setitem (df self) "contribution_margin" margin ;;;
    margin <- getitem (df self) "contribution_margin" ;;
    price <- getitem (df self) "price" ;;
    ratio <- lift (series_binop xdiv margin price) ;;
    percent <- lift (series_map (fun x => xmul x hundred) ratio) ;;
    setitem (df self) "contribution_margin_percent" (fillna zero percent) ;;;
    price <- getitem (df self) "price" ;;
    quantity <- getitem (df self) "quantity" ;;
    revenue <- lift (series_binop xmul price quantity) ;;
    setitem (df self) "total_revenue" revenue ;;;
    cost <- getitem (df self) "cost" ;;
    quantity <- getitem (df self) "quantity" ;;
    variable_cost <- lift (series_binop xmul cost quantity) ;;
    setitem (df self) "total_variable_cost" variable_cost ;;;
    margin <- getitem (df self) "contribution_margin" ;;
    quantity <- getitem (df self) "quantity" ;;
    contribution <- lift (series_binop xmul margin quantity) ;;
    setitem (df self) "total_contribution" contribution
  else ret tt.

(** [__init__]: no check of its arguments; a new DataFrame object is built
    from the records and the metrics are computed on it. *)
Definition __init__ (products_data : list record) (fixed_costs : Q)
  : M FinancialAnalyzer :=
  r <- new_frame (DataFrame_of_records products_data) ;;
  let self := mkAnalyzer products_data fixed_costs r in
  _calculate_metrics self ;;;
  ret self.

Definition get_contribution_margin_analysis (self : FinancialAnalyzer) : M ref :=
  n <- len (df self) ;;
  if Nat.eqb n 0 then new_frame empty_frame
  else
    analysis_df <- copy (df self) ;;
    percent <- getitem analysis_df "contribution_margin_percent" ;;
    rank <- lift (series_rank_descending percent) ;;
    setitem analysis_df "contribution_rank" rank ;;;
    revenue <- getitem analysis_df "total_revenue" ;;
    revenue_sum <- column_sum analysis_df "total_revenue" ;;
    share <- lift (series_map (fun x => xmul (xdiv x revenue_sum) hundred)
                              revenue) ;;
    setitem analysis_df "revenue_participation" share ;;;
    contribution <- getitem analysis_df "total_contribution" ;;
    contribution_sum <- column_sum analysis_df "total_contribution" ;;
    share <- lift (series_map (fun x => xmul (xdiv x contribution_sum) hundred)
                              contribution) ;;
    setitem analysis_df "contribution_participation" share ;;;
    ret analysis_df.

Definition calculate_breakeven_analysis (self : FinancialAnalyzer) : M dict :=
  n <- len (df self) ;;
  if Nat.eqb n 0 then ret []
  else
    total_contribution <- column_sum (df self) "total_contribution" ;;
    total_quantity <- column_sum (df self) "quantity" ;;
    total_revenue <- column_sum (df self) "total_revenue" ;;
    let weighted_avg_contribution_margin :=
      if xgtb total_quantity zero then xdiv total_contribution total_quantity
      else zero in
    let weighted_avg_price :=
      if xgtb total_quantity zero then xdiv total_revenue total_quantity
      else zero in
    let breakeven_units :=
      if xgtb weighted_avg_contribution_margin zero
      then xdiv (Fin (fixed_costs self)) weighted_avg_contribution_margin
      else zero in
    let breakeven_revenue := xmul breakeven_units weighted_avg_price in
    let safety_margin_units := xsub total_quantity breakeven_units in
    let safety_margin_percent :=
      if xgtb total_quantity zero
      then xmul (xdiv safety_margin_units total_quantity) hundred
      else zero in
    let safety_margin_revenue := xsub total_revenue breakeven_revenue in
    ret [ ("breakeven_units", VNum breakeven_units);
          ("breakeven_revenue", VNum breakeven_revenue);
          ("safety_margin_units", VNum safety_margin_units);
          ("safety_margin_percent", VNum safety_margin_percent);
          ("safety_margin_revenue", VNum safety_margin_revenue);
          ("weighted_avg_contribution_margin",
            VNum weighted_avg_contribution_margin);
          ("weighted_avg_price", VNum weighted_avg_price) ].

Definition calculate_operating_leverage (self : FinancialAnalyzer) : M xnum :=
  n <- len (df self) ;;
  if Nat.eqb n 0 then ret zero
  else
    total_contribution <- column_sum (df self) "total_contribution" ;;
    let net_profit := xsub total_contribution (Fin (fixed_costs self)) in
    if xeqb net_profit zero then ret PInf
    else ret (xdiv total_contribution net_profit).

Definition get_cost_volume_profit_analysis (self : FinancialAnalyzer) : M dict :=
  n <- len (df self) ;;
  if Nat.eqb n 0 then ret []
  else
    total_revenue <- column_sum (df self) "total_revenue" ;;
    total_variable_cost <- column_sum (df self) "total_variable_cost" ;;
    total_contribution <- column_sum (df self) "total_contribution" ;;
    let net_profit := xsub total_contribution (Fin (fixed_costs self)) in
    let contribution_margin_ratio :=
      if xgtb total_revenue zero
      then xmul (xdiv total_contribution total_revenue) hundred
      else zero in
    let variable_cost_ratio :=
      if xgtb total_revenue zero
      then xmul (xdiv total_variable_cost total_revenue) hundred
      else zero in
    breakeven_analysis <- calculate_breakeven_analysis self ;;
    operating_leverage <- calculate_operating_leverage self ;;
    ret (assoc_update
           [ ("total_revenue", VNum total_revenue);
             ("total_variable_cost", VNum total_variable_cost);
             ("total_contribution", VNum total_contribution);
             ("fixed_costs", VNum (Fin (fixed_costs self)));
             ("net_profit", VNum net_profit);
             ("contribution_margin_ratio", VNum contribution_margin_ratio);
             ("variable_cost_ratio", VNum variable_cost_ratio);
             ("operating_leverage", VNum operating_leverage) ]
           breakeven_analysis).

Definition simulate_price_changes (self : FinancialAnalyzer)
           (product_name : string) (new_price : Q) : M dict :=
  n <- len (df self) ;;
  if Nat.eqb n 0 then ret []
  else
    names <- getitem (df self) "name" ;;
    matching <- getitem_mask (df self) (series_eq_str names product_name) ;;
    product_idx <- get_index matching ;;
    if Nat.eqb (List.length product_idx) 0
    then ret [("error", VStr "Produto não encontrado")]
    else
      current_analysis <- get_cost_volume_profit_analysis self ;;
      df_sim <- copy (df self) ;;
      loc_set_scalar df_sim product_idx "price" (Fin new_price) ;;;
      cost <- loc_get df_sim product_idx "cost" ;;
      loc_set df_sim product_idx "contribution_margin"
              (lseries_map (xsub (Fin new_price)) cost) ;;;
      margin <- loc_get df_sim product_idx "contribution_margin" ;;
      loc_set df_sim product_idx "contribution_margin_percent"
              (lseries_map (fun x => xmul (xdiv x (Fin new_price)) hundred)
                           margin) ;;;
      quantity <- loc_get df_sim product_idx "quantity" ;;
      loc_set df_sim product_idx "total_revenue"
              (lseries_map (xmul (Fin new_price)) quantity) ;;;
      margin <- loc_get df_sim product_idx "contribution_margin" ;;
      quantity <- loc_get df_sim product_idx "quantity" ;;
      loc_set df_sim product_idx "total_contribution"
              (lseries_binop xmul margin quantity) ;;;
      records <- to_dict df_sim ;;
      sim_analyzer <- __init__ records (fixed_costs self) ;;
      new_analysis <- get_cost_volume_profit_analysis sim_analyzer ;;
      profit_change <- lift (py_sub (dict_get new_analysis "net_profit" (VNum zero))
                                    (dict_get current_analysis "net_profit" (VNum zero))) ;;
      ret [ ("current_profit", dict_get current_analysis "net_profit" (VNum zero));
            ("new_profit", dict_get new_analysis "net_profit" (VNum zero));
            ("profit_change", profit_change);
            ("current_contribution_ratio",
              dict_get current_analysis "contribution_margin_ratio" (VNum zero));
            ("new_contribution_ratio",
              dict_get new_analysis "contribution_margin_ratio" (VNum zero)) ].

Definition mix_columns : list string :=
  ["name"; "contribution_margin_percent"; "total_contribution"].

Definition analyze_product_mix_optimization (self : FinancialAnalyzer) : M dict :=
  n <- len (df self) ;;
  if Nat.eqb n 0 then ret []
  else
    df_analysis <- get_contribution_margin_analysis self ;;
    high_margin_products <- nlargest 3 "contribution_margin_percent" df_analysis ;;
    low_margin_products <- nsmallest 3 "contribution_margin_percent" df_analysis ;;
    high_contribution_products <- nlargest 3 "total_contribution" df_analysis ;;
    high_margin <- (sel <- getitem_cols high_margin_products mix_columns ;;
                    to_dict sel) ;;
    low_margin <- (sel <- getitem_cols low_margin_products mix_columns ;;
                   to_dict sel) ;;
    high_contribution <- (sel <- getitem_cols high_contribution_products mix_columns ;;
                          to_dict sel) ;;
    ret [ ("high_margin_products", VRecords high_margin);
          ("low_margin_products", VRecords low_margin);
          ("high_contribution_products", VRecords high_contribution) ].

(** The three verdicts of [calculate_combo_analysis]. *)
Definition viability_of (combo_margin_percent : xnum) : string :=
  if xgtb combo_margin_percent (Fin 15) then "Viável"
  else if xgtb combo_margin_percent (Fin 5) then "Revisar"
  else "Não recomendado".

Definition calculate_combo_analysis (self : FinancialAnalyzer)
           (product_names : list string) (discount_percent : Q) : M dict :=
  n <- len (df self) ;;
  if Nat.eqb n 0 then ret []
  else
    names <- getitem (df self) "name" ;;
    combo_products <- getitem_mask (df self) (series_isin names product_names) ;;
    m <- len combo_products ;;
    if Nat.eqb m 0 then ret [("error", VStr "Nenhum produto encontrado")]
    else
      combo_original_price <- column_sum combo_products "price" ;;
      let combo_discounted_price :=
        xmul combo_original_price
             (xsub (Fin 1) (xdiv (Fin discount_percent) hundred)) in
      combo_total_cost <- column_sum combo_products "cost" ;;
      let combo_margin := xsub combo_discounted_price combo_total_cost in
      let combo_margin_percent :=
        if xgtb combo_discounted_price zero
        then xmul (xdiv combo_margin combo_discounted_price) hundred
        else zero in
      avg_individual_margin <-
        column_mean combo_products "contribution_margin_percent" ;;
      ret [ ("products", VNames product_names);
            ("original_price", VNum combo_original_price);
            ("discounted_price", VNum combo_discounted_price);
            ("total_cost", VNum combo_total_cost);
            ("combo_margin", VNum combo_margin);
            ("combo_margin_percent", VNum combo_margin_percent);
            ("avg_individual_margin_percent", VNum avg_individual_margin);
            ("margin_impact", VNum (xsub combo_margin_percent avg_individual_margin));
            ("discount_applied", VNum (Fin discount_percent));
            ("viability", VStr (viability_of combo_margin_percent)) ].

(** ** Products and analyzers built from them *)

Record product : Type := mkProduct {
  name : string;
  price : Q;
  cost : Q;
  quantity : Q
}.

(** The dictionary the application passes for one product. *)
Definition product_record (p : product) : record :=
  [ ("name", CStr (name p));
    ("price", CNum (Fin (price p)));
    ("cost", CNum (Fin (cost p)));
    ("quantity", CNum (Fin (quantity p))) ].

(** [FinancialAnalyzer(products, fixed_costs)] *)
Definition analyzer_of (ps : list product) (fc : Q) : M FinancialAnalyzer :=
  __init__ (map product_record ps) fc.

Definition example_products : list product :=
  [ mkProduct "Cafe Expresso" (9 # 2) (6 # 5) 300;
    mkProduct "Cappuccino" 6 2 200 ].

(** ** The program on binary64

    The discrete outcomes of the program, the infinite operating leverage
    and the verdict on a combo, are decided on the numbers the program
    computes: binary64 floats, every operation rounded to the nearest
    float.  The methods that take these decisions are given here for any
    arithmetic, and the arithmetic of binary64 is defined. *)

(** *** binary64 numbers *)

Module Binary64.

Definition prec : Z := 53.
Definition emax : Z := 1024.

(** A Python float. *)
Definition float : Type := spec_float.

(** The number a float holds; the two zeros are one number. *)
Definition of_float (x : float) : xnum :=
  match x with
  | S754_zero _ => Fin 0
  | S754_infinity s => if s then NInf else PInf
  | S754_nan => NaN
  | S754_finite s m e =>
      let z := if s then Zneg m else Zpos m in
      Fin (match e with
           | Z0 => z # 1
           | Zpos p => (z * 2 ^ Zpos p) # 1
           | Zneg p => z # (2 ^ p)
           end)
  end.

(** The number of binary digits kept below the finest spacing of the
    floats when a rational is rounded. *)
Definition guard : Z := 1200.

(** The float nearest to a rational, ties to even: the quotient is cut
    [guard] digits below the binary point, what is cut off is recorded in
    one more digit, and [binary_normalize] rounds the outcome. *)
Definition nearest (q : Q) : float :=
  let n := Qnum q in
  let d := Zpos (Qden q) in
  let a := (Z.abs n * 2 ^ guard)%Z in
  let cut := (a / d)%Z in
  let rest := if (a mod d =? 0)%Z then 0%Z else 1%Z in
  let m := (2 * cut + rest)%Z in
  binary_normalize prec emax (if (n <? 0)%Z then (- m)%Z else m)
                   (- guard - 1)%Z false.

(** The float a number is read as: a float is itself, an [int] is
    converted as numpy converts it. *)
Definition to_float (x : xnum) : float :=
  match x with
  | Fin q => nearest q
  | PInf => S754_infinity false
  | NInf => S754_infinity true
  | NaN => S754_nan
  end.

Definition rounded (f : float -> float -> float) (x y : xnum) : xnum :=
  of_float (f (to_float x) (to_float y)).

Definition fadd : xnum -> xnum -> xnum := rounded (SFadd prec emax).
Definition fsub : xnum -> xnum -> xnum := rounded (SFsub prec emax).
Definition fmul : xnum -> xnum -> xnum := rounded (SFmul prec emax).
Definition fdiv : xnum -> xnum -> xnum := rounded (SFdiv prec emax).

(** The number a float literal denotes. *)
Definition literal (q : Q) : xnum := of_float (nearest q).

End Binary64.

(** *** The sum of a column

    [Series.sum] fills the missing values with 0 and calls numpy's [sum],
    which adds the values to 0 by pairwise summation: fewer than eight
    values are added from left to right, up to 128 values in eight running
    sums that are added at the end, and more than that in two halves. *)

Section NumpySum.
Variable add : xnum -> xnum -> xnum.

(** The eight running sums after [blocks] more blocks of eight values,
    and the values that are left. *)
Fixpoint add_blocks (blocks : nat) (r l : list xnum) : list xnum * list xnum :=
  match blocks with
  | O => (r, l)
  | S b => add_blocks b (map2 add r (firstn 8 l)) (skipn 8 l)
  end.

Definition unrolled_sum (l : list xnum) : xnum :=
  let n := List.length l in
  match add_blocks (n / 8 - 1) (firstn 8 l) (skipn 8 l) with
  | ([r0; r1; r2; r3; r4; r5; r6; r7], rest) =>
      fold_left add rest
                (add (add (add r0 r1) (add r2 r3))
                     (add (add r4 r5) (add r6 r7)))
  | _ => NaN
  end.

Fixpoint pairwise_sum (fuel : nat) (l : list xnum) : xnum :=
  let n := List.length l in
  if Nat.ltb n 8 then fold_left add l zero
  else if Nat.leb n 128 then unrolled_sum l
  else
    match fuel with
    | O => unrolled_sum l
    | S fuel' =>
        let n2 := (n / 2 - (n / 2) mod 8)%nat in
        add (pairwise_sum fuel' (firstn n2 l)) (pairwise_sum fuel' (skipn n2 l))
    end.

Definition numpy_sum (l : list xnum) : xnum :=
  add zero (pairwise_sum (List.length l) l).

(** [s.sum()] with [skipna=True] *)
Definition nansum (l : list xnum) : xnum :=
  numpy_sum (map (fun x => if is_nan x then zero else x) l).

End NumpySum.

(** *** The arithmetic of a run *)

(** The operations on numbers the methods use; comparisons are those of
    the numbers themselves. *)
Record arithmetic : Type := mkArithmetic {
  num_sub : xnum -> xnum -> xnum;
  num_mul : xnum -> xnum -> xnum;
  num_div : xnum -> xnum -> xnum;
  num_sum : list xnum -> xnum
}.

(** Exact arithmetic, the one of the methods above. *)
Definition exact : arithmetic := mkArithmetic xsub xmul xdiv sum_values.

(** binary64, the arithmetic of the program. *)
Definition binary64 : arithmetic :=
  mkArithmetic Binary64.fsub Binary64.fmul Binary64.fdiv
               (nansum Binary64.fadd).

(** *** The methods, in a given arithmetic *)

Module Arith.
Section Methods.
Variable A : arithmetic.

(** [s.sum()] and [s.mean()]; the mean is the sum over the count of the
    values that are not missing. *)
Definition series_sum (a : column) : result xnum :=
  match a with
  | NumCol x => Ok (num_sum A x)
  | ObjCol _ => Raise TypeError
  end.

Definition series_mean (a : column) : result xnum :=
  match a with
  | NumCol x => Ok (num_div A (num_sum A x) (of_nat (List.length (skipna x))))
  | ObjCol _ => Raise TypeError
  end.

Definition column_sum (r : ref) (k : string) : M xnum :=
  c <- getitem r k ;; lift (series_sum c).

Definition column_mean (r : ref) (k : string) : M xnum :=
  c <- getitem r k ;; lift (series_mean c).

Definition _calculate_metrics (self : FinancialAnalyzer) : M unit :=
  n <- len (df self) ;;
  if Nat.ltb 0 n then
    price <- getitem (df self) "price" ;;
    cost <- getitem (df self) "cost" ;;
    margin <- lift (series_binop (num_sub A) price cost) ;;
    setitem (df self) "contribution_margin" margin ;;;
    margin <- getitem (df self) "contribution_margin" ;;
    price <- getitem (df self) "price" ;;
    ratio <- lift (series_binop (num_div A) margin price) ;;
    percent <- lift (series_map (fun x => num_mul A x hundred) ratio) ;;
    setitem (df self) "contribution_margin_percent" (fillna zero percent) ;;;
    price <- getitem (df self) "price" ;;
    quantity <- getitem (df self) "quantity" ;;
    revenue <- lift (series_binop (num_mul A) price quantity) ;;
    setitem (df self) "total_revenue" revenue ;;;
    cost <- getitem (df self) "cost" ;;
    quantity <- getitem (df self) "quantity" ;;
    variable_cost <- lift (series_binop (num_mul A) cost quantity) ;;
    setitem (df self) "total_variable_cost" variable_cost ;;;
    margin <- getitem (df self) "contribution_margin" ;;
    quantity <- getitem (df self) "quantity" ;;
    contribution <- lift (series_binop (num_mul A) margin quantity) ;;
    setitem (df self) "total_contribution" contribution
  else ret tt.

Definition __init__ (products_data : list record) (fixed_costs : Q)
  : M FinancialAnalyzer :=
  r <- new_frame (DataFrame_of_records products_data) ;;
  let self := mkAnalyzer products_data fixed_costs r in
  _calculate_metrics self ;;;
  ret self.

Definition calculate_operating_leverage (self : FinancialAnalyzer) : M xnum :=
  n <- len (df self) ;;
  if Nat.eqb n 0 then ret zero
  else
    total_contribution <- column_sum (df self) "total_contribution" ;;
    let net_profit := num_sub A total_contribution (Fin (fixed_costs self)) in
    if xeqb net_profit zero then ret PInf
    else ret (num_div A total_contribution net_profit).

Definition calculate_combo_analysis (self : FinancialAnalyzer)
           (product_names : list string) (discount_percent : Q) : M dict :=
  n <- len (df self) ;;
  if Nat.eqb n 0 then ret []
  else
    names <- getitem (df self) "name" ;;
    combo_products <- getitem_mask (df self) (series_isin names product_names) ;;
    m <- len combo_products ;;
    if Nat.eqb m 0 then ret [("error", VStr "Nenhum produto encontrado")]
    else
      combo_original_price <- column_sum combo_products "price" ;;
      let combo_discounted_price :=
        num_mul A combo_original_price
                (num_sub A (Fin 1) (num_div A (Fin discount_percent) hundred)) in
      combo_total_cost <- column_sum combo_products "cost" ;;
      let combo_margin := num_sub A combo_discounted_price combo_total_cost in
      let combo_margin_percent :=
        if xgtb combo_discounted_price zero
        then num_mul A (num_div A combo_margin combo_discounted_price) hundred
        else zero in
      avg_individual_margin <-
        column_mean combo_products "contribution_margin_percent" ;;
      ret [ ("products", VNames product_names);
            ("original_price", VNum combo_original_price);
            ("discounted_price", VNum combo_discounted_price);
            ("total_cost", VNum combo_total_cost);
            ("combo_margin", VNum combo_margin);
            ("combo_margin_percent", VNum combo_margin_percent);
            ("avg_individual_margin_percent", VNum avg_individual_margin);
            ("margin_impact",
              VNum (num_sub A combo_margin_percent avg_individual_margin));
            ("discount_applied", VNum (Fin discount_percent));
            ("viability", VStr (viability_of combo_margin_percent)) ].

End Methods.
End Arith.

(** * Properties *)

(** ** The store: what a computation keeps and what it only reads *)

Section StoreFacts.

Lemma nth_error_replace_at_same (h : heap) (r : ref) (d : DataFrame) :
  (r < List.length h)%nat -> nth_error (replace_at r d h) r = Some d.
Proof.
  revert r; induction h as [|d0 h IH]; intros [|r] Hr; simpl in *;
    try lia; auto.
  apply IH; lia.
Qed.

Lemma nth_error_replace_at_other (h : heap) (r i : ref) (d : DataFrame) :
  i <> r -> nth_error (replace_at r d h) i = nth_error h i.
Proof.
  revert r i; induction h as [|d0 h IH]; intros [|r] [|i] Hne; simpl;
    try reflexivity; try congruence.
  apply IH; congruence.
Qed.

Lemma length_replace_at (h : heap) (r : ref) (d : DataFrame) :
  List.length (replace_at r d h) = List.length h.
Proof.
  revert r; induction h as [|d0 h IH]; intros [|r]; simpl; auto.
Qed.

Lemma replace_at_last (h : heap) (d d' : DataFrame) :
  replace_at (List.length h) d' (h ++ [d]) = h ++ [d'].
Proof. induction h as [|d0 h IH]; simpl; congruence. Qed.

Lemma nth_error_last (h : heap) (d : DataFrame) :
  nth_error (h ++ [d]) (List.length h) = Some d.
Proof. induction h as [|d0 h IH]; simpl; auto. Qed.

(** [keeps n Q m]: run in a store that has at least [n] objects, [m]
    leaves the first [n] as they are, and a value it returns satisfies
    [Q]. *)
Definition keeps (A : Type) (n : nat) (Q : A -> Prop) (m : M A) : Prop :=
  forall h, (n <= List.length h)%nat ->
    (n <= List.length (snd (m h)))%nat /\
    (forall i, (i < n)%nat -> nth_error (snd (m h)) i = nth_error h i) /\
    (forall x, fst (m h) = Ok x -> Q x).

Definition anything (A : Type) (_ : A) : Prop := True.

Lemma keeps_weaken (A : Type) n (Q Q' : A -> Prop) m :
  keeps n Q m -> (forall x, Q x -> Q' x) -> keeps n Q' m.
Proof.
  intros Hm HQ h Hh. destruct (Hm h Hh) as (H1 & H2 & H3).
  repeat split; auto.
Qed.

Lemma keeps_ret (A : Type) n (Q : A -> Prop) (x : A) :
  Q x -> keeps n Q (ret x).
Proof.
  intros HQ h Hh; simpl. repeat split; auto.
  intros y Hy; inversion Hy; subst; exact HQ.
Qed.

Lemma keeps_lift (A : Type) n (r : result A) : keeps n (@anything A) (lift r).
Proof. intros h Hh; simpl. repeat split; auto. Qed.

Lemma keeps_bind (A B : Type) n (Q : A -> Prop) (R : B -> Prop) m k :
  keeps n Q m -> (forall x, Q x -> keeps n R (k x)) -> keeps n R (bind m k).
Proof.
  intros Hm Hk h Hh. unfold bind.
  destruct (Hm h Hh) as (H1 & H2 & H3).
  destruct (m h) as [[x|e] h1]; simpl in *.
  - destruct (Hk x (H3 x eq_refl) h1 H1) as (K1 & K2 & K3).
    repeat split; auto.
    intros i Hi. rewrite K2 by exact Hi. auto.
  - repeat split; auto. intros x Hx; discriminate.
Qed.

Lemma keeps_read_frame n r : keeps n (@anything DataFrame) (read_frame r).
Proof.
  intros h Hh. unfold read_frame.
  destruct (nth_error h r); simpl; repeat split; auto.
Qed.

Lemma keeps_new_frame n d : keeps n (fun r => (n <= r)%nat) (new_frame d).
Proof.
  intros h Hh. unfold new_frame; simpl. repeat split.
  - rewrite length_app; lia.
  - intros i Hi. apply nth_error_app1; lia.
  - intros x Hx; inversion Hx; subst; exact Hh.
Qed.

Lemma keeps_write_frame n r d :
  (n <= r)%nat -> keeps n (@anything unit) (write_frame r d).
Proof.
  intros Hr h Hh. unfold write_frame.
  destruct (Nat.ltb r (List.length h)); simpl; repeat split; auto.
  - rewrite length_replace_at; exact Hh.
  - intros i Hi. apply nth_error_replace_at_other; lia.
Qed.

(** [reads r m]: [m] leaves the store as it is, and its outcome depends
    on the store through the object [r] only. *)
Definition reads (A : Type) (r : ref) (m : M A) : Prop :=
  (forall h, snd (m h) = h) /\
  (forall h1 h2, nth_error h1 r = nth_error h2 r -> fst (m h1) = fst (m h2)).

Lemma reads_ret (A : Type) r (x : A) : reads r (ret x).
Proof. split; intros; reflexivity. Qed.

Lemma reads_lift (A : Type) r (x : result A) : reads r (lift x).
Proof. split; intros; reflexivity. Qed.

Lemma reads_bind (A B : Type) r (m : M A) (k : A -> M B) :
  reads r m -> (forall x, reads r (k x)) -> reads r (bind m k).
Proof.
  intros [Hm1 Hm2] Hk. split.
  - intros h. unfold bind. specialize (Hm1 h).
    destruct (m h) as [[x|e] h1]; simpl in *; subst; auto.
    apply (Hk x).
  - intros h1 h2 Heq. unfold bind.
    pose proof (Hm1 h1) as E1. pose proof (Hm1 h2) as E2.
    pose proof (Hm2 h1 h2 Heq) as E.
    destruct (m h1) as [[x1|e1] h1'], (m h2) as [[x2|e2] h2'];
      simpl in *; subst; try congruence.
    inversion E; subst. apply (Hk x2); exact Heq.
Qed.

Lemma reads_read_frame r : reads r (read_frame r).
Proof.
  split.
  - intros h. unfold read_frame. destruct (nth_error h r); reflexivity.
  - intros h1 h2 Heq. unfold read_frame. rewrite Heq.
    destruct (nth_error h2 r); reflexivity.
Qed.

End StoreFacts.

Create HintDb keeps_db.
#[export] Hint Resolve keeps_lift keeps_read_frame keeps_new_frame
  keeps_write_frame : keeps_db.

Create HintDb reads_db.
#[export] Hint Resolve reads_ret reads_lift reads_read_frame : reads_db.

(** One step through a computation, for either property. *)
Ltac keeps_step :=
  match goal with
  | |- keeps _ _ (bind _ _) => eapply keeps_bind; [ | intros ? ? ]
  | |- keeps _ _ (if ?b then _ else _) => destruct b
  | |- keeps _ _ (ret _) => apply keeps_ret; try exact I; try assumption
  | |- keeps _ _ _ => solve [ eauto with keeps_db ]
  | |- keeps _ (@anything _) _ =>
      solve [ eapply keeps_weaken; [ eauto with keeps_db | intros; exact I ] ]
  end.

Ltac reads_step :=
  match goal with
  | |- reads _ (bind _ _) => apply reads_bind; [ | intros ? ]
  | |- reads _ (if ?b then _ else _) => destruct b
  | |- reads _ _ => solve [ eauto with reads_db ]
  end.

Section FrameFacts.
Variable n : nat.

Lemma keeps_len r : keeps n (@anything nat) (len r).
Proof. unfold len. repeat keeps_step. Qed.

Lemma keeps_getitem r k : keeps n (@anything column) (getitem r k).
Proof. unfold getitem. repeat keeps_step. Qed.

Lemma keeps_get_index r : keeps n (@anything (list nat)) (get_index r).
Proof. unfold get_index. repeat keeps_step. Qed.

Lemma keeps_loc_get r idx k : keeps n (@anything lseries) (loc_get r idx k).
Proof. unfold loc_get. repeat keeps_step. Qed.

Lemma keeps_to_dict r : keeps n (@anything (list record)) (to_dict r).
Proof. unfold to_dict. repeat keeps_step. Qed.

Lemma keeps_column_sum r k : keeps n (@anything xnum) (column_sum r k).
Proof. unfold column_sum, getitem. repeat keeps_step. Qed.

Lemma keeps_column_mean r k : keeps n (@anything xnum) (column_mean r k).
Proof. unfold column_mean, getitem. repeat keeps_step. Qed.

Lemma keeps_setitem r k c :
  (n <= r)%nat -> keeps n (@anything unit) (setitem r k c).
Proof. intros Hr. unfold setitem. repeat keeps_step. Qed.

Lemma keeps_loc_set_scalar r idx k v :
  (n <= r)%nat -> keeps n (@anything unit) (loc_set_scalar r idx k v).
Proof. intros Hr. unfold loc_set_scalar. repeat keeps_step. Qed.

Lemma keeps_loc_set r idx k s :
  (n <= r)%nat -> keeps n (@anything unit) (loc_set r idx k s).
Proof. intros Hr. unfold loc_set. repeat keeps_step. Qed.

Lemma keeps_copy r : keeps n (fun r' => (n <= r')%nat) (copy r).
Proof. unfold copy. repeat keeps_step. Qed.

Lemma keeps_getitem_mask r mask :
  keeps n (fun r' => (n <= r')%nat) (getitem_mask r mask).
Proof. unfold getitem_mask. repeat keeps_step. Qed.

Lemma keeps_nlargest m k r :
  keeps n (fun r' => (n <= r')%nat) (nlargest m k r).
Proof. unfold nlargest. repeat keeps_step. Qed.

Lemma keeps_nsmallest m k r :
  keeps n (fun r' => (n <= r')%nat) (nsmallest m k r).
Proof. unfold nsmallest. repeat keeps_step. Qed.

Lemma keeps_getitem_cols r ks :
  keeps n (fun r' => (n <= r')%nat) (getitem_cols r ks).
Proof. unfold getitem_cols. repeat keeps_step. Qed.

End FrameFacts.

#[export] Hint Resolve keeps_len keeps_getitem keeps_get_index keeps_loc_get
  keeps_to_dict keeps_column_sum keeps_column_mean keeps_setitem
  keeps_loc_set_scalar keeps_loc_set keeps_copy keeps_getitem_mask
  keeps_nlargest keeps_nsmallest keeps_getitem_cols : keeps_db.

Section FrameReads.
Variable r : ref.

Lemma reads_len : reads r (len r).
Proof. unfold len. repeat reads_step. Qed.

Lemma reads_getitem k : reads r (getitem r k).
Proof. unfold getitem. repeat reads_step. Qed.

Lemma reads_column_sum k : reads r (column_sum r k).
Proof. unfold column_sum, getitem. repeat reads_step. Qed.

End FrameReads.

#[export] Hint Resolve reads_len reads_getitem reads_column_sum : reads_db.

(** ** What the methods do to the store *)

Section MethodsAndStore.
Variable n : nat.

Lemma keeps_calculate_metrics self :
  (n <= df self)%nat -> keeps n (@anything unit) (_calculate_metrics self).
Proof. intros Hr. unfold _calculate_metrics. repeat keeps_step. Qed.

(** The object of a new analyzer is a new one. *)
Lemma keeps_init recs fc :
  keeps n (fun self => (n <= df self)%nat) (__init__ recs fc).
Proof.
  unfold __init__. keeps_step; [ keeps_step | ].
  keeps_step; [ apply keeps_calculate_metrics; assumption | ].
  apply keeps_ret. assumption.
Qed.

Lemma reads_breakeven self :
  reads (df self) (calculate_breakeven_analysis self).
Proof. unfold calculate_breakeven_analysis. repeat reads_step. Qed.

Lemma reads_operating_leverage self :
  reads (df self) (calculate_operating_leverage self).
Proof. unfold calculate_operating_leverage. repeat reads_step. Qed.

Lemma reads_cvp self :
  reads (df self) (get_cost_volume_profit_analysis self).
Proof.
  pose proof (reads_breakeven self). pose proof (reads_operating_leverage self).
  unfold get_cost_volume_profit_analysis. repeat reads_step.
Qed.

Lemma keeps_of_reads (A : Type) r (m : M A) :
  reads r m -> keeps n (@anything A) m.
Proof.
  intros [H1 H2] h Hh. rewrite H1. repeat split; auto.
Qed.

Lemma keeps_cvp self :
  keeps n (@anything dict) (get_cost_volume_profit_analysis self).
Proof. eapply keeps_of_reads. apply reads_cvp. Qed.

Lemma keeps_simulate self product_name new_price :
  keeps n (@anything dict) (simulate_price_changes self product_name new_price).
Proof.
  pose proof keeps_cvp. pose proof keeps_init.
  unfold simulate_price_changes. repeat keeps_step.
Qed.

End MethodsAndStore.

(** A method called on an object that is not in the store raises at its
    first statement. *)
Lemma simulate_dangling self product_name new_price h :
  nth_error h (df self) = None ->
  simulate_price_changes self product_name new_price h = (Raise ReferenceError, h).
Proof.
  intros Hnone. unfold simulate_price_changes, bind, len, bind, read_frame.
  rewrite Hnone. reflexivity.
Qed.

(** C4. [simulate_price_changes] leaves the analyzer as it was: whatever the
    analyzer, the product name, the new price and the store, every object
    the store held before the call (the analyzer's table among them) is
    unchanged after it, and [get_cost_volume_profit_analysis] gives after the
    call the result it gives before it. *)
Theorem C4_simulation_leaves_analyzer_unchanged
        (self : FinancialAnalyzer) (product_name : string) (new_price : Q)
        (h : heap) :
  let h' := snd (simulate_price_changes self product_name new_price h) in
  (forall r, (r < List.length h)%nat -> nth_error h' r = nth_error h r) /\
  nth_error h' (df self) = nth_error h (df self) /\
  fst (get_cost_volume_profit_analysis self h')
  = fst (get_cost_volume_profit_analysis self h) /\
  snd (get_cost_volume_profit_analysis self h') = h'.
Proof.
  intros h'.
  assert (Hold : forall r, (r < List.length h)%nat ->
                           nth_error h' r = nth_error h r).
  { destruct (@keeps_simulate (List.length h) self product_name new_price h
                              (Nat.le_refl _)) as (_ & Hk & _).
    exact Hk. }
  assert (Hself : nth_error h' (df self) = nth_error h (df self)).
  { destruct (Nat.lt_ge_cases (df self) (List.length h)) as [Hlt|Hge].
    - apply Hold; exact Hlt.
    - subst h'. rewrite simulate_dangling; [ reflexivity | ].
      apply nth_error_None; exact Hge. }
  destruct (reads_cvp self) as [Hsnd Hfst].
  repeat split; auto.
Qed.

(** ** The table of an analyzer built from products *)

(** The sum of a list of rationals, accumulated from [0] as [sum()] does. *)
Definition Qsum (l : list Q) : Q := fold_left Qplus l 0.

(** The sum of [f] over the products. *)
Definition total (f : product -> Q) (ps : list product) : Q := Qsum (map f ps).

Definition contribution_margin (p : product) : Q := price p - cost p.
Definition total_revenue (p : product) : Q := price p * quantity p.
Definition total_variable_cost (p : product) : Q := cost p * quantity p.
Definition total_contribution (p : product) : Q :=
  contribution_margin p * quantity p.

(** The column [contribution_margin_percent] of one product, as
    [_calculate_metrics] derives it: the quotient by the price, times 100,
    and [fillna(0)] on the outcome. *)
Definition contribution_margin_percent (p : product) : xnum :=
  let percent :=
    xmul (xdiv (Fin (contribution_margin p)) (Fin (price p))) hundred in
  if is_nan percent then zero else percent.

Definition num_column (f : product -> Q) (ps : list product) : column :=
  NumCol (map (fun p => Fin (f p)) ps).

Definition base_columns (ps : list product) : list (string * column) :=
  [ ("name", ObjCol (map (fun p => CStr (name p)) ps));
    ("price", num_column price ps);
    ("cost", num_column cost ps);
    ("quantity", num_column quantity ps) ].

(** The table [self.df] once [__init__] has run on a non-empty list. *)
Definition metrics_frame (ps : list product) : DataFrame :=
  mkFrame (seq 0 (List.length ps))
          (base_columns ps ++
           [ ("contribution_margin", num_column contribution_margin ps);
             ("contribution_margin_percent",
               NumCol (map contribution_margin_percent ps));
             ("total_revenue", num_column total_revenue ps);
             ("total_variable_cost", num_column total_variable_cost ps);
             ("total_contribution", num_column total_contribution ps) ]).

Section TableOfProducts.

Lemma map2_map (A B C D : Type) (f : B -> C -> D) (g : A -> B) (k : A -> C)
      (l : list A) :
  map2 f (map g l) (map k l) = map (fun x => f (g x) (k x)) l.
Proof. induction l as [|x l IH]; simpl; congruence. Qed.

Lemma column_of_num_cells (A : Type) (f : A -> xnum) (l : list A) :
  column_of_cells (map (fun x => CNum (f x)) l) = NumCol (map f l).
Proof.
  unfold column_of_cells.
  assert (Hall : forallb cell_is_num (map (fun x => CNum (f x)) l) = true)
    by (induction l; simpl; auto).
  rewrite Hall, map_map. reflexivity.
Qed.

Lemma record_keys_products (p : product) (ps : list product) :
  record_keys (map product_record (p :: ps))
  = ["name"; "price"; "cost"; "quantity"].
Proof.
  unfold record_keys. simpl map. simpl fold_left at 1.
  change (fold_left add_key (product_record p) [])
    with ["name"; "price"; "cost"; "quantity"].
  induction ps as [|q ps IH]; simpl; auto.
Qed.

Lemma column_of_str_cells (A : Type) (f : A -> string) (x : A) (l : list A) :
  column_of_cells (map (fun x => CStr (f x)) (x :: l))
  = ObjCol (map (fun x => CStr (f x)) (x :: l)).
Proof. reflexivity. Qed.

Lemma frame_of_products (p : product) (ps : list product) :
  DataFrame_of_records (map product_record (p :: ps))
  = mkFrame (seq 0 (List.length (p :: ps))) (base_columns (p :: ps)).
Proof.
  unfold DataFrame_of_records.
  rewrite record_keys_products, length_map.
  unfold base_columns, num_column.
  rewrite <- (column_of_str_cells name p ps).
  rewrite <- !column_of_num_cells.
  remember (p :: ps) as l eqn:El. clear El.
  cbn [map fst snd]. rewrite !map_map. reflexivity.
Qed.

Lemma read_frame_last (h : heap) (d : DataFrame) :
  read_frame (List.length h) (h ++ [d]) = (Ok d, h ++ [d]).
Proof. unfold read_frame. rewrite nth_error_last. reflexivity. Qed.

Lemma write_frame_last (h : heap) (d d' : DataFrame) :
  write_frame (List.length h) d' (h ++ [d]) = (Ok tt, h ++ [d']).
Proof.
  unfold write_frame. rewrite replace_at_last.
  replace (Nat.ltb (List.length h) (List.length (h ++ [d]))) with true;
    [ reflexivity | ].
  symmetry. apply Nat.ltb_lt. rewrite length_app; simpl; lia.
Qed.

End TableOfProducts.

Section RunFacts.

Lemma bind_ok (A B : Type) (m : M A) (k : A -> M B) h a h' :
  m h = (Ok a, h') -> bind m k h = k a h'.
Proof. intros Hm. unfold bind. rewrite Hm. reflexivity. Qed.

Lemma bind_raise (A B : Type) (m : M A) (k : A -> M B) h e h' :
  m h = (Raise e, h') -> bind m k h = (Raise e, h').
Proof. intros Hm. unfold bind. rewrite Hm. reflexivity. Qed.

Lemma len_last h d :
  len (List.length h) (h ++ [d]) = (Ok (List.length (index d)), h ++ [d]).
Proof. unfold len. erewrite bind_ok by apply read_frame_last. reflexivity. Qed.

Lemma getitem_last h d k c :
  frame_get d k = Ok c ->
  getitem (List.length h) k (h ++ [d]) = (Ok c, h ++ [d]).
Proof.
  intros Hc. unfold getitem. erewrite bind_ok by apply read_frame_last.
  unfold lift. rewrite Hc. reflexivity.
Qed.

Lemma setitem_last h d k c :
  setitem (List.length h) k c (h ++ [d]) = (Ok tt, h ++ [frame_set d k c]).
Proof.
  unfold setitem. erewrite bind_ok by apply read_frame_last.
  apply write_frame_last.
Qed.

End RunFacts.

(** Symbolic run of a method on the newest object of the store. *)
Ltac run_last :=
  repeat (erewrite bind_ok;
          [ | first [ apply len_last
                    | apply getitem_last; reflexivity
                    | apply setitem_last
                    | reflexivity ] ];
          cbv beta).

Section InitSpec.

Lemma calculate_metrics_products (h : heap) recs fc (l : list product) :
  l <> [] ->
  _calculate_metrics (mkAnalyzer recs fc (List.length h))
    (h ++ [mkFrame (seq 0 (List.length l)) (base_columns l)])
  = (Ok tt, h ++ [metrics_frame l]).
Proof.
  intros Hl.
  assert (Hlen : Nat.ltb 0 (List.length l) = true).
  { destruct l; [ congruence | reflexivity ]. }
  unfold _calculate_metrics. cbn [df].
  erewrite bind_ok by apply len_last. cbn [index].
  rewrite length_seq, Hlen.
  run_last.
  rewrite setitem_last. f_equal. f_equal. f_equal.
  unfold base_columns, num_column, fillna.
  rewrite !map2_map, !map_map.
  reflexivity.
Qed.

(** What the constructor does, on a non-empty list of products: it never
    raises, the analyzer refers to a new object, and that object holds
    the table of the products and their metrics. *)
Lemma analyzer_of_products (h : heap) (ps : list product) (fc : Q) :
  ps <> [] ->
  analyzer_of ps fc h
  = (Ok (mkAnalyzer (map product_record ps) fc (List.length h)),
     h ++ [metrics_frame ps]).
Proof.
  intros Hps. unfold analyzer_of, __init__.
  erewrite bind_ok by reflexivity.
  destruct ps as [|p ps]; [ congruence | ].
  rewrite frame_of_products.
  erewrite bind_ok by (apply calculate_metrics_products; discriminate).
  reflexivity.
Qed.

(** On the empty list the object is the empty table, and no metric is
    computed. *)
Lemma analyzer_of_nothing (h : heap) (fc : Q) :
  analyzer_of [] fc h = (Ok (mkAnalyzer [] fc (List.length h)), h ++ [empty_frame]).
Proof.
  unfold analyzer_of, __init__, _calculate_metrics.
  erewrite bind_ok by reflexivity.
  erewrite bind_ok.
  2: { erewrite bind_ok by apply len_last. reflexivity. }
  reflexivity.
Qed.

End InitSpec.
Section QueriesRun.

Lemma len_at h r d :
  nth_error h r = Some d -> len r h = (Ok (List.length (index d)), h).
Proof.
  intros Hd. unfold len, bind, read_frame. rewrite Hd. reflexivity.
Qed.

Lemma getitem_at h r d k c :
  nth_error h r = Some d -> frame_get d k = Ok c ->
  getitem r k h = (Ok c, h).
Proof.
  intros Hd Hc. unfold getitem, bind, read_frame, lift. rewrite Hd, Hc.
  reflexivity.
Qed.

Lemma column_sum_at h r d k l :
  nth_error h r = Some d -> frame_get d k = Ok (NumCol l) ->
  column_sum r k h = (Ok (sum_values l), h).
Proof.
  intros Hd Hc. unfold column_sum.
  erewrite bind_ok by (eapply getitem_at; eassumption). reflexivity.
Qed.

Lemma column_mean_at h r d k l :
  nth_error h r = Some d -> frame_get d k = Ok (NumCol l) ->
  column_mean r k h
  = (Ok (xdiv (sum_values l) (of_nat (List.length (skipna l)))), h).
Proof.
  intros Hd Hc. unfold column_mean.
  erewrite bind_ok by (eapply getitem_at; eassumption). reflexivity.
Qed.

Lemma skipna_finite (l : list Q) : skipna (map Fin l) = map Fin l.
Proof. induction l as [|q l IH]; simpl; congruence. Qed.

Lemma fold_xadd_finite (l : list Q) (a : Q) :
  fold_left xadd (map Fin l) (Fin a) = Fin (fold_left Qplus l a).
Proof. revert a; induction l as [|q l IH]; intros a; simpl; auto. Qed.

(** The sum of a column of finite numbers is the finite sum. *)
Lemma sum_values_finite (f : product -> Q) (ps : list product) :
  sum_values (map (fun p => Fin (f p)) ps) = Fin (total f ps).
Proof.
  unfold sum_values, total, Qsum, zero.
  rewrite <- (map_map f Fin), skipna_finite. apply fold_xadd_finite.
Qed.

Lemma metrics_rows (ps : list product) :
  List.length (index (metrics_frame ps)) = List.length ps.
Proof. apply length_seq. Qed.

Lemma rows_nonzero (ps : list product) :
  ps <> [] -> Nat.eqb (List.length ps) 0 = false.
Proof. destruct ps; [ congruence | reflexivity ]. Qed.

End QueriesRun.

(** Symbolic run of a method that reads the object [Hd] tells about. *)
Ltac run_at Hd :=
  repeat (erewrite bind_ok;
          [ | first [ eapply len_at; exact Hd
                    | eapply column_sum_at; [ exact Hd | reflexivity ]
                    | eapply column_mean_at; [ exact Hd | reflexivity ]
                    | eapply getitem_at; [ exact Hd | reflexivity ]
                    | reflexivity ] ];
          cbv beta).

(** The result of [calculate_breakeven_analysis] as a function of the three
    column sums and the fixed costs. *)
Definition breakeven_result (total_contribution total_quantity total_revenue : xnum)
           (fixed_costs : Q) : dict :=
  let weighted_avg_contribution_margin :=
    if xgtb total_quantity zero then xdiv total_contribution total_quantity
    else zero in
  let weighted_avg_price :=
    if xgtb total_quantity zero then xdiv total_revenue total_quantity
    else zero in
  let breakeven_units :=
    if xgtb weighted_avg_contribution_margin zero
    then xdiv (Fin fixed_costs) weighted_avg_contribution_margin
    else zero in
  let breakeven_revenue := xmul breakeven_units weighted_avg_price in
  let safety_margin_units := xsub total_quantity breakeven_units in
  let safety_margin_percent :=
    if xgtb total_quantity zero
    then xmul (xdiv safety_margin_units total_quantity) hundred
    else zero in
  let safety_margin_revenue := xsub total_revenue breakeven_revenue in
  [ ("breakeven_units", VNum breakeven_units);
    ("breakeven_revenue", VNum breakeven_revenue);
    ("safety_margin_units", VNum safety_margin_units);
    ("safety_margin_percent", VNum safety_margin_percent);
    ("safety_margin_revenue", VNum safety_margin_revenue);
    ("weighted_avg_contribution_margin", VNum weighted_avg_contribution_margin);
    ("weighted_avg_price", VNum weighted_avg_price) ].

(** The result of [calculate_operating_leverage] likewise. *)
Definition leverage_result (total_contribution : xnum) (fixed_costs : Q) : xnum :=
  let net_profit := xsub total_contribution (Fin fixed_costs) in
  if xeqb net_profit zero then PInf else xdiv total_contribution net_profit.

Section QueriesOnProducts.
Variable self : FinancialAnalyzer.
Variable ps : list product.
Variable h : heap.
Hypothesis Hrows : ps <> [].
Hypothesis Htable : nth_error h (df self) = Some (metrics_frame ps).

Lemma breakeven_run :
  calculate_breakeven_analysis self h
  = (Ok (breakeven_result (Fin (total total_contribution ps))
                          (Fin (total quantity ps))
                          (Fin (total total_revenue ps))
                          (fixed_costs self)), h).
Proof using Hrows Htable.
  unfold calculate_breakeven_analysis.
  erewrite bind_ok by (eapply len_at; exact Htable).
  rewrite metrics_rows, (rows_nonzero Hrows).
  run_at Htable.
  unfold num_column. rewrite !sum_values_finite. reflexivity.
Qed.

Lemma leverage_run :
  calculate_operating_leverage self h
  = (Ok (leverage_result (Fin (total total_contribution ps)) (fixed_costs self)),
     h).
Proof using Hrows Htable.
  unfold calculate_operating_leverage.
  erewrite bind_ok by (eapply len_at; exact Htable).
  rewrite metrics_rows, (rows_nonzero Hrows).
  run_at Htable.
  unfold num_column. rewrite !sum_values_finite. unfold leverage_result.
  destruct (xeqb _ _); reflexivity.
Qed.

End QueriesOnProducts.

Section Comparisons.

Lemma Qltb_lt (a b : Q) : Qltb a b = true <-> a < b.
Proof.
  unfold Qltb. rewrite negb_true_iff, <- not_true_iff_false, Qle_bool_iff.
  split; [ apply Qnot_le_lt | apply Qlt_not_le ].
Qed.

Lemma Qltb_ge (a b : Q) : Qltb a b = false <-> b <= a.
Proof.
  unfold Qltb. rewrite negb_false_iff. apply Qle_bool_iff.
Qed.

Lemma Qeq_bool_false (a b : Q) : Qeq_bool a b = false <-> ~ a == b.
Proof.
  rewrite <- not_true_iff_false, Qeq_bool_iff. reflexivity.
Qed.


(** Under [0 <= b] the guard [b > 0] and the guard [b <> 0] agree. *)
Lemma positive_guard_is_nonzero_guard (A : Type) (b : Q) (x y : A) :
  0 <= b ->
  (if Qltb 0 b then x else y) = (if Qeq_bool b 0 then y else x).
Proof.
  intros Hb. destruct (Qltb 0 b) eqn:Hlt.
  - apply Qltb_lt in Hlt.
    replace (Qeq_bool b 0) with false; [ reflexivity | ].
    symmetry. apply Qeq_bool_false. lra.
  - apply Qltb_ge in Hlt.
    replace (Qeq_bool b 0) with true; [ reflexivity | ].
    symmetry. apply Qeq_bool_iff. lra.
Qed.

Lemma assoc_get_here (V : Type) (k : string) (v : V) l :
  assoc_get k ((k, v) :: l) = Some v.
Proof. simpl. rewrite String.eqb_refl. reflexivity. Qed.

Lemma assoc_get_next (V : Type) (k k' : string) (v : V) l :
  String.eqb k' k = false -> assoc_get k ((k', v) :: l) = assoc_get k l.
Proof. intros Hk. simpl. rewrite Hk. reflexivity. Qed.

End Comparisons.

(** Reading a field of a dictionary written out in full. *)
Ltac dict_field :=
  repeat (rewrite assoc_get_next by reflexivity);
  rewrite assoc_get_here.

(** ** C1: the break-even point *)






Definition example_analyzer : FinancialAnalyzer :=
  mkAnalyzer (map product_record example_products) 1000 0%nat.


(** ** Operating leverage in exact arithmetic *)

Lemma leverage_value (tc fc : Q) :
  leverage_result (Fin tc) fc
  = if Qeq_bool tc fc then PInf else Fin (tc / (tc - fc)).
Proof.
  unfold leverage_result, xsub, xneg, xadd, xeqb, zero, xdiv.
  destruct (Qeq_bool tc fc) eqn:Heq.
  - apply Qeq_bool_iff in Heq.
    replace (Qeq_bool (tc + - fc) 0) with true; [ reflexivity | ].
    symmetry. apply Qeq_bool_iff. lra.
  - apply Qeq_bool_false in Heq.
    replace (Qeq_bool (tc + - fc) 0) with false; [ reflexivity | ].
    symmetry. apply Qeq_bool_false. lra.
Qed.

(** In exact arithmetic, for an analyzer built from a non-empty list of
    products, [calculate_operating_leverage] returns a number; that number
    is [+inf] if and only if the total contribution, the sum of
    [(price - cost) * quantity] over the products, equals the fixed costs,
    and otherwise it is the total contribution divided by the total
    contribution less the fixed costs. *)
Lemma operating_leverage_in_exact_arithmetic
        (ps : list product) (fc : Q) (h0 h : heap) (self : FinancialAnalyzer) :
  ps <> [] ->
  analyzer_of ps fc h0 = (Ok self, h) ->
  let tc := total (fun p => (price p - cost p) * quantity p) ps in
  exists x,
    calculate_operating_leverage self h = (Ok x, h) /\
    (x = PInf <-> tc == fc) /\
    (~ tc == fc -> x = Fin (tc / (tc - fc))).
Proof.
  intros Hps Hinit tc.
  rewrite (analyzer_of_products h0 fc Hps) in Hinit.
  inversion Hinit; subst self h; clear Hinit.
  eexists. split.
  - apply leverage_run with (ps := ps); [ exact Hps | apply nth_error_last ].
  - cbn [fixed_costs]. change (total total_contribution ps) with tc.
    rewrite leverage_value.
    destruct (Qeq_bool tc fc) eqn:Heq.
    + apply Qeq_bool_iff in Heq. repeat split; auto. intros Hne; contradiction.
    + apply Qeq_bool_false in Heq. repeat split; auto.
      * intros Hinf; discriminate.
      * intros Hx; contradiction.
Qed.


(** ** C5: the three totals *)

(** The result of [get_cost_volume_profit_analysis] as a function of the
    column sums and the fixed costs. *)
Definition cvp_result (total_revenue total_variable_cost total_contribution
                       total_quantity : xnum) (fixed_costs : Q) : dict :=
  let net_profit := xsub total_contribution (Fin fixed_costs) in
  let contribution_margin_ratio :=
    if xgtb total_revenue zero
    then xmul (xdiv total_contribution total_revenue) hundred
    else zero in
  let variable_cost_ratio :=
    if xgtb total_revenue zero
    then xmul (xdiv total_variable_cost total_revenue) hundred
    else zero in
  assoc_update
    [ ("total_revenue", VNum total_revenue);
      ("total_variable_cost", VNum total_variable_cost);
      ("total_contribution", VNum total_contribution);
      ("fixed_costs", VNum (Fin fixed_costs));
      ("net_profit", VNum net_profit);
      ("contribution_margin_ratio", VNum contribution_margin_ratio);
      ("variable_cost_ratio", VNum variable_cost_ratio);
      ("operating_leverage",
        VNum (leverage_result total_contribution fixed_costs)) ]
    (breakeven_result total_contribution total_quantity total_revenue
                      fixed_costs).

Section CvpOnProducts.
Variable self : FinancialAnalyzer.
Variable ps : list product.
Variable h : heap.
Hypothesis Hrows : ps <> [].
Hypothesis Htable : nth_error h (df self) = Some (metrics_frame ps).

Lemma cvp_run :
  get_cost_volume_profit_analysis self h
  = (Ok (cvp_result (Fin (total total_revenue ps))
                    (Fin (total total_variable_cost ps))
                    (Fin (total total_contribution ps))
                    (Fin (total quantity ps))
                    (fixed_costs self)), h).
Proof using Hrows Htable.
  unfold get_cost_volume_profit_analysis.
  erewrite bind_ok by (eapply len_at; exact Htable).
  rewrite metrics_rows, (rows_nonzero Hrows).
  run_at Htable.
  erewrite bind_ok by (apply breakeven_run with (ps := ps); assumption).
  erewrite bind_ok by (apply leverage_run with (ps := ps); assumption).
  unfold num_column. rewrite !sum_values_finite. reflexivity.
Qed.

Lemma column_sum_run (f : product -> Q) (k : string) :
  frame_get (metrics_frame ps) k = Ok (num_column f ps) ->
  column_sum (df self) k h = (Ok (Fin (total f ps)), h).
Proof using Htable.
  intros Hk. erewrite column_sum_at by eassumption.
  rewrite sum_values_finite. reflexivity.
Qed.

End CvpOnProducts.

Section Totals.

Lemma Qsum_from (l : list Q) (a : Q) : fold_left Qplus l a == a + Qsum l.
Proof.
  unfold Qsum. revert a. induction l as [|q l IH]; intros a; simpl.
  - ring.
  - rewrite (IH (a + q)), (IH (0 + q)). ring.
Qed.

Lemma total_cons (f : product -> Q) (p : product) (ps : list product) :
  total f (p :: ps) == f p + total f ps.
Proof.
  unfold total at 1, Qsum. simpl. rewrite Qsum_from. unfold total. ring.
Qed.

Lemma total_nonneg (f : product -> Q) (ps : list product) :
  Forall (fun p => 0 <= f p) ps -> 0 <= total f ps.
Proof.
  induction 1 as [|p ps Hp Hps IH].
  - unfold total, Qsum; simpl. lra.
  - rewrite total_cons. lra.
Qed.

(** Contribution is revenue less variable cost, product by product and
    hence in total. *)
Lemma total_contribution_split (ps : list product) :
  total total_contribution ps
  == total total_revenue ps - total total_variable_cost ps.
Proof.
  induction ps as [|p ps IH].
  - unfold total, Qsum; simpl. ring.
  - rewrite !total_cons, IH.
    unfold total_contribution, contribution_margin, total_revenue,
      total_variable_cost. ring.
Qed.

End Totals.

(** C5. For an analyzer built from a non-empty list of products, the sum of
    the column [total_contribution] equals the sum of [total_revenue] less
    the sum of [total_variable_cost], the columns being those
    [_calculate_metrics] derived; [get_cost_volume_profit_analysis] reports
    these three sums.  Arithmetic is exact. *)
Theorem C5_contribution_is_revenue_less_variable_cost
        (ps : list product) (fc : Q) (h0 h : heap) (self : FinancialAnalyzer) :
  ps <> [] ->
  analyzer_of ps fc h0 = (Ok self, h) ->
  exists revenue variable_cost contribution : Q,
    column_sum (df self) "total_revenue" h = (Ok (Fin revenue), h) /\
    column_sum (df self) "total_variable_cost" h = (Ok (Fin variable_cost), h) /\
    column_sum (df self) "total_contribution" h = (Ok (Fin contribution), h) /\
    (exists d,
        get_cost_volume_profit_analysis self h = (Ok d, h) /\
        assoc_get "total_revenue" d = Some (VNum (Fin revenue)) /\
        assoc_get "total_variable_cost" d = Some (VNum (Fin variable_cost)) /\
        assoc_get "total_contribution" d = Some (VNum (Fin contribution))) /\
    contribution == revenue - variable_cost.
Proof.
  intros Hps Hinit.
  rewrite (analyzer_of_products h0 fc Hps) in Hinit.
  inversion Hinit; subst self h; clear Hinit.
  pose proof (nth_error_last h0 (metrics_frame ps)) as Htable.
  exists (total total_revenue ps), (total total_variable_cost ps),
    (total total_contribution ps).
  repeat split.
  - apply column_sum_run with (ps := ps); [ exact Htable | reflexivity ].
  - apply column_sum_run with (ps := ps); [ exact Htable | reflexivity ].
  - apply column_sum_run with (ps := ps); [ exact Htable | reflexivity ].
  - eexists. split.
    + apply cvp_run with (ps := ps); [ exact Hps | exact Htable ].
    + repeat split; reflexivity.
  - apply total_contribution_split.
Qed.

Lemma C5_contribution_is_revenue_less_variable_cost_witness :
  exists revenue variable_cost contribution : Q,
    column_sum 0%nat "total_revenue" [metrics_frame example_products]
    = (Ok (Fin revenue), [metrics_frame example_products]) /\
    column_sum 0%nat "total_variable_cost" [metrics_frame example_products]
    = (Ok (Fin variable_cost), [metrics_frame example_products]) /\
    column_sum 0%nat "total_contribution" [metrics_frame example_products]
    = (Ok (Fin contribution), [metrics_frame example_products]) /\
    (exists d,
        get_cost_volume_profit_analysis example_analyzer
                                        [metrics_frame example_products]
        = (Ok d, [metrics_frame example_products]) /\
        assoc_get "total_revenue" d = Some (VNum (Fin revenue)) /\
        assoc_get "total_variable_cost" d = Some (VNum (Fin variable_cost)) /\
        assoc_get "total_contribution" d = Some (VNum (Fin contribution))) /\
    contribution == revenue - variable_cost.
Proof.
  apply (@C5_contribution_is_revenue_less_variable_cost
           example_products 1000 [] _ example_analyzer).
  - discriminate.
  - vm_compute. reflexivity.
Defined.
(** ** Combos *)

(** The products a list of names selects, in table order. *)
Definition selected (names : list string) (ps : list product) : list product :=
  filter (fun p => existsb (String.eqb (name p)) names) ps.

(** The result of [calculate_combo_analysis] on a selection that is not
    empty, as a function of the sums over the selected rows. *)
Definition combo_result (product_names : list string)
           (combo_original_price combo_total_cost avg_individual_margin : xnum)
           (discount_percent : Q) : dict :=
  let combo_discounted_price :=
    xmul combo_original_price
         (xsub (Fin 1) (xdiv (Fin discount_percent) hundred)) in
  let combo_margin := xsub combo_discounted_price combo_total_cost in
  let combo_margin_percent :=
    if xgtb combo_discounted_price zero
    then xmul (xdiv combo_margin combo_discounted_price) hundred
    else zero in
  [ ("products", VNames product_names);
    ("original_price", VNum combo_original_price);
    ("discounted_price", VNum combo_discounted_price);
    ("total_cost", VNum combo_total_cost);
    ("combo_margin", VNum combo_margin);
    ("combo_margin_percent", VNum combo_margin_percent);
    ("avg_individual_margin_percent", VNum avg_individual_margin);
    ("margin_impact", VNum (xsub combo_margin_percent avg_individual_margin));
    ("discount_applied", VNum (Fin discount_percent));
    ("viability", VStr (viability_of combo_margin_percent)) ].

(** [s.mean()] on the values of a column. *)
Definition mean_values (l : list xnum) : xnum :=
  xdiv (sum_values l) (of_nat (List.length (skipna l))).

Section Selection.

Lemma select_map (A B : Type) (b : A -> bool) (f : A -> B) (l : list A) :
  select (map b l) (map f l) = map f (filter b l).
Proof.
  induction l as [|x l IH]; simpl; [ reflexivity | ].
  destruct (b x); simpl; congruence.
Qed.

Lemma select_length (A B : Type) (b : A -> bool) (l : list A) (l' : list B) :
  List.length l' = List.length l ->
  List.length (select (map b l) l') = List.length (filter b l).
Proof.
  revert l'; induction l as [|x l IH]; intros [|y l'] Hlen; simpl in *;
    try reflexivity; try discriminate.
  destruct (b x); simpl; rewrite IH by congruence; reflexivity.
Qed.

Lemma isin_products (names : list string) (ps : list product) :
  series_isin (ObjCol (map (fun p => CStr (name p)) ps)) names
  = map (fun p => existsb (String.eqb (name p)) names) ps.
Proof. unfold series_isin, column_cells. apply map_map. Qed.

Lemma getitem_mask_at h r d mask :
  nth_error h r = Some d ->
  getitem_mask r mask h = (Ok (List.length h), h ++ [frame_filter mask d]).
Proof.
  intros Hd. unfold getitem_mask, bind, read_frame, new_frame.
  rewrite Hd. reflexivity.
Qed.

Lemma column_sum_last h d k l :
  frame_get d k = Ok (NumCol l) ->
  column_sum (List.length h) k (h ++ [d]) = (Ok (sum_values l), h ++ [d]).
Proof. intros Hk. eapply column_sum_at; [ apply nth_error_last | exact Hk ]. Qed.

Lemma column_mean_last h d k l :
  frame_get d k = Ok (NumCol l) ->
  column_mean (List.length h) k (h ++ [d]) = (Ok (mean_values l), h ++ [d]).
Proof. intros Hk. eapply column_mean_at; [ apply nth_error_last | exact Hk ]. Qed.

End Selection.

Section ComboOnProducts.
Variable self : FinancialAnalyzer.
Variable ps : list product.
Variable h : heap.
Hypothesis Hrows : ps <> [].
Hypothesis Htable : nth_error h (df self) = Some (metrics_frame ps).

Variable product_names : list string.
Variable discount_percent : Q.

(** The table of the selected rows, a new object. *)
Definition combo_frame : DataFrame :=
  frame_filter (map (fun p => existsb (String.eqb (name p)) product_names) ps)
               (metrics_frame ps).

Lemma combo_start :
  forall k : ref -> M dict,
    (n <- len (df self) ;;
     if Nat.eqb n 0 then ret []
     else
       names <- getitem (df self) "name" ;;
       combo_products <-
         getitem_mask (df self) (series_isin names product_names) ;;
       k combo_products) h
    = k (List.length h) (h ++ [combo_frame]).
Proof using Hrows Htable.
  intros k.
  erewrite bind_ok by (eapply len_at; exact Htable).
  rewrite metrics_rows, (rows_nonzero Hrows).
  erewrite bind_ok by (eapply getitem_at; [ exact Htable | reflexivity ]).
  rewrite isin_products.
  erewrite bind_ok by (eapply getitem_mask_at; exact Htable).
  reflexivity.
Qed.

Lemma combo_frame_rows :
  List.length (index combo_frame) = List.length (selected product_names ps).
Proof.
  unfold combo_frame, frame_filter, selected. cbn [index metrics_frame].
  apply select_length. apply length_seq.
Qed.

Lemma combo_run_nothing :
  selected product_names ps = [] ->
  calculate_combo_analysis self product_names discount_percent h
  = (Ok [("error", VStr "Nenhum produto encontrado")], h ++ [combo_frame]).
Proof using Hrows Htable.
  intros Hsel. unfold calculate_combo_analysis. rewrite combo_start.
  erewrite bind_ok by apply len_last.
  rewrite combo_frame_rows, Hsel. reflexivity.
Qed.

Lemma combo_run :
  selected product_names ps <> [] ->
  calculate_combo_analysis self product_names discount_percent h
  = (Ok (combo_result
           product_names
           (Fin (total price (selected product_names ps)))
           (Fin (total cost (selected product_names ps)))
           (mean_values (map contribution_margin_percent
                             (selected product_names ps)))
           discount_percent),
     h ++ [combo_frame]).
Proof using Hrows Htable.
  intros Hsel. unfold calculate_combo_analysis. rewrite combo_start.
  erewrite bind_ok by apply len_last.
  rewrite combo_frame_rows, (rows_nonzero Hsel).
  erewrite bind_ok by (apply column_sum_last; reflexivity).
  erewrite bind_ok by (apply column_sum_last; reflexivity).
  erewrite bind_ok by (apply column_mean_last; reflexivity).
  rewrite !select_map. fold (selected product_names ps).
  rewrite !sum_values_finite. reflexivity.
Qed.

End ComboOnProducts.

Section ComboFigures.

(** A percentage guarded by [denominator > 0], as the program writes it. *)
Lemma guarded_percent (a b : Q) :
  (if xgtb (Fin b) zero then xmul (xdiv (Fin a) (Fin b)) hundred else zero)
  = Fin (if Qltb 0 b then a / b * 100 else 0).
Proof.
  unfold xgtb, xltb, zero, xdiv.
  destruct (Qltb 0 b) eqn:Hb; [ | reflexivity ].
  apply Qltb_lt in Hb.
  replace (Qeq_bool b 0) with false; [ reflexivity | ].
  symmetry. apply Qeq_bool_false. lra.
Qed.

(** The combo figures as the program computes them, whatever the sign of
    the prices: the percentage is guarded by [discounted price > 0]. *)
Lemma combo_figures names (tp tcost : Q) (avg : xnum) (d : Q) :
  let discounted := tp * (1 - d / 100) in
  let percent :=
    if Qltb 0 discounted then (discounted - tcost) / discounted * 100 else 0 in
  let res := combo_result names (Fin tp) (Fin tcost) avg d in
  assoc_get "discounted_price" res = Some (VNum (Fin discounted)) /\
  assoc_get "combo_margin_percent" res = Some (VNum (Fin percent)) /\
  assoc_get "viability" res
  = Some (VStr (if Qltb 15 percent then "Viável"
                else if Qltb 5 percent then "Revisar"
                else "Não recomendado")).
Proof.
  intros discounted percent res. subst res. unfold combo_result.
  change (xmul (Fin tp) (xsub (Fin 1) (xdiv (Fin d) hundred)))
    with (Fin discounted).
  change (xsub (Fin discounted) (Fin tcost)) with (Fin (discounted - tcost)).
  rewrite guarded_percent. fold percent.
  repeat split; dict_field; reflexivity.
Qed.

Lemma discounted_price_nonneg (tp d : Q) :
  0 <= tp -> 0 <= d <= 100 -> 0 <= tp * (1 - d / 100).
Proof.
  intros Htp [Hd0 Hd100]. apply Qmult_le_0_compat; [ exact Htp | ].
  assert (Hd : d / 100 <= 1).
  { apply Qle_shift_div_r; lra. }
  lra.
Qed.

End ComboFigures.

(** The spec's combo margin in percent: the margin over the discounted
    price, times 100, and [0] when the discounted price is [0]. *)
Definition discounted_price_spec (chosen : list product) (discount_percent : Q) : Q :=
  total price chosen * (1 - discount_percent / 100).

Definition combo_margin_percent_spec (chosen : list product)
           (discount_percent : Q) : Q :=
  let discounted := discounted_price_spec chosen discount_percent in
  if Qeq_bool discounted 0 then 0
  else (discounted - total cost chosen) / discounted * 100.

(** In exact arithmetic, for an analyzer built from a non-empty list of
    products, names that select at least one product, and a discount between
    0 and 100, the selected prices not summing to a negative number:
    [calculate_combo_analysis] returns a dictionary whose
    [combo_margin_percent] is the discounted price less the total cost, over
    the discounted price, times 100, and [0] when the discounted price is
    [0]; its [viability] is "Viável" when that percentage is above 15,
    "Revisar" when it is above 5 and at most 15, and "Não recomendado" when
    it is at most 5. *)
Lemma combo_margin_in_exact_arithmetic
        (ps : list product) (fc : Q) (h0 h : heap) (self : FinancialAnalyzer)
        (product_names : list string) (discount_percent : Q) :
  ps <> [] ->
  analyzer_of ps fc h0 = (Ok self, h) ->
  selected product_names ps <> [] ->
  0 <= discount_percent <= 100 ->
  0 <= total price (selected product_names ps) ->
  let percent :=
    combo_margin_percent_spec (selected product_names ps) discount_percent in
  exists res h' verdict,
    calculate_combo_analysis self product_names discount_percent h
    = (Ok res, h') /\
    assoc_get "combo_margin_percent" res = Some (VNum (Fin percent)) /\
    assoc_get "viability" res = Some (VStr verdict) /\
    (15 < percent -> verdict = "Viável") /\
    (5 < percent <= 15 -> verdict = "Revisar") /\
    (percent <= 5 -> verdict = "Não recomendado").
Proof.
  intros Hps Hinit Hsel Hd Hprice percent.
  rewrite (analyzer_of_products h0 fc Hps) in Hinit.
  inversion Hinit; subst self h; clear Hinit.
  pose proof (nth_error_last h0 (metrics_frame ps)) as Htable.
  destruct (combo_figures product_names
              (total price (selected product_names ps))
              (total cost (selected product_names ps))
              (mean_values (map contribution_margin_percent
                                (selected product_names ps)))
              discount_percent) as (_ & Hpercent & Hverdict).
  rewrite (positive_guard_is_nonzero_guard _ _
             (discounted_price_nonneg Hprice Hd)) in Hpercent, Hverdict.
  fold (discounted_price_spec (selected product_names ps) discount_percent)
    in Hpercent, Hverdict.
  fold (combo_margin_percent_spec (selected product_names ps) discount_percent)
    in Hpercent, Hverdict.
  fold percent in Hpercent, Hverdict.
  eexists. eexists. eexists. split; [ | split; [ | split ] ].
  - apply combo_run with (ps := ps); [ exact Hps | exact Htable | exact Hsel ].
  - exact Hpercent.
  - exact Hverdict.
  - destruct (Qltb 15 percent) eqn:H15; destruct (Qltb 5 percent) eqn:H5;
      try apply Qltb_lt in H15; try apply Qltb_ge in H15;
      try apply Qltb_lt in H5; try apply Qltb_ge in H5;
      repeat split; intros; try reflexivity; exfalso; lra.
Qed.

(** ** The program on binary64 *)

(** In exact arithmetic these are the methods of the class as embedded
    above. *)
Lemma exact_calculate_metrics :
  Arith._calculate_metrics exact = _calculate_metrics.
Proof. reflexivity. Qed.

Lemma exact_init : Arith.__init__ exact = __init__.
Proof. reflexivity. Qed.

Lemma exact_operating_leverage :
  Arith.calculate_operating_leverage exact = calculate_operating_leverage.
Proof. reflexivity. Qed.

Lemma exact_combo_analysis :
  Arith.calculate_combo_analysis exact = calculate_combo_analysis.
Proof. reflexivity. Qed.

(** *** The table of an analyzer, in a given arithmetic *)

Section TableInArithmetic.
Variable A : arithmetic.

(** The numbers the cells of a product hold when the analyzer is built. *)
Variable price_of cost_of quantity_of : product -> xnum.

Definition record_in (p : product) : record :=
  [ ("name", CStr (name p));
    ("price", CNum (price_of p));
    ("cost", CNum (cost_of p));
    ("quantity", CNum (quantity_of p)) ].

Definition margin_in (p : product) : xnum :=
  num_sub A (price_of p) (cost_of p).

Definition margin_percent_in (p : product) : xnum :=
  let percent := num_mul A (num_div A (margin_in p) (price_of p)) hundred in
  if is_nan percent then zero else percent.

Definition revenue_in (p : product) : xnum :=
  num_mul A (price_of p) (quantity_of p).

Definition variable_cost_in (p : product) : xnum :=
  num_mul A (cost_of p) (quantity_of p).

Definition contribution_in (p : product) : xnum :=
  num_mul A (margin_in p) (quantity_of p).

Definition base_columns_in (ps : list product) : list (string * column) :=
  [ ("name", ObjCol (map (fun p => CStr (name p)) ps));
    ("price", NumCol (map price_of ps));
    ("cost", NumCol (map cost_of ps));
    ("quantity", NumCol (map quantity_of ps)) ].

(** The table [self.df] once [__init__] has run on a non-empty list. *)
Definition metrics_frame_in (ps : list product) : DataFrame :=
  mkFrame (seq 0 (List.length ps))
          (base_columns_in ps ++
           [ ("contribution_margin", NumCol (map margin_in ps));
             ("contribution_margin_percent", NumCol (map margin_percent_in ps));
             ("total_revenue", NumCol (map revenue_in ps));
             ("total_variable_cost", NumCol (map variable_cost_in ps));
             ("total_contribution", NumCol (map contribution_in ps)) ]).

Lemma record_keys_in (p : product) (ps : list product) :
  record_keys (map record_in (p :: ps)) = ["name"; "price"; "cost"; "quantity"].
Proof.
  unfold record_keys. simpl map. simpl fold_left at 1.
  change (fold_left add_key (record_in p) [])
    with ["name"; "price"; "cost"; "quantity"].
  induction ps as [|q ps IH]; simpl; auto.
Qed.

Lemma frame_of_records_in (p : product) (ps : list product) :
  DataFrame_of_records (map record_in (p :: ps))
  = mkFrame (seq 0 (List.length (p :: ps))) (base_columns_in (p :: ps)).
Proof.
  unfold DataFrame_of_records.
  rewrite record_keys_in, length_map.
  unfold base_columns_in.
  rewrite <- (column_of_str_cells name p ps).
  rewrite <- !column_of_num_cells.
  remember (p :: ps) as l eqn:El. clear El.
  cbn [map fst snd]. rewrite !map_map. reflexivity.
Qed.

Lemma calculate_metrics_in (h : heap) recs fc (l : list product) :
  l <> [] ->
  Arith._calculate_metrics A (mkAnalyzer recs fc (List.length h))
    (h ++ [mkFrame (seq 0 (List.length l)) (base_columns_in l)])
  = (Ok tt, h ++ [metrics_frame_in l]).
Proof.
  intros Hl.
  assert (Hlen : Nat.ltb 0 (List.length l) = true).
  { destruct l; [ congruence | reflexivity ]. }
  unfold Arith._calculate_metrics. cbn [df].
  erewrite bind_ok by apply len_last. cbn [index].
  rewrite length_seq, Hlen.
  run_last.
  rewrite setitem_last. f_equal. f_equal. f_equal.
  unfold base_columns_in, fillna.
  rewrite !map2_map, !map_map.
  reflexivity.
Qed.

(** The constructor on a non-empty list of products: it does not raise,
    and the new object holds the table of the products and the metrics
    computed in the arithmetic. *)
Lemma init_in (h : heap) (ps : list product) (fc : Q) :
  ps <> [] ->
  Arith.__init__ A (map record_in ps) fc h
  = (Ok (mkAnalyzer (map record_in ps) fc (List.length h)),
     h ++ [metrics_frame_in ps]).
Proof.
  intros Hps. unfold Arith.__init__.
  erewrite bind_ok by reflexivity.
  destruct ps as [|p ps]; [ congruence | ].
  rewrite frame_of_records_in.
  erewrite bind_ok by (apply calculate_metrics_in; discriminate).
  reflexivity.
Qed.

Lemma column_sum_in_at h r d k l :
  nth_error h r = Some d -> frame_get d k = Ok (NumCol l) ->
  Arith.column_sum A r k h = (Ok (num_sum A l), h).
Proof.
  intros Hd Hc. unfold Arith.column_sum.
  erewrite bind_ok by (eapply getitem_at; eassumption). reflexivity.
Qed.

Lemma column_mean_in_at h r d k l :
  nth_error h r = Some d -> frame_get d k = Ok (NumCol l) ->
  Arith.column_mean A r k h
  = (Ok (num_div A (num_sum A l) (of_nat (List.length (skipna l)))), h).
Proof.
  intros Hd Hc. unfold Arith.column_mean.
  erewrite bind_ok by (eapply getitem_at; eassumption). reflexivity.
Qed.

Lemma metrics_rows_in (ps : list product) :
  List.length (index (metrics_frame_in ps)) = List.length ps.
Proof. apply length_seq. Qed.

(** The operating leverage as the method computes it from the sum of the
    column [total_contribution]. *)
Definition leverage_in (ps : list product) (fc : Q) : xnum :=
  let total_contribution := num_sum A (map contribution_in ps) in
  let net_profit := num_sub A total_contribution (Fin fc) in
  if xeqb net_profit zero then PInf
  else num_div A total_contribution net_profit.

Lemma leverage_run_in (self : FinancialAnalyzer) (ps : list product) (h : heap) :
  ps <> [] ->
  nth_error h (df self) = Some (metrics_frame_in ps) ->
  Arith.calculate_operating_leverage A self h
  = (Ok (leverage_in ps (fixed_costs self)), h).
Proof.
  intros Hrows Htable. unfold Arith.calculate_operating_leverage.
  erewrite bind_ok by (eapply len_at; exact Htable).
  rewrite metrics_rows_in, (rows_nonzero Hrows).
  erewrite bind_ok
    by (eapply column_sum_in_at; [ exact Htable | reflexivity ]).
  unfold leverage_in. cbv zeta.
  destruct (xeqb _ _); reflexivity.
Qed.

(** The figures of a combo as the method computes them from the selected
    products. *)
Definition combo_discounted_price_in (chosen : list product) (discount_percent : Q)
  : xnum :=
  num_mul A (num_sum A (map price_of chosen))
          (num_sub A (Fin 1) (num_div A (Fin discount_percent) hundred)).

Definition combo_margin_in (chosen : list product) (discount_percent : Q) : xnum :=
  num_sub A (combo_discounted_price_in chosen discount_percent)
          (num_sum A (map cost_of chosen)).

Definition combo_margin_percent_in (chosen : list product) (discount_percent : Q)
  : xnum :=
  if xgtb (combo_discounted_price_in chosen discount_percent) zero
  then num_mul A (num_div A (combo_margin_in chosen discount_percent)
                          (combo_discounted_price_in chosen discount_percent))
               hundred
  else zero.

Definition combo_frame_in (product_names : list string) (ps : list product)
  : DataFrame :=
  frame_filter (map (fun p => existsb (String.eqb (name p)) product_names) ps)
               (metrics_frame_in ps).

Lemma combo_frame_rows_in (product_names : list string) (ps : list product) :
  List.length (index (combo_frame_in product_names ps))
  = List.length (selected product_names ps).
Proof.
  unfold combo_frame_in, frame_filter, selected. cbn [index metrics_frame_in].
  apply select_length. apply length_seq.
Qed.

Lemma combo_run_in (self : FinancialAnalyzer) (ps : list product) (h : heap)
      (product_names : list string) (discount_percent : Q) :
  ps <> [] ->
  nth_error h (df self) = Some (metrics_frame_in ps) ->
  selected product_names ps <> [] ->
  let chosen := selected product_names ps in
  exists average,
    Arith.calculate_combo_analysis A self product_names discount_percent h
    = (Ok [ ("products", VNames product_names);
            ("original_price", VNum (num_sum A (map price_of chosen)));
            ("discounted_price",
              VNum (combo_discounted_price_in chosen discount_percent));
            ("total_cost", VNum (num_sum A (map cost_of chosen)));
            ("combo_margin", VNum (combo_margin_in chosen discount_percent));
            ("combo_margin_percent",
              VNum (combo_margin_percent_in chosen discount_percent));
            ("avg_individual_margin_percent", VNum average);
            ("margin_impact",
              VNum (num_sub A (combo_margin_percent_in chosen discount_percent)
                            average));
            ("discount_applied", VNum (Fin discount_percent));
            ("viability",
              VStr (viability_of
                      (combo_margin_percent_in chosen discount_percent))) ],
       h ++ [combo_frame_in product_names ps]).
Proof.
  intros Hrows Htable Hsel chosen.
  eexists. unfold Arith.calculate_combo_analysis.
  erewrite bind_ok by (eapply len_at; exact Htable).
  rewrite metrics_rows_in, (rows_nonzero Hrows).
  erewrite bind_ok by (eapply getitem_at; [ exact Htable | reflexivity ]).
  rewrite isin_products.
  erewrite bind_ok by (eapply getitem_mask_at; exact Htable).
  fold (combo_frame_in product_names ps).
  erewrite bind_ok by apply len_last.
  rewrite combo_frame_rows_in, (rows_nonzero Hsel).
  erewrite bind_ok
    by (eapply column_sum_in_at; [ apply nth_error_last | reflexivity ]).
  erewrite bind_ok
    by (eapply column_sum_in_at; [ apply nth_error_last | reflexivity ]).
  erewrite bind_ok
    by (eapply column_mean_in_at; [ apply nth_error_last | reflexivity ]).
  rewrite !select_map. fold (selected product_names ps). fold chosen.
  reflexivity.
Qed.

End TableInArithmetic.

(** *** Analyzers of floats *)

(** A product whose price and cost are Python floats: each is the float
    nearest to the number written.  The quantity is kept as written, an
    [int] or a float; numpy converts an [int] to the nearest float when an
    operation on floats meets it. *)
Definition float_price (p : product) : xnum := Binary64.literal (price p).
Definition float_cost (p : product) : xnum := Binary64.literal (cost p).
Definition float_quantity (p : product) : xnum := Fin (quantity p).

Definition float_record : product -> record :=
  record_in float_price float_cost float_quantity.

(** [FinancialAnalyzer(products, fixed_costs)] on such products. *)
Definition float_analyzer_of (ps : list product) (fc : Q) : M FinancialAnalyzer :=
  Arith.__init__ binary64 (map float_record ps) fc.

(** The column [total_contribution] of one product, as computed. *)
Definition float_contribution : product -> xnum :=
  contribution_in binary64 float_price float_cost float_quantity.

Definition float_frame : list product -> DataFrame :=
  metrics_frame_in binary64 float_price float_cost float_quantity.

(** The number a cell holds, for a cell that holds a finite number. *)
Definition finite_value (x : xnum) : Q :=
  match x with
  | Fin q => q
  | _ => 0
  end.

(** The product with, as price and cost, the numbers its floats hold. *)
Definition held (p : product) : product :=
  mkProduct (name p) (finite_value (float_price p))
            (finite_value (float_cost p)) (quantity p).

Lemma float_analyzer_of_products (h : heap) (ps : list product) (fc : Q) :
  ps <> [] ->
  float_analyzer_of ps fc h
  = (Ok (mkAnalyzer (map float_record ps) fc (List.length h)),
     h ++ [float_frame ps]).
Proof. apply init_in. Qed.

(** *** C3 on binary64 *)

(** C3, counterexample.  The infinite leverage is decided on the computed
    numbers.  One product of price 0.1 and cost 0.0 sold 10 times, with
    fixed costs 1.0: the floats give a total contribution other than the
    fixed costs (the float 0.1 is above one tenth), the product
    [0.1 * 10] is rounded to 1.0, and the leverage is [+inf].  The same
    product sold 3 times, with fixed costs 0.3: the numbers as written give
    a total contribution equal to the fixed costs, the product [0.1 * 3] is
    rounded to a float above the float 0.3, and the leverage is finite. *)
Lemma C3_rounding_decides_the_infinite_leverage :
  (exists self h,
      float_analyzer_of [mkProduct "Cafe" (1 # 10) 0 10] 1 [] = (Ok self, h) /\
      Arith.calculate_operating_leverage binary64 self h = (Ok PInf, h) /\
      ~ total total_contribution (map held [mkProduct "Cafe" (1 # 10) 0 10])
        == 1) /\
  (exists self h q,
      float_analyzer_of [mkProduct "Cafe" (1 # 10) 0 3] (3 # 10) []
      = (Ok self, h) /\
      Arith.calculate_operating_leverage binary64 self h = (Ok (Fin q), h) /\
      total total_contribution [mkProduct "Cafe" (1 # 10) 0 3] == 3 # 10).
Proof.
  split.
  - eexists. eexists. split; [ vm_compute; reflexivity | ].
    split; [ vm_compute; reflexivity | ].
    vm_compute. discriminate.
  - eexists. eexists. eexists. split; [ vm_compute; reflexivity | ].
    split; [ vm_compute; reflexivity | ].
    vm_compute. reflexivity.
Qed.

(** C3, amended.  For every analyzer built from a non-empty list of
    products given as floats, [calculate_operating_leverage] returns
    [+inf] when the net profit it computes is zero, and otherwise the
    computed total contribution divided by the computed net profit.  The
    computed total contribution is the sum, as [Series.sum] adds it, of the
    rounded products [(price - cost) * quantity]; the computed net profit
    is that sum less the fixed costs, rounded. *)
Theorem C3_operating_leverage_of_the_computed_profit
        (ps : list product) (fc : Q) (h0 h : heap) (self : FinancialAnalyzer) :
  ps <> [] ->
  float_analyzer_of ps fc h0 = (Ok self, h) ->
  let total_contribution := num_sum binary64 (map float_contribution ps) in
  let net_profit := Binary64.fsub total_contribution (Fin fc) in
  exists x,
    Arith.calculate_operating_leverage binary64 self h = (Ok x, h) /\
    (xeqb net_profit zero = true -> x = PInf) /\
    (xeqb net_profit zero = false ->
     x = Binary64.fdiv total_contribution net_profit).
Proof.
  intros Hps Hinit total_contribution net_profit.
  rewrite (float_analyzer_of_products h0 fc Hps) in Hinit.
  inversion Hinit; subst self h; clear Hinit.
  eexists. split.
  - apply leverage_run_in with (ps := ps); [ exact Hps | apply nth_error_last ].
  - cbn [fixed_costs]. unfold leverage_in. cbv zeta.
    change (num_sum binary64
              (map (contribution_in binary64 float_price float_cost float_quantity)
                   ps))
      with total_contribution.
    change (num_sub binary64 total_contribution (Fin fc)) with net_profit.
    destruct (xeqb net_profit zero); split; intros Hnet;
      first [ reflexivity | discriminate ].
Qed.

Lemma C3_operating_leverage_of_the_computed_profit_witness :
  let total_contribution :=
    num_sum binary64 (map float_contribution example_products) in
  let net_profit := Binary64.fsub total_contribution (Fin 1000) in
  exists x,
    Arith.calculate_operating_leverage
      binary64
      (mkAnalyzer (map float_record example_products) 1000 0%nat)
      [float_frame example_products]
    = (Ok x, [float_frame example_products]) /\
    (xeqb net_profit zero = true -> x = PInf) /\
    (xeqb net_profit zero = false ->
     x = Binary64.fdiv total_contribution net_profit).
Proof.
  apply (@C3_operating_leverage_of_the_computed_profit example_products 1000 []).
  - discriminate.
  - vm_compute. reflexivity.
Defined.

(** *** C6 on binary64 *)

Definition float_combo_margin_percent : list product -> Q -> xnum :=
  combo_margin_percent_in binary64 float_price float_cost.

(** C6, counterexample.  The verdict is decided on the computed margin,
    and it is worded in Portuguese.  A combo of one product of price 1.80
    and cost 1.53, without discount: the floats give a margin above 15
    percent, the computed margin is 15 percent, and the verdict is
    "Revisar" (review).  A combo of one product of price 1.00 and cost
    0.85: the numbers as written give a margin of 15 percent, the computed
    margin is above 15 percent, and the verdict is "Viável" (viable). *)
Lemma C6_rounding_decides_the_verdict :
  (exists self h res h',
      float_analyzer_of [mkProduct "Cafe" (180 # 100) (153 # 100) 1] 0 []
      = (Ok self, h) /\
      Arith.calculate_combo_analysis binary64 self ["Cafe"] 0 h = (Ok res, h') /\
      assoc_get "viability" res = Some (VStr "Revisar") /\
      15 < combo_margin_percent_spec
             (map held [mkProduct "Cafe" (180 # 100) (153 # 100) 1]) 0) /\
  (exists self h res h',
      float_analyzer_of [mkProduct "Cafe" 1 (85 # 100) 1] 0 [] = (Ok self, h) /\
      Arith.calculate_combo_analysis binary64 self ["Cafe"] 0 h = (Ok res, h') /\
      assoc_get "viability" res = Some (VStr "Viável") /\
      combo_margin_percent_spec [mkProduct "Cafe" 1 (85 # 100) 1] 0 == 15).
Proof.
  split.
  - eexists. eexists. eexists. eexists.
    split; [ vm_compute; reflexivity | ].
    split; [ vm_compute; reflexivity | ].
    split; [ vm_compute; reflexivity | ].
    vm_compute. reflexivity.
  - eexists. eexists. eexists. eexists.
    split; [ vm_compute; reflexivity | ].
    split; [ vm_compute; reflexivity | ].
    split; [ vm_compute; reflexivity | ].
    vm_compute. reflexivity.
Qed.

Lemma above_15_is_above_5 (x : xnum) :
  xgtb x (Fin 15) = true -> xgtb x (Fin 5) = true.
Proof.
  destruct x as [q| | |]; unfold xgtb, xltb; try discriminate; try reflexivity.
  intros H. apply Qltb_lt in H. apply Qltb_lt. lra.
Qed.

(** C6, amended.  For every analyzer built from a non-empty list of
    products given as floats, names that select at least one product, and
    every discount: [calculate_combo_analysis] returns a dictionary whose
    [combo_margin_percent] is the computed margin, the discounted price
    less the total cost, over the computed discounted price, times 100,
    every operation rounded, and [0] when the computed discounted price is
    not above 0; its [viability] is "Viável" (viable) when that computed
    percentage is above 15, "Revisar" (review) when it is above 5 and not
    above 15, and "Não recomendado" (not recommended) otherwise. *)
Theorem C6_combo_verdict_of_the_computed_margin
        (ps : list product) (fc : Q) (h0 h : heap) (self : FinancialAnalyzer)
        (product_names : list string) (discount_percent : Q) :
  ps <> [] ->
  float_analyzer_of ps fc h0 = (Ok self, h) ->
  selected product_names ps <> [] ->
  let chosen := selected product_names ps in
  let original_price := num_sum binary64 (map float_price chosen) in
  let discounted_price :=
    Binary64.fmul original_price
                  (Binary64.fsub (Fin 1)
                                 (Binary64.fdiv (Fin discount_percent) hundred)) in
  let total_cost := num_sum binary64 (map float_cost chosen) in
  let percent :=
    if xgtb discounted_price zero
    then Binary64.fmul
           (Binary64.fdiv (Binary64.fsub discounted_price total_cost)
                          discounted_price)
           hundred
    else zero in
  exists res h' verdict,
    Arith.calculate_combo_analysis binary64 self product_names discount_percent h
    = (Ok res, h') /\
    assoc_get "combo_margin_percent" res = Some (VNum percent) /\
    assoc_get "viability" res = Some (VStr verdict) /\
    (xgtb percent (Fin 15) = true -> verdict = "Viável") /\
    (xgtb percent (Fin 15) = false -> xgtb percent (Fin 5) = true ->
     verdict = "Revisar") /\
    (xgtb percent (Fin 5) = false -> verdict = "Não recomendado").
Proof.
  intros Hps Hinit Hsel chosen original_price discounted_price total_cost percent.
  rewrite (float_analyzer_of_products h0 fc Hps) in Hinit.
  inversion Hinit; subst self h; clear Hinit.
  destruct (@combo_run_in binary64 float_price float_cost float_quantity
              (mkAnalyzer (map float_record ps) fc (List.length h0))
              ps (h0 ++ [float_frame ps]) product_names discount_percent
              Hps (nth_error_last h0 (float_frame ps)) Hsel)
    as (average & Hrun).
  eexists. eexists. exists (viability_of percent).
  split; [ exact Hrun | ].
  split; [ dict_field; reflexivity | ].
  split; [ dict_field; reflexivity | ].
  unfold viability_of.
  pose proof (@above_15_is_above_5 percent) as Habove.
  destruct (xgtb percent (Fin 15)) eqn:H15.
  - rewrite (Habove eq_refl).
    repeat split; intros; first [ reflexivity | discriminate ].
  - destruct (xgtb percent (Fin 5)) eqn:H5;
      repeat split; intros; first [ reflexivity | discriminate ].
Qed.

Lemma C6_combo_verdict_of_the_computed_margin_witness :
  let chosen := selected ["Cappuccino"] example_products in
  let original_price := num_sum binary64 (map float_price chosen) in
  let discounted_price :=
    Binary64.fmul original_price
                  (Binary64.fsub (Fin 1) (Binary64.fdiv (Fin 10) hundred)) in
  let total_cost := num_sum binary64 (map float_cost chosen) in
  let percent :=
    if xgtb discounted_price zero
    then Binary64.fmul
           (Binary64.fdiv (Binary64.fsub discounted_price total_cost)
                          discounted_price)
           hundred
    else zero in
  exists res h' verdict,
    Arith.calculate_combo_analysis
      binary64
      (mkAnalyzer (map float_record example_products) 1000 0%nat)
      ["Cappuccino"] 10 [float_frame example_products]
    = (Ok res, h') /\
    assoc_get "combo_margin_percent" res = Some (VNum percent) /\
    assoc_get "viability" res = Some (VStr verdict) /\
    (xgtb percent (Fin 15) = true -> verdict = "Viável") /\
    (xgtb percent (Fin 15) = false -> xgtb percent (Fin 5) = true ->
     verdict = "Revisar") /\
    (xgtb percent (Fin 5) = false -> verdict = "Não recomendado").
Proof.
  apply (@C6_combo_verdict_of_the_computed_margin example_products 1000 []).
  - discriminate.
  - vm_compute. reflexivity.
  - vm_compute. discriminate.
Defined.


(** The requested names that are the name of some product. *)
Definition matched (names : list string) (ps : list product) : list string :=
  filter (fun n => existsb (fun p => String.eqb (name p) n) ps) names.

Section Matching.
Variable ps : list product.
Variable names : list string.

Lemma requested_iff_matched (p : product) :
  In p ps ->
  existsb (String.eqb (name p)) (matched names ps)
  = existsb (String.eqb (name p)) names.
Proof.
  intros Hp. apply eq_true_iff_eq. rewrite !existsb_exists. split.
  - intros (n & Hn & Heq). apply filter_In in Hn. exists n; tauto.
  - intros (n & Hn & Heq). exists n. split; [ | exact Heq ].
    apply filter_In. split; [ exact Hn | ].
    apply existsb_exists. exists p. auto.
Qed.

Lemma selected_matched : selected (matched names ps) ps = selected names ps.
Proof.
  unfold selected. apply filter_ext_in. intros p Hp.
  apply requested_iff_matched; exact Hp.
Qed.

Lemma combo_frame_matched :
  combo_frame ps (matched names ps) = combo_frame ps names.
Proof.
  unfold combo_frame. f_equal. apply map_ext_in. intros p Hp.
  apply requested_iff_matched; exact Hp.
Qed.

End Matching.

Lemma combo_result_but_products names names' tp tcost avg d (k : string) :
  k <> "products" ->
  assoc_get k (combo_result names tp tcost avg d)
  = assoc_get k (combo_result names' tp tcost avg d).
Proof.
  intros Hk. unfold combo_result.
  rewrite !(@assoc_get_next _ k "products"); [ reflexivity | | ];
    apply String.eqb_neq; congruence.
Qed.

(** C10. For an analyzer built from a non-empty list of products,
    [calculate_combo_analysis] returns its error result exactly when no
    requested name is the name of a product.  When some name matches, the
    call succeeds, the field [products] holds the whole list of requested
    names, unmatched ones included, and every other field is what the call
    returns for the matched names alone. *)
Theorem C10_combo_error_only_when_nothing_matches
        (ps : list product) (fc : Q) (h0 h : heap) (self : FinancialAnalyzer)
        (product_names : list string) (discount_percent : Q) :
  ps <> [] ->
  analyzer_of ps fc h0 = (Ok self, h) ->
  exists res h',
    calculate_combo_analysis self product_names discount_percent h
    = (Ok res, h') /\
    (selected product_names ps = [] ->
     res = [("error", VStr "Nenhum produto encontrado")]) /\
    (selected product_names ps <> [] ->
     assoc_get "error" res = None /\
     assoc_get "products" res = Some (VNames product_names) /\
     exists res',
       calculate_combo_analysis self (matched product_names ps)
                                discount_percent h = (Ok res', h') /\
       forall k, k <> "products" -> assoc_get k res = assoc_get k res').
Proof.
  intros Hps Hinit.
  rewrite (analyzer_of_products h0 fc Hps) in Hinit.
  inversion Hinit; subst self h; clear Hinit.
  pose proof (nth_error_last h0 (metrics_frame ps)) as Htable.
  destruct (selected product_names ps) as [|p chosen] eqn:Hsel.
  - eexists. eexists. split; [ | split ].
    + apply combo_run_nothing with (ps := ps); assumption.
    + reflexivity.
    + intros Hne; congruence.
  - assert (Hne : selected product_names ps <> []) by congruence.
    eexists. eexists. split; [ | split ].
    + apply combo_run with (ps := ps); assumption.
    + intros Hnil; discriminate.
    + intros _. split; [ reflexivity | ]. split; [ reflexivity | ].
      eexists. split.
      * rewrite <- (combo_frame_matched ps product_names).
        apply combo_run with (ps := ps); try assumption.
        rewrite selected_matched. exact Hne.
      * intros k Hk. rewrite selected_matched.
        apply combo_result_but_products; exact Hk.
Qed.

Lemma C10_combo_error_only_when_nothing_matches_witness :
  exists res h',
    calculate_combo_analysis example_analyzer ["Cappuccino"; "Mocha"] 10
                             [metrics_frame example_products]
    = (Ok res, h') /\
    (selected ["Cappuccino"; "Mocha"] example_products = [] ->
     res = [("error", VStr "Nenhum produto encontrado")]) /\
    (selected ["Cappuccino"; "Mocha"] example_products <> [] ->
     assoc_get "error" res = None /\
     assoc_get "products" res = Some (VNames ["Cappuccino"; "Mocha"]) /\
     exists res',
       calculate_combo_analysis example_analyzer
                                (matched ["Cappuccino"; "Mocha"] example_products)
                                10 [metrics_frame example_products]
       = (Ok res', h') /\
       forall k, k <> "products" -> assoc_get k res = assoc_get k res').
Proof.
  apply (@C10_combo_error_only_when_nothing_matches example_products 1000 []).
  - discriminate.
  - vm_compute. reflexivity.
Defined.
(** ** C8: construction *)

(** The inputs the spec wants refused. *)
Definition invalid_input (ps : list product) (fc : Q) : Prop :=
  fc < 0 \/
  Exists (fun p => price p < 0 \/ cost p < 0 \/ quantity p < 0) ps.

(** A computation fails when it raises, whatever the exception. *)
Definition fails (A : Type) (m : M A) (h : heap) : Prop :=
  exists e, fst (m h) = Raise e.

(** The claim of C8 fails: negative fixed costs and a product with a
    negative price, cost and quantity are accepted. *)
Lemma C8_negative_input_is_accepted :
  invalid_input [mkProduct "Cafe" (-1) (-2) (-3)] (-1000) /\
  ~ fails (analyzer_of [mkProduct "Cafe" (-1) (-2) (-3)] (-1000)) [].
Proof.
  split.
  - left. reflexivity.
  - intros [e He]. vm_compute in He. discriminate.
Qed.

(** C8, amended. Construction checks nothing: for every list of products
    and every fixed-cost figure, negative ones included, it succeeds, and
    the analyzer holds the records and the fixed costs as given. *)
Theorem C8_construction_never_fails
        (ps : list product) (fc : Q) (h0 : heap) :
  exists self h,
    analyzer_of ps fc h0 = (Ok self, h) /\
    products_data self = map product_record ps /\
    fixed_costs self = fc /\
    ~ fails (analyzer_of ps fc) h0.
Proof.
  destruct ps as [|p ps].
  - eexists. eexists. split; [ apply analyzer_of_nothing | ].
    repeat split. intros [e He]. rewrite analyzer_of_nothing in He.
    discriminate.
  - assert (Hps : p :: ps <> []) by discriminate.
    eexists. eexists. split; [ apply (analyzer_of_products h0 fc Hps) | ].
    repeat split. intros [e He].
    rewrite (analyzer_of_products h0 fc Hps) in He. discriminate.
Qed.

(** ** C2: the margin in percent of a product with price zero *)

Section ZeroPrice.
Variable p : product.
Hypothesis Hprice : price p == 0.

(** [fillna(0)] catches [0 / 0] only. *)
Lemma margin_percent_zero_price_zero_cost :
  cost p == 0 -> contribution_margin_percent p = Fin 0.
Proof using Hprice.
  intros Hcost. unfold contribution_margin_percent, contribution_margin, xdiv.
  replace (Qeq_bool (price p) 0) with true
    by (symmetry; apply Qeq_bool_iff; exact Hprice).
  unfold signed_inf.
  replace (price p - cost p ?= 0) with Eq; [ reflexivity | ].
  symmetry. apply (proj1 (Qeq_alt (price p - cost p) 0)). lra.
Qed.

Lemma margin_percent_zero_price_positive_cost :
  0 < cost p -> contribution_margin_percent p = NInf.
Proof using Hprice.
  intros Hcost. unfold contribution_margin_percent, contribution_margin, xdiv.
  replace (Qeq_bool (price p) 0) with true
    by (symmetry; apply Qeq_bool_iff; exact Hprice).
  unfold signed_inf.
  replace (price p - cost p ?= 0) with Lt; [ reflexivity | ].
  symmetry. apply (proj1 (Qlt_alt (price p - cost p) 0)). lra.
Qed.

End ZeroPrice.

(** C2 fails on the code: a product given away (price 0) that costs 1 gets
    the margin [-inf] percent, not 0. *)
Lemma C2_zero_price_margin_percent_is_infinite :
  exists self h,
    analyzer_of [mkProduct "Agua" 0 1 10] 0 [] = (Ok self, h) /\
    getitem (df self) "contribution_margin_percent" h = (Ok (NumCol [NInf]), h).
Proof.
  eexists. eexists. split; vm_compute; reflexivity.
Qed.

(** ** C9: the empty analyzer *)

(** What a query returns: a table, a mapping or a number. *)
Inductive outcome : Type :=
| Table (d : DataFrame)
| Mapping (d : dict)
| Number (x : xnum).

(** An empty table or an empty mapping. *)
Definition explicitly_empty (o : outcome) : bool :=
  match o with
  | Table d =>
      Nat.eqb (List.length (index d)) 0 && Nat.eqb (List.length (columns d)) 0
  | Mapping d => Nat.eqb (List.length d) 0
  | Number _ => false
  end.

(** The claim of C9 fails for the operating leverage: on the empty analyzer
    it is the number [0], which is neither a table nor a mapping. *)
Lemma C9_operating_leverage_of_nothing_is_a_number :
  exists self h x,
    analyzer_of [] 1000 [] = (Ok self, h) /\
    calculate_operating_leverage self h = (Ok x, h) /\
    x = Fin 0 /\
    explicitly_empty (Number x) = false.
Proof.
  eexists. eexists. eexists. repeat split; vm_compute; reflexivity.
Qed.

Section QueriesOnNothing.
Variable self : FinancialAnalyzer.
Variable h : heap.
Hypothesis Htable : nth_error h (df self) = Some empty_frame.

Lemma contribution_analysis_of_nothing :
  get_contribution_margin_analysis self h
  = (Ok (List.length h), h ++ [empty_frame]).
Proof using Htable.
  unfold get_contribution_margin_analysis.
  erewrite bind_ok by (eapply len_at; exact Htable). reflexivity.
Qed.

Lemma breakeven_of_nothing :
  calculate_breakeven_analysis self h = (Ok [], h).
Proof using Htable.
  unfold calculate_breakeven_analysis.
  erewrite bind_ok by (eapply len_at; exact Htable). reflexivity.
Qed.

Lemma leverage_of_nothing :
  calculate_operating_leverage self h = (Ok (Fin 0), h).
Proof using Htable.
  unfold calculate_operating_leverage.
  erewrite bind_ok by (eapply len_at; exact Htable). reflexivity.
Qed.

Lemma cvp_of_nothing :
  get_cost_volume_profit_analysis self h = (Ok [], h).
Proof using Htable.
  unfold get_cost_volume_profit_analysis.
  erewrite bind_ok by (eapply len_at; exact Htable). reflexivity.
Qed.

Lemma mix_of_nothing :
  analyze_product_mix_optimization self h = (Ok [], h).
Proof using Htable.
  unfold analyze_product_mix_optimization.
  erewrite bind_ok by (eapply len_at; exact Htable). reflexivity.
Qed.

Lemma combo_of_nothing names discount :
  calculate_combo_analysis self names discount h = (Ok [], h).
Proof using Htable.
  unfold calculate_combo_analysis.
  erewrite bind_ok by (eapply len_at; exact Htable). reflexivity.
Qed.

Lemma simulation_of_nothing product_name new_price :
  simulate_price_changes self product_name new_price h = (Ok [], h).
Proof using Htable.
  unfold simulate_price_changes.
  erewrite bind_ok by (eapply len_at; exact Htable). reflexivity.
Qed.

End QueriesOnNothing.

(** C9, amended. Construction over the empty list of products succeeds, and
    on the analyzer it builds no query raises: the contribution analysis
    returns a new empty table; the break-even analysis, the CVP analysis,
    the mix optimization, the combo analysis and the price simulation
    return the empty mapping; the operating leverage returns the number
    [0]. *)
Theorem C9_queries_on_the_empty_analyzer (fc : Q) (h0 : heap) :
  exists self h,
    analyzer_of [] fc h0 = (Ok self, h) /\
    (exists r h',
        get_contribution_margin_analysis self h = (Ok r, h') /\
        nth_error h' r = Some empty_frame /\
        explicitly_empty (Table empty_frame) = true) /\
    calculate_breakeven_analysis self h = (Ok [], h) /\
    calculate_operating_leverage self h = (Ok (Fin 0), h) /\
    get_cost_volume_profit_analysis self h = (Ok [], h) /\
    analyze_product_mix_optimization self h = (Ok [], h) /\
    (forall names discount,
        calculate_combo_analysis self names discount h = (Ok [], h)) /\
    (forall product_name new_price,
        simulate_price_changes self product_name new_price h = (Ok [], h)).
Proof.
  eexists. eexists. split; [ apply analyzer_of_nothing | ].
  pose proof (nth_error_last h0 empty_frame) as Htable.
  repeat split.
  - eexists. eexists. split; [ | split ].
    + apply contribution_analysis_of_nothing. exact Htable.
    + apply nth_error_last.
    + reflexivity.
  - apply breakeven_of_nothing; exact Htable.
  - apply leverage_of_nothing; exact Htable.
  - apply cvp_of_nothing; exact Htable.
  - apply mix_of_nothing; exact Htable.
  - intros. apply combo_of_nothing; exact Htable.
  - intros. apply simulation_of_nothing; exact Htable.
Qed.
(** ** C7: the rank of the margins *)

(** *** The order of numbers *)

(** Decides a fact on the order of numbers by cases on the numbers. *)
Ltac xorder :=
  intros;
  repeat match goal with x : xnum |- _ => destruct x end;
  unfold xgtb, xltb, xeqb, is_nan in *;
  try discriminate; try reflexivity;
  repeat match goal with
         | H : Qltb _ _ = true |- _ => apply Qltb_lt in H
         | H : Qltb _ _ = false |- _ => apply Qltb_ge in H
         | H : Qeq_bool _ _ = true |- _ => apply Qeq_bool_iff in H
         | H : Qeq_bool _ _ = false |- _ => apply Qeq_bool_false in H
         end;
  repeat match goal with
         | |- _ /\ _ => split
         end;
  try match goal with
      | |- Qltb _ _ = true => apply Qltb_lt
      | |- Qltb _ _ = false => apply Qltb_ge
      | |- Qeq_bool _ _ = true => apply Qeq_bool_iff
      | |- Qeq_bool _ _ = false => apply Qeq_bool_false
      end;
  try lra.

Lemma not_greater_trans (x y z : xnum) :
  is_nan x = false -> is_nan y = false -> is_nan z = false ->
  xgtb z y = false -> xgtb y x = false -> xgtb z x = false.
Proof. xorder. Qed.

Lemma not_greater_than_equal (x y z : xnum) :
  is_nan x = false -> is_nan y = false -> is_nan z = false ->
  xeqb y x = true -> xgtb z y = false -> xgtb z x = false.
Proof. xorder. Qed.

Lemma below_smaller (x y z : xnum) :
  is_nan x = false -> is_nan y = false -> is_nan z = false ->
  xgtb x y = true -> xgtb z y = false ->
  xgtb z x = false /\ xeqb z x = false.
Proof. xorder. Qed.

Lemma greater_not_equal (x y : xnum) :
  is_nan x = false -> is_nan y = false ->
  xgtb y x = true -> xeqb y x = false.
Proof. xorder. Qed.

Lemma smaller_when_neither (x y : xnum) :
  is_nan x = false -> is_nan y = false ->
  xgtb y x = false -> xeqb y x = false -> xgtb x y = true.
Proof. xorder. Qed.



Lemma xeqb_refl (x : xnum) : is_nan x = false -> xeqb x x = true.
Proof. xorder. Qed.

(** *** Sorting in descending order *)

Definition no_nan (l : list xnum) : Prop :=
  Forall (fun x => is_nan x = false) l.

(** No value is followed by a greater one. *)
Definition descending (l : list xnum) : Prop :=
  StronglySorted (fun y z => xgtb z y = false) l.

Definition count_greater (v : xnum) (l : list xnum) : nat :=
  List.length (filter (fun y => xgtb y v) l).

Definition count_equal (v : xnum) (l : list xnum) : nat :=
  List.length (filter (fun y => xeqb y v) l).

Section SortFacts.

Let insert := insert_by (fun x : xnum => x) xgtb.
Let sort := sort_by (fun x : xnum => x) xgtb.

Lemma Forall_insert (P : xnum -> Prop) (x : xnum) (s : list xnum) :
  P x -> Forall P s -> Forall P (insert x s).
Proof.
  intros Hx Hs. induction Hs as [|y s Hy Hs IH]; simpl.
  - constructor; [ exact Hx | constructor ].
  - destruct (xgtb y x); constructor; auto.
Qed.

Lemma Forall_sort (P : xnum -> Prop) (l : list xnum) :
  Forall P l -> Forall P (sort l).
Proof.
  induction 1 as [|x l Hx Hl IH]; simpl; [ constructor | ].
  apply Forall_insert; assumption.
Qed.

Lemma filter_insert (f : xnum -> bool) (x : xnum) (s : list xnum) :
  List.length (filter f (insert x s)) = List.length (filter f (x :: s)).
Proof.
  induction s as [|y s IH]; [ reflexivity | ].
  simpl insert. destruct (xgtb y x); [ | reflexivity ].
  simpl in *. destruct (f y), (f x); simpl in *; lia.
Qed.

Lemma filter_sort (f : xnum -> bool) (l : list xnum) :
  List.length (filter f (sort l)) = List.length (filter f l).
Proof.
  induction l as [|x l IH]; [ reflexivity | ].
  simpl sort. fold sort. fold insert. rewrite filter_insert.
  simpl. destruct (f x); simpl; congruence.
Qed.

Lemma insert_descending (x : xnum) (s : list xnum) :
  is_nan x = false -> no_nan s -> descending s -> descending (insert x s).
Proof.
  intros Hx Hnan Hs. induction Hs as [|y s Hs IH Hy]; simpl.
  - constructor; constructor.
  - inversion Hnan as [|? ? Hny Hns]; subst.
    destruct (xgtb y x) eqn:Hyx.
    + constructor; [ apply IH; exact Hns | ].
      apply Forall_insert; [ | exact Hy ].
      (* x is below y *)
      revert Hx Hny Hyx. clear. xorder.
    + constructor; [ constructor; assumption | ].
      constructor; [ exact Hyx | ].
      rewrite Forall_forall in *. intros z Hz.
      apply not_greater_trans with (y := y); auto.
Qed.

Lemma sort_descending (l : list xnum) : no_nan l -> descending (sort l).
Proof.
  induction 1 as [|x l Hx Hl IH]; simpl; [ constructor | ].
  apply insert_descending; auto. apply Forall_sort; exact Hl.
Qed.

End SortFacts.

(** *** The places of a group of ties *)

Section TiePositions.

Lemma count_none (f : xnum -> bool) (l : list xnum) :
  Forall (fun z => f z = false) l -> List.length (filter f l) = 0%nat.
Proof.
  induction 1 as [|z l Hz Hl IH]; simpl; [ reflexivity | ].
  rewrite Hz. exact IH.
Qed.

(** In a descending list the values equal to [v] sit in a row, right
    after the values greater than [v]. *)
Lemma tie_positions_descending (v : xnum) (s : list xnum) :
  is_nan v = false -> no_nan s -> descending s ->
  forall pos,
    tie_positions v s pos = seq (pos + count_greater v s) (count_equal v s).
Proof.
  intros Hv Hnan Hs.
  induction Hs as [|y s Hs IH Hy]; intros pos; [ reflexivity | ].
  inversion Hnan as [|? ? Hny Hns]; subst.
  specialize (IH Hns).
  unfold count_greater, count_equal in *. simpl.
  destruct (xgtb y v) eqn:Hgt.
  - rewrite (greater_not_equal v y Hv Hny Hgt). rewrite IH. simpl.
    f_equal. lia.
  - assert (Hbelow : Forall (fun z => xgtb z v = false) s).
    { rewrite Forall_forall in *. intros z Hz.
      destruct (xeqb y v) eqn:Heq.
      - apply not_greater_than_equal with (y := y); auto.
      - apply (@below_smaller v y z); auto.
        apply smaller_when_neither; auto. }
    rewrite (@count_none _ _ Hbelow) in *.
    destruct (xeqb y v) eqn:Heq.
    + rewrite IH, !Nat.add_0_r. reflexivity.
    + assert (Hnone : Forall (fun z => xeqb z v = false) s).
      { rewrite Forall_forall in *. intros z Hz.
        apply (@below_smaller v y z); auto.
        apply smaller_when_neither; auto. }
      rewrite IH, (@count_none _ _ Hnone), !Nat.add_0_r. reflexivity.
Qed.

Lemma list_sum_seq (a n : nat) :
  (2 * list_sum (seq a n) = n * (2 * a + n - 1))%nat.
Proof.
  revert a; induction n as [|n IH]; intros a; [ reflexivity | ].
  simpl seq. simpl list_sum. specialize (IH (S a)). nia.
Qed.

(** The mean of the places [g+1 .. g+e]. *)
Lemma mean_of_places (g e : nat) :
  (0 < e)%nat ->
  xdiv (of_nat (list_sum (seq (1 + g) e))) (of_nat (List.length (seq (1 + g) e)))
  =x= Fin (inject_Z (Z.of_nat g) + (inject_Z (Z.of_nat e) + 1) / 2).
Proof.
  intros He. rewrite length_seq. unfold of_nat, xdiv.
  assert (Hne : ~ inject_Z (Z.of_nat e) == 0).
  { intros H0. unfold Qeq in H0. simpl in H0. lia. }
  replace (Qeq_bool (inject_Z (Z.of_nat e)) 0) with false
    by (symmetry; apply Qeq_bool_false; exact Hne).
  cbn [xeq].
  assert (Hsum : (2 * Z.of_nat (list_sum (seq (1 + g) e))
                  = Z.of_nat e * (2 * Z.of_nat g + Z.of_nat e + 1))%Z).
  { pose proof (list_sum_seq (1 + g) e) as Hnat. nia. }
  apply (f_equal inject_Z) in Hsum.
  rewrite !inject_Z_mult, !inject_Z_plus, !inject_Z_mult in Hsum.
  change (inject_Z 2) with 2 in Hsum. change (inject_Z 1) with 1 in Hsum.
  set (S := inject_Z (Z.of_nat (list_sum (seq (1 + g) e)))) in *.
  set (E := inject_Z (Z.of_nat e)) in *.
  set (G := inject_Z (Z.of_nat g)) in *.
  assert (HS : S == E * (2 * G + E + 1) / 2).
  { assert (H2 : 2 * S == E * (2 * G + E + 1)) by (rewrite Hsum; reflexivity).
    rewrite <- H2. field. }
  rewrite HS. field. exact Hne.
Qed.

End TiePositions.

(** *** The rank pandas computes *)

Section RankFacts.

Lemma skipna_no_nan (l : list xnum) : no_nan l -> skipna l = l.
Proof.
  induction 1 as [|x l Hx Hl IH]; simpl; [ reflexivity | ].
  rewrite Hx. simpl. congruence.
Qed.

Lemma count_equal_positive (v : xnum) (l : list xnum) :
  is_nan v = false -> In v l -> (0 < count_equal v l)%nat.
Proof.
  intros Hv Hin. unfold count_equal.
  induction l as [|y l IH]; simpl in *; [ contradiction | ].
  destruct Hin as [Heq|Hin].
  - subst y. rewrite (@xeqb_refl v Hv). simpl. lia.
  - destruct (xeqb y v); simpl; auto. lia.
Qed.

(** The rank of a value is the number of values greater than it, plus
    half of one more than the number of values equal to it. *)
Lemma average_rank_value (l : list xnum) (v : xnum) :
  no_nan l -> In v l ->
  average_rank (sort_by (fun x => x) xgtb (skipna l)) v
  =x= Fin (inject_Z (Z.of_nat (count_greater v l))
           + (inject_Z (Z.of_nat (count_equal v l)) + 1) / 2).
Proof.
  intros Hnan Hin.
  assert (Hv : is_nan v = false).
  { unfold no_nan in Hnan. rewrite Forall_forall in Hnan. auto. }
  unfold average_rank. rewrite Hv, (@skipna_no_nan _ Hnan).
  rewrite (@tie_positions_descending v _ Hv (@Forall_sort _ _ Hnan)
                                     (@sort_descending _ Hnan)).
  unfold count_greater, count_equal. rewrite !filter_sort.
  apply mean_of_places. apply count_equal_positive; assumption.
Qed.

Lemma rank_descending_value (l : list xnum) (i : nat) (v : xnum) :
  no_nan l -> nth_error l i = Some v ->
  exists x,
    nth_error (rank_descending l) i = Some x /\
    x =x= Fin (inject_Z (Z.of_nat (count_greater v l))
               + (inject_Z (Z.of_nat (count_equal v l)) + 1) / 2).
Proof.
  intros Hnan Hi. unfold rank_descending.
  rewrite nth_error_map, Hi. simpl. eexists. split; [ reflexivity | ].
  apply average_rank_value; [ exact Hnan | ].
  eapply nth_error_In; exact Hi.
Qed.

Lemma margin_percent_not_nan (p : product) :
  is_nan (contribution_margin_percent p) = false.
Proof.
  unfold contribution_margin_percent.
  destruct (is_nan (xmul _ hundred)) eqn:Hnan; [ reflexivity | exact Hnan ].
Qed.

Lemma margin_percents_no_nan (ps : list product) :
  no_nan (map contribution_margin_percent ps).
Proof.
  unfold no_nan. rewrite Forall_map, Forall_forall. intros p _.
  apply margin_percent_not_nan.
Qed.

Lemma filter_map_length (A B : Type) (f : A -> B) (g : B -> bool) (l : list A) :
  List.length (filter g (map f l))
  = List.length (filter (fun a => g (f a)) l).
Proof.
  induction l as [|a l IH]; simpl; [ reflexivity | ].
  destruct (g (f a)); simpl; congruence.
Qed.

End RankFacts.

(** The products with a margin in percent greater than, or equal to, that
    of [p]; [p] itself is among the latter. *)
Definition greater_margin (p : product) (ps : list product) : nat :=
  List.length
    (filter (fun q => xgtb (contribution_margin_percent q)
                           (contribution_margin_percent p)) ps).

Definition equal_margin (p : product) (ps : list product) : nat :=
  List.length
    (filter (fun q => xeqb (contribution_margin_percent q)
                           (contribution_margin_percent p)) ps).

(** The average rank, in descending order, of the margin of [p]. *)
Definition average_rank_spec (p : product) (ps : list product) : Q :=
  inject_Z (Z.of_nat (greater_margin p ps))
  + (inject_Z (Z.of_nat (equal_margin p ps)) + 1) / 2.

(** The table [get_contribution_margin_analysis] returns. *)
Definition analysis_frame (ps : list product) : DataFrame :=
  frame_set
    (frame_set
       (frame_set (metrics_frame ps) "contribution_rank"
          (NumCol (rank_descending (map contribution_margin_percent ps))))
       "revenue_participation"
       (NumCol (map (fun p => xmul (xdiv (Fin (total_revenue p))
                                         (Fin (total total_revenue ps)))
                                   hundred) ps)))
    "contribution_participation"
    (NumCol (map (fun p => xmul (xdiv (Fin (total_contribution p))
                                      (Fin (total total_contribution ps)))
                                hundred) ps)).

Section AnalysisOnProducts.
Variable self : FinancialAnalyzer.
Variable ps : list product.
Variable h : heap.
Hypothesis Hrows : ps <> [].
Hypothesis Htable : nth_error h (df self) = Some (metrics_frame ps).

Lemma copy_at r d :
  nth_error h r = Some d -> copy r h = (Ok (List.length h), h ++ [d]).
Proof.
  intros Hd. unfold copy, bind, read_frame, new_frame. rewrite Hd.
  reflexivity.
Qed.

Lemma contribution_analysis_run :
  get_contribution_margin_analysis self h
  = (Ok (List.length h), h ++ [analysis_frame ps]).
Proof using Hrows Htable.
  unfold get_contribution_margin_analysis.
  erewrite bind_ok by (eapply len_at; exact Htable).
  rewrite metrics_rows, (rows_nonzero Hrows).
  erewrite bind_ok by (apply copy_at; exact Htable).
  erewrite bind_ok by (apply getitem_last; reflexivity).
  erewrite bind_ok by reflexivity.
  erewrite bind_ok by apply setitem_last.
  erewrite bind_ok by (apply getitem_last; reflexivity).
  erewrite bind_ok by (apply column_sum_last; reflexivity).
  erewrite bind_ok by reflexivity.
  erewrite bind_ok by apply setitem_last.
  erewrite bind_ok by (apply getitem_last; reflexivity).
  erewrite bind_ok by (apply column_sum_last; reflexivity).
  erewrite bind_ok by reflexivity.
  erewrite bind_ok by apply setitem_last.
  unfold ret, num_column. rewrite !sum_values_finite, !map_map.
  reflexivity.
Qed.

End AnalysisOnProducts.

Section RankOfProducts.
Variable ps : list product.

Lemma count_greater_products (p : product) :
  count_greater (contribution_margin_percent p)
                (map contribution_margin_percent ps)
  = greater_margin p ps.
Proof. apply filter_map_length. Qed.

Lemma count_equal_products (p : product) :
  count_equal (contribution_margin_percent p)
              (map contribution_margin_percent ps)
  = equal_margin p ps.
Proof. apply filter_map_length. Qed.



End RankOfProducts.




(** * Further properties of the module *)

(** ** The queries and the store *)

Section QueriesAndStore.
Variable n : nat.

Lemma keeps_contribution_analysis self :
  keeps n (fun r => (n <= r)%nat) (get_contribution_margin_analysis self).
Proof.
  unfold get_contribution_margin_analysis.
  keeps_step; [ keeps_step | ].
  keeps_step; [ keeps_step | ].
  keeps_step; [ apply keeps_copy | ].
  repeat (keeps_step; [ solve [ keeps_step ] | ]).
  apply keeps_ret. assumption.
Qed.

Lemma keeps_mix_optimization self :
  keeps n (@anything dict) (analyze_product_mix_optimization self).
Proof.
  pose proof keeps_contribution_analysis.
  unfold analyze_product_mix_optimization. repeat keeps_step.
Qed.

Lemma keeps_combo self names discount :
  keeps n (@anything dict) (calculate_combo_analysis self names discount).
Proof. unfold calculate_combo_analysis. repeat keeps_step. Qed.

End QueriesAndStore.

(** X1. The three queries that only compute figures leave the store exactly
    as it was, whatever the analyzer and the store. *)
Theorem X1_figures_queries_leave_the_store (self : FinancialAnalyzer) (h : heap) :
  snd (calculate_breakeven_analysis self h) = h /\
  snd (calculate_operating_leverage self h) = h /\
  snd (get_cost_volume_profit_analysis self h) = h.
Proof.
  repeat split.
  - apply (reads_breakeven self).
  - apply (reads_operating_leverage self).
  - apply (reads_cvp self).
Qed.

(** X2. [get_contribution_margin_analysis] works on a copy: the table it
    returns is an object that did not exist before the call, and every
    object that existed, the analyzer's own table among them, is unchanged;
    the rank and the participations are not added to [self.df].  The same
    holds for the objects [analyze_product_mix_optimization] and
    [calculate_combo_analysis] find in the store. *)
Theorem X2_table_queries_work_on_new_objects
        (self : FinancialAnalyzer) (h : heap) :
  (forall r, fst (get_contribution_margin_analysis self h) = Ok r ->
             (List.length h <= r)%nat) /\
  (forall i, (i < List.length h)%nat ->
             nth_error (snd (get_contribution_margin_analysis self h)) i
             = nth_error h i) /\
  (forall i, (i < List.length h)%nat ->
             nth_error (snd (analyze_product_mix_optimization self h)) i
             = nth_error h i) /\
  (forall names discount i,
      (i < List.length h)%nat ->
      nth_error (snd (calculate_combo_analysis self names discount h)) i
      = nth_error h i).
Proof.
  destruct (@keeps_contribution_analysis (List.length h) self h (Nat.le_refl _))
    as (_ & Hkeep & Hnew).
  destruct (@keeps_mix_optimization (List.length h) self h (Nat.le_refl _))
    as (_ & Hmix & _).
  repeat split; auto.
  intros names discount.
  destruct (@keeps_combo (List.length h) self names discount h (Nat.le_refl _))
    as (_ & Hcombo & _).
  exact Hcombo.
Qed.

(** ** Arithmetic on finite numbers *)



Lemma xdiv_finite (a b : Q) : ~ b == 0 -> xdiv (Fin a) (Fin b) = Fin (a / b).
Proof.
  intros Hb. unfold xdiv.
  replace (Qeq_bool b 0) with false; [ reflexivity | ].
  symmetry. apply Qeq_bool_false. exact Hb.
Qed.

Definition is_finite (x : xnum) : bool :=
  match x with Fin _ => true | _ => false end.

Lemma xdiv_by_zero (a b : Q) : b == 0 -> is_finite (xdiv (Fin a) (Fin b)) = false.
Proof.
  intros Hb. unfold xdiv.
  replace (Qeq_bool b 0) with true by (symmetry; apply Qeq_bool_iff; exact Hb).
  unfold signed_inf. destruct (a ?= 0); reflexivity.
Qed.

Lemma xmul_not_finite (x y : xnum) :
  is_finite x = false -> is_finite (xmul x y) = false.
Proof.
  destruct x, y; simpl; try discriminate; try reflexivity;
    intros _; unfold signed_inf; match goal with |- context [?a ?= 0] => destruct (a ?= 0) end;
    reflexivity.
Qed.

Lemma total_empty (f : product -> Q) : total f [] = 0.
Proof. reflexivity. Qed.

Lemma total_scale (f : product -> Q) (c : Q) (ps : list product) :
  total (fun p => f p * c) ps == total f ps * c.
Proof.
  induction ps as [|p ps IH].
  - rewrite !total_empty. ring.
  - rewrite !total_cons, IH. ring.
Qed.

Lemma total_ext (f g : product -> Q) (ps : list product) :
  (forall p, f p == g p) -> total f ps == total g ps.
Proof.
  intros Hfg. induction ps as [|p ps IH].
  - rewrite !total_empty. reflexivity.
  - rewrite !total_cons, IH, Hfg. reflexivity.
Qed.

(** ** The participations of [get_contribution_margin_analysis] *)

Section Participation.
Variable f : product -> Q.
Variable ps : list product.

(** The column [f / sum(f) * 100]. *)
Definition share_column : list xnum :=
  map (fun p => xmul (xdiv (Fin (f p)) (Fin (total f ps))) hundred) ps.



Lemma share_column_undefined :
  total f ps == 0 -> Forall (fun x => is_finite x = false) share_column.
Proof.
  intros Hz. unfold share_column. rewrite Forall_map, Forall_forall.
  intros p _. apply xmul_not_finite. apply xdiv_by_zero. exact Hz.
Qed.

End Participation.



(** X4. The participations are not guarded against a zero total: when the
    total revenue of a non-empty analyzer is zero, no entry of
    [revenue_participation] is a finite number (each is [nan] or an
    infinity), and the call still returns without raising. *)
Theorem X4_participation_of_zero_total_is_undefined
        (ps : list product) (fc : Q) (h0 h : heap) (self : FinancialAnalyzer) :
  ps <> [] ->
  analyzer_of ps fc h0 = (Ok self, h) ->
  total total_revenue ps == 0 ->
  exists r h' col,
    get_contribution_margin_analysis self h = (Ok r, h') /\
    getitem r "revenue_participation" h' = (Ok (NumCol col), h') /\
    List.length col = List.length ps /\
    Forall (fun x => is_finite x = false) col.
Proof.
  intros Hps Hinit Hzero.
  rewrite (analyzer_of_products h0 fc Hps) in Hinit.
  inversion Hinit; subst self h; clear Hinit.
  pose proof (nth_error_last h0 (metrics_frame ps)) as Htable.
  eexists. eexists. eexists. split; [ | split; [ | split ] ].
  - apply contribution_analysis_run with (ps := ps); assumption.
  - apply getitem_last. reflexivity.
  - apply length_map.
  - apply (share_column_undefined total_revenue ps Hzero).
Qed.

Definition idle_products : list product :=
  [ mkProduct "Cafe" 5 2 0; mkProduct "Cha" 4 1 0 ].

Lemma X4_participation_of_zero_total_is_undefined_witness :
  exists r h' col,
    get_contribution_margin_analysis
      (mkAnalyzer (map product_record idle_products) 1000 0%nat)
      [metrics_frame idle_products] = (Ok r, h') /\
    getitem r "revenue_participation" h' = (Ok (NumCol col), h') /\
    List.length col = List.length idle_products /\
    Forall (fun x => is_finite x = false) col.
Proof.
  apply (@X4_participation_of_zero_total_is_undefined idle_products 1000 []).
  - discriminate.
  - vm_compute. reflexivity.
  - vm_compute. reflexivity.
Defined.

(** ** The CVP report *)

Definition cvp_keys : list string :=
  [ "total_revenue"; "total_variable_cost"; "total_contribution";
    "fixed_costs"; "net_profit"; "contribution_margin_ratio";
    "variable_cost_ratio"; "operating_leverage";
    "breakeven_units"; "breakeven_revenue"; "safety_margin_units";
    "safety_margin_percent"; "safety_margin_revenue";
    "weighted_avg_contribution_margin"; "weighted_avg_price" ].

Lemma cvp_result_keys tr tvc tc tq fc :
  map fst (cvp_result tr tvc tc tq fc) = cvp_keys.
Proof. reflexivity. Qed.

(** Every entry of the break-even result is in the CVP result. *)
Lemma cvp_result_holds_breakeven tr tvc tc tq fc (k : string) (v : pyval) :
  assoc_get k (breakeven_result tc tq tr fc) = Some v ->
  assoc_get k (cvp_result tr tvc tc tq fc) = Some v.
Proof.
  unfold breakeven_result. cbv zeta. cbn [assoc_get].
  repeat match goal with
         | |- (if String.eqb ?a k then _ else _) = _ -> _ =>
             let E := fresh "E" in
             destruct (String.eqb a k) eqn:E;
             [ apply String.eqb_eq in E; subst k; intros Hv; rewrite <- Hv;
               reflexivity | ]
         end.
  discriminate.
Qed.

(** X5. For an analyzer built from a non-empty list of products,
    [get_cost_volume_profit_analysis] returns a dictionary with fifteen
    distinct keys that holds every entry of [calculate_breakeven_analysis]
    unchanged, the value of [calculate_operating_leverage] under
    [operating_leverage], the fixed costs as given, and as [net_profit] the
    total contribution less the fixed costs. *)
Theorem X5_cvp_report_is_consistent
        (ps : list product) (fc : Q) (h0 h : heap) (self : FinancialAnalyzer) :
  ps <> [] ->
  analyzer_of ps fc h0 = (Ok self, h) ->
  exists d b x,
    get_cost_volume_profit_analysis self h = (Ok d, h) /\
    calculate_breakeven_analysis self h = (Ok b, h) /\
    calculate_operating_leverage self h = (Ok x, h) /\
    map fst d = cvp_keys /\ NoDup (map fst d) /\
    (forall k v, assoc_get k b = Some v -> assoc_get k d = Some v) /\
    assoc_get "operating_leverage" d = Some (VNum x) /\
    assoc_get "fixed_costs" d = Some (VNum (Fin fc)) /\
    assoc_get "net_profit" d
    = Some (VNum (Fin (total total_contribution ps - fc))).
Proof.
  intros Hps Hinit.
  rewrite (analyzer_of_products h0 fc Hps) in Hinit.
  inversion Hinit; subst self h; clear Hinit.
  pose proof (nth_error_last h0 (metrics_frame ps)) as Htable.
  eexists. eexists. eexists.
  split; [ apply cvp_run with (ps := ps); assumption | ].
  split; [ apply breakeven_run with (ps := ps); assumption | ].
  split; [ apply leverage_run with (ps := ps); assumption | ].
  cbn [fixed_costs]. rewrite cvp_result_keys.
  split; [ reflexivity | ].
  split.
  { unfold cvp_keys.
    repeat (constructor; [ simpl; intuition discriminate | ]). constructor. }
  split; [ intros k v; apply cvp_result_holds_breakeven | ].
  repeat split; reflexivity.
Qed.

Lemma X5_cvp_report_is_consistent_witness :
  exists d b x,
    get_cost_volume_profit_analysis example_analyzer
                                    [metrics_frame example_products]
    = (Ok d, [metrics_frame example_products]) /\
    calculate_breakeven_analysis example_analyzer [metrics_frame example_products]
    = (Ok b, [metrics_frame example_products]) /\
    calculate_operating_leverage example_analyzer [metrics_frame example_products]
    = (Ok x, [metrics_frame example_products]) /\
    map fst d = cvp_keys /\ NoDup (map fst d) /\
    (forall k v, assoc_get k b = Some v -> assoc_get k d = Some v) /\
    assoc_get "operating_leverage" d = Some (VNum x) /\
    assoc_get "fixed_costs" d = Some (VNum (Fin 1000)) /\
    assoc_get "net_profit" d
    = Some (VNum (Fin (total total_contribution example_products - 1000))).
Proof.
  apply (@X5_cvp_report_is_consistent example_products 1000 []).
  - discriminate.
  - vm_compute. reflexivity.
Defined.

(** X6. When the total revenue of the analyzer is positive, the two ratios
    of the CVP report are the total contribution and the total variable
    cost in percent of the total revenue, and they add up to 100; when it
    is not positive both ratios are 0. *)
Theorem X6_cvp_ratios
        (ps : list product) (fc : Q) (h0 h : heap) (self : FinancialAnalyzer) :
  ps <> [] ->
  analyzer_of ps fc h0 = (Ok self, h) ->
  exists d margin_ratio cost_ratio,
    get_cost_volume_profit_analysis self h = (Ok d, h) /\
    assoc_get "contribution_margin_ratio" d = Some (VNum (Fin margin_ratio)) /\
    assoc_get "variable_cost_ratio" d = Some (VNum (Fin cost_ratio)) /\
    (0 < total total_revenue ps ->
     margin_ratio == total total_contribution ps / total total_revenue ps * 100 /\
     cost_ratio == total total_variable_cost ps / total total_revenue ps * 100 /\
     margin_ratio + cost_ratio == 100) /\
    (total total_revenue ps <= 0 -> margin_ratio == 0 /\ cost_ratio == 0).
Proof.
  intros Hps Hinit.
  rewrite (analyzer_of_products h0 fc Hps) in Hinit.
  inversion Hinit; subst self h; clear Hinit.
  pose proof (nth_error_last h0 (metrics_frame ps)) as Htable.
  eexists. eexists. eexists.
  split; [ apply cvp_run with (ps := ps); assumption | ].
  unfold cvp_result. rewrite !guarded_percent.
  split; [ reflexivity | ]. split; [ reflexivity | ].
  pose proof (total_contribution_split ps) as Hsplit.
  split.
  - intros Hpos.
    replace (Qltb 0 (total total_revenue ps)) with true
      by (symmetry; apply Qltb_lt; exact Hpos).
    repeat split; try reflexivity.
    rewrite Hsplit. field. lra.
  - intros Hneg.
    replace (Qltb 0 (total total_revenue ps)) with false
      by (symmetry; apply Qltb_ge; exact Hneg).
    split; reflexivity.
Qed.

Lemma X6_cvp_ratios_witness :
  exists d margin_ratio cost_ratio,
    get_cost_volume_profit_analysis example_analyzer
                                    [metrics_frame example_products]
    = (Ok d, [metrics_frame example_products]) /\
    assoc_get "contribution_margin_ratio" d = Some (VNum (Fin margin_ratio)) /\
    assoc_get "variable_cost_ratio" d = Some (VNum (Fin cost_ratio)) /\
    (0 < total total_revenue example_products ->
     margin_ratio == total total_contribution example_products
                     / total total_revenue example_products * 100 /\
     cost_ratio == total total_variable_cost example_products
                   / total total_revenue example_products * 100 /\
     margin_ratio + cost_ratio == 100) /\
    (total total_revenue example_products <= 0 ->
     margin_ratio == 0 /\ cost_ratio == 0).
Proof.
  apply (@X6_cvp_ratios example_products 1000 []).
  - discriminate.
  - vm_compute. reflexivity.
Defined.

(** ** The break-even point and the safety margin *)








(** ** The margin in percent *)

Lemma margin_percent_value (p : product) :
  ~ price p == 0 ->
  contribution_margin_percent p
  = Fin ((price p - cost p) / price p * 100).
Proof.
  intros Hprice. unfold contribution_margin_percent, contribution_margin.
  rewrite (xdiv_finite _ Hprice). reflexivity.
Qed.

(** X9. In the table of an analyzer built from a non-empty list of
    products, the [contribution_margin_percent] of a product is never
    [nan]; for a product with a price other than 0 it is the finite number
    [(price - cost) / price * 100], and it lies between 0 and 100 when the
    price is positive and the cost is between 0 and the price. *)
Theorem X9_margin_percent_of_a_priced_product
        (ps : list product) (fc : Q) (h0 h : heap) (self : FinancialAnalyzer) :
  ps <> [] ->
  analyzer_of ps fc h0 = (Ok self, h) ->
  exists col,
    getitem (df self) "contribution_margin_percent" h = (Ok (NumCol col), h) /\
    List.length col = List.length ps /\
    forall i p,
      nth_error ps i = Some p ->
      exists x,
        nth_error col i = Some x /\
        is_nan x = false /\
        (~ price p == 0 ->
         x = Fin ((price p - cost p) / price p * 100)) /\
        (0 < price p -> 0 <= cost p <= price p ->
         0 <= (price p - cost p) / price p * 100 <= 100).
Proof.
  intros Hps Hinit.
  rewrite (analyzer_of_products h0 fc Hps) in Hinit.
  inversion Hinit; subst self h; clear Hinit.
  exists (map contribution_margin_percent ps).
  split; [ apply getitem_last; reflexivity | ].
  split; [ apply length_map | ].
  intros i p Hi. exists (contribution_margin_percent p).
  split; [ rewrite nth_error_map, Hi; reflexivity | ].
  split; [ apply margin_percent_not_nan | ].
  split; [ apply margin_percent_value | ].
  intros Hprice [Hc0 Hc1].
  assert (Hratio : 0 <= (price p - cost p) / price p <= 1).
  { split.
    - apply Qle_shift_div_l; lra.
    - apply Qle_shift_div_r; lra. }
  lra.
Qed.

Lemma X9_margin_percent_of_a_priced_product_witness :
  exists col,
    getitem 0%nat "contribution_margin_percent" [metrics_frame example_products]
    = (Ok (NumCol col), [metrics_frame example_products]) /\
    List.length col = List.length example_products /\
    forall i p,
      nth_error example_products i = Some p ->
      exists x,
        nth_error col i = Some x /\
        is_nan x = false /\
        (~ price p == 0 ->
         x = Fin ((price p - cost p) / price p * 100)) /\
        (0 < price p -> 0 <= cost p <= price p ->
         0 <= (price p - cost p) / price p * 100 <= 100).
Proof.
  apply (@X9_margin_percent_of_a_priced_product
           example_products 1000 [] _ example_analyzer).
  - discriminate.
  - vm_compute. reflexivity.
Defined.

(** ** Combos: the requested names as a set *)

Lemma selected_same_names (l1 l2 : list string) (ps : list product) :
  (forall s, In s l1 <-> In s l2) -> selected l1 ps = selected l2 ps.
Proof.
  intros Hsame. unfold selected. apply filter_ext. intros p.
  apply eq_true_iff_eq. rewrite !existsb_exists. split.
  - intros (s & Hs & Heq). exists s. split; [ apply Hsame; exact Hs | exact Heq ].
  - intros (s & Hs & Heq). exists s. split; [ apply Hsame; exact Hs | exact Heq ].
Qed.

Lemma combo_frame_same_names (l1 l2 : list string) (ps : list product) :
  (forall s, In s l1 <-> In s l2) -> combo_frame ps l1 = combo_frame ps l2.
Proof.
  intros Hsame. unfold combo_frame. f_equal. apply map_ext. intros p.
  apply eq_true_iff_eq. rewrite !existsb_exists. split.
  - intros (s & Hs & Heq). exists s. split; [ apply Hsame; exact Hs | exact Heq ].
  - intros (s & Hs & Heq). exists s. split; [ apply Hsame; exact Hs | exact Heq ].
Qed.

(** X10. [calculate_combo_analysis] takes the requested names as a set: two
    lists with the same members, in any order and with any repetition, give
    the same store and the same result in every field but [products], which
    echoes the list as given.  A name requested twice is not counted
    twice. *)
Theorem X10_combo_depends_on_the_set_of_names
        (ps : list product) (fc : Q) (h0 h : heap) (self : FinancialAnalyzer)
        (names1 names2 : list string) (discount_percent : Q) :
  ps <> [] ->
  analyzer_of ps fc h0 = (Ok self, h) ->
  (forall s, In s names1 <-> In s names2) ->
  exists res1 res2 h',
    calculate_combo_analysis self names1 discount_percent h = (Ok res1, h') /\
    calculate_combo_analysis self names2 discount_percent h = (Ok res2, h') /\
    forall k, k <> "products" -> assoc_get k res1 = assoc_get k res2.
Proof.
  intros Hps Hinit Hsame.
  rewrite (analyzer_of_products h0 fc Hps) in Hinit.
  inversion Hinit; subst self h; clear Hinit.
  pose proof (nth_error_last h0 (metrics_frame ps)) as Htable.
  pose proof (selected_same_names names1 names2 ps Hsame) as Hsel.
  pose proof (combo_frame_same_names names1 names2 ps Hsame) as Hframe.
  destruct (selected names1 ps) as [|p chosen] eqn:H1.
  - eexists. eexists. eexists. split; [ | split ].
    + apply combo_run_nothing with (ps := ps); assumption.
    + rewrite Hframe.
      apply combo_run_nothing with (ps := ps); try assumption.
      symmetry; exact Hsel.
    + reflexivity.
  - assert (Hne1 : selected names1 ps <> []) by congruence.
    assert (Hne2 : selected names2 ps <> []) by congruence.
    eexists. eexists. eexists. split; [ | split ].
    + apply combo_run with (ps := ps); assumption.
    + rewrite Hframe. apply combo_run with (ps := ps); assumption.
    + intros k Hk. rewrite H1, <- Hsel.
      apply combo_result_but_products; exact Hk.
Qed.

Lemma X10_combo_depends_on_the_set_of_names_witness :
  exists res1 res2 h',
    calculate_combo_analysis example_analyzer
                             ["Cappuccino"; "Cafe Expresso"; "Cappuccino"] 10
                             [metrics_frame example_products] = (Ok res1, h') /\
    calculate_combo_analysis example_analyzer
                             ["Cafe Expresso"; "Cappuccino"] 10
                             [metrics_frame example_products] = (Ok res2, h') /\
    forall k, k <> "products" -> assoc_get k res1 = assoc_get k res2.
Proof.
  apply (@X10_combo_depends_on_the_set_of_names example_products 1000 []).
  - discriminate.
  - vm_compute. reflexivity.
  - intros s. simpl. tauto.
Defined.

(** ** The price simulation *)

(** The products of a given name. *)
Definition named (product_name : string) (ps : list product) : list product :=
  filter (fun p => String.eqb (name p) product_name) ps.

(** The table of the rows of that name, a new object. *)
Definition named_frame (product_name : string) (ps : list product) : DataFrame :=
  frame_filter (map (fun p => String.eqb (name p) product_name) ps)
               (metrics_frame ps).

Lemma eq_str_products (product_name : string) (ps : list product) :
  series_eq_str (ObjCol (map (fun p => CStr (name p)) ps)) product_name
  = map (fun p => String.eqb (name p) product_name) ps.
Proof. unfold series_eq_str, column_cells. apply map_map. Qed.

Section SimulationStart.
Variable self : FinancialAnalyzer.
Variable ps : list product.
Variable h : heap.
Hypothesis Hrows : ps <> [].
Hypothesis Htable : nth_error h (df self) = Some (metrics_frame ps).
Variable product_name : string.

Lemma get_index_last h1 d :
  get_index (List.length h1) (h1 ++ [d]) = (Ok (index d), h1 ++ [d]).
Proof.
  unfold get_index. erewrite bind_ok by apply read_frame_last. reflexivity.
Qed.

Lemma simulation_start :
  forall k : list nat -> M dict,
    (n <- len (df self) ;;
     if Nat.eqb n 0 then ret []
     else
       names <- getitem (df self) "name" ;;
       matching <- getitem_mask (df self) (series_eq_str names product_name) ;;
       product_idx <- get_index matching ;;
       k product_idx) h
    = k (index (named_frame product_name ps))
        (h ++ [named_frame product_name ps]).
Proof using Hrows Htable.
  intros k.
  erewrite bind_ok by (eapply len_at; exact Htable).
  rewrite metrics_rows, (rows_nonzero Hrows).
  erewrite bind_ok by (eapply getitem_at; [ exact Htable | reflexivity ]).
  rewrite eq_str_products.
  erewrite bind_ok by (eapply getitem_mask_at; exact Htable).
  erewrite bind_ok by apply get_index_last.
  reflexivity.
Qed.

Lemma named_frame_rows :
  List.length (index (named_frame product_name ps))
  = List.length (named product_name ps).
Proof.
  unfold named_frame, frame_filter, named. cbn [index metrics_frame].
  apply select_length. apply length_seq.
Qed.

Lemma simulation_run_nothing new_price :
  named product_name ps = [] ->
  simulate_price_changes self product_name new_price h
  = (Ok [("error", VStr "Produto não encontrado")],
     h ++ [named_frame product_name ps]).
Proof using Hrows Htable.
  intros Hnone. unfold simulate_price_changes. rewrite simulation_start.
  rewrite named_frame_rows, Hnone. reflexivity.
Qed.

End SimulationStart.

(** X11. On an analyzer built from a non-empty list of products,
    [simulate_price_changes] with a name that no product has returns the
    dictionary with the single key [error], and raises nothing. *)
Theorem X11_simulation_of_an_unknown_product
        (ps : list product) (fc : Q) (h0 h : heap) (self : FinancialAnalyzer)
        (product_name : string) (new_price : Q) :
  ps <> [] ->
  analyzer_of ps fc h0 = (Ok self, h) ->
  (forall p, In p ps -> name p <> product_name) ->
  fst (simulate_price_changes self product_name new_price h)
  = Ok [("error", VStr "Produto não encontrado")].
Proof.
  intros Hps Hinit Hnone.
  rewrite (analyzer_of_products h0 fc Hps) in Hinit.
  inversion Hinit; subst self h; clear Hinit.
  pose proof (nth_error_last h0 (metrics_frame ps)) as Htable.
  rewrite simulation_run_nothing with (ps := ps); try assumption.
  - reflexivity.
  - unfold named.
    destruct (filter (fun p => String.eqb (name p) product_name) ps)
      as [|p l] eqn:Hf; [ reflexivity | ].
    assert (Hin : In p (filter (fun p => String.eqb (name p) product_name) ps))
      by (rewrite Hf; left; reflexivity).
    apply filter_In in Hin. destruct Hin as [Hin Heq].
    apply String.eqb_eq in Heq. exfalso. exact (Hnone p Hin Heq).
Qed.

Lemma X11_simulation_of_an_unknown_product_witness :
  fst (simulate_price_changes example_analyzer "Mocha" 7
                              [metrics_frame example_products])
  = Ok [("error", VStr "Produto não encontrado")].
Proof.
  apply (@X11_simulation_of_an_unknown_product example_products 1000 []).
  - discriminate.
  - vm_compute. reflexivity.
  - intros p [Hp|[Hp|[]]]; subst p; discriminate.
Defined.

(** ** From a table to records and back *)

Section RoundTrip.

Lemma add_keys_known (r : record) (acc : list string) :
  (forall kv, In kv r -> In (fst kv) acc) -> fold_left add_key r acc = acc.
Proof.
  revert acc; induction r as [|kv r IH]; intros acc Hin; [ reflexivity | ].
  simpl. unfold add_key at 2.
  replace (existsb (String.eqb (fst kv)) acc) with true.
  - apply IH. intros kv' Hkv'. apply Hin. right; exact Hkv'.
  - symmetry. apply existsb_exists. exists (fst kv).
    split; [ apply Hin; left; reflexivity | apply String.eqb_refl ].
Qed.

Lemma add_keys_fresh (r : record) (acc : list string) :
  NoDup (acc ++ map fst r) -> fold_left add_key r acc = acc ++ map fst r.
Proof.
  revert acc; induction r as [|kv r IH]; intros acc Hnd; simpl.
  - symmetry; apply app_nil_r.
  - unfold add_key at 2.
    replace (existsb (String.eqb (fst kv)) acc) with false.
    + rewrite IH; rewrite <- app_assoc; [ reflexivity | exact Hnd ].
    + symmetry. apply not_true_iff_false. intros Hex.
      apply existsb_exists in Hex. destruct Hex as (k & Hk & Heq).
      apply String.eqb_eq in Heq. subst k.
      apply NoDup_remove_2 in Hnd. apply Hnd. apply in_or_app. left; exact Hk.
Qed.

Lemma record_keys_uniform (keys : list string) (r : record) (rs : list record) :
  NoDup keys ->
  map fst r = keys ->
  (forall r', In r' rs -> map fst r' = keys) ->
  record_keys (r :: rs) = keys.
Proof.
  intros Hnd Hr Hrs. unfold record_keys. simpl.
  rewrite (add_keys_fresh r []) by (simpl; rewrite Hr; exact Hnd).
  simpl. rewrite Hr. clear Hr r.
  induction rs as [|r rs IH]; [ reflexivity | ].
  simpl. rewrite add_keys_known.
  - apply IH. intros r' Hr'. apply Hrs. right; exact Hr'.
  - intros kv Hkv. rewrite <- (Hrs r (or_introl eq_refl)).
    apply in_map. exact Hkv.
Qed.

Lemma assoc_get_map_values (A B : Type) (g : A -> B) (k : string)
      (l : list (string * A)) :
  assoc_get k (map (fun kv => (fst kv, g (snd kv))) l)
  = option_map g (assoc_get k l).
Proof.
  induction l as [|[k' v] l IH]; [ reflexivity | ].
  simpl. destruct (String.eqb k' k); [ reflexivity | exact IH ].
Qed.

Lemma assoc_get_first (A : Type) (k : string) (v : A) (l : list (string * A)) :
  NoDup (map fst l) -> In (k, v) l -> assoc_get k l = Some v.
Proof.
  induction l as [|[k' v'] l IH]; intros Hnd Hin; [ contradiction | ].
  simpl in *. inversion Hnd as [|? ? Hnotin Hnd']; subst.
  destruct Hin as [Heq|Hin].
  - inversion Heq; subst. rewrite String.eqb_refl. reflexivity.
  - destruct (String.eqb k' k) eqn:Hk.
    + apply String.eqb_eq in Hk. subst k'. exfalso. apply Hnotin.
      change k with (fst (k, v)). apply in_map. exact Hin.
    + apply IH; assumption.
Qed.

Lemma map_nth_seq (A : Type) (l : list A) (d : A) :
  map (fun i => nth i l d) (seq 0 (List.length l)) = l.
Proof.
  induction l as [|x l IH]; [ reflexivity | ].
  simpl. f_equal. rewrite <- seq_shift, map_map. exact IH.
Qed.

End RoundTrip.

(** A table as [pd.DataFrame(records)] builds it from at least one record:
    the default index, distinct column names, columns as long as the
    index, and a numeric dtype for a column of numbers only. *)
Definition built_from_records (d : DataFrame) : Prop :=
  index d <> [] /\
  index d = seq 0 (List.length (index d)) /\
  NoDup (map fst (columns d)) /\
  forall k c, In (k, c) (columns d) ->
              List.length (column_cells c) = List.length (index d) /\
              column_of_cells (column_cells c) = c.

Lemma records_round_trip (d : DataFrame) :
  built_from_records d ->
  DataFrame_of_records (to_dict_records d) = d.
Proof.
  intros (Hrows & Hindex & Hnd & Hcols).
  destruct d as [idx cols]. cbn [index columns] in *.
  unfold DataFrame_of_records, to_dict_records. cbn [index columns].
  set (row := fun i : nat =>
                map (fun kc : string * column =>
                       (fst kc, nth i (column_cells (snd kc)) (CNum NaN))) cols).
  f_equal; [ rewrite length_map, length_seq; symmetry; exact Hindex | ].
  assert (Hkeys : record_keys (map row (seq 0 (List.length idx))) = map fst cols).
  { destruct idx as [|i0 idx']; [ congruence | ].
    cbn [List.length seq map].
    apply record_keys_uniform.
    - exact Hnd.
    - unfold row. rewrite map_map. reflexivity.
    - intros r' Hr'. apply in_map_iff in Hr'. destruct Hr' as (i & Hi & _).
      subst r'. unfold row. rewrite map_map. reflexivity. }
  rewrite Hkeys, map_map.
  rewrite <- (map_id cols) at 2. apply map_ext_in.
  intros [k c] Hin. cbn [fst]. f_equal.
  destruct (Hcols k c Hin) as [Hlen Hcanon].
  rewrite map_map.
  rewrite (map_ext (fun i => record_cell k (row i))
                   (fun i => nth i (column_cells c) (CNum NaN))).
  - rewrite <- Hlen, map_nth_seq. exact Hcanon.
  - intros i. unfold record_cell, row.
    rewrite (assoc_get_map_values
               (fun c0 => nth i (column_cells c0) (CNum NaN)) k cols).
    rewrite (assoc_get_first k c cols Hnd Hin). reflexivity.
Qed.

(** X12. [to_dict('records')] followed by [pd.DataFrame] gives back the
    table, for every table that has at least one row, the default index,
    distinct column names, full columns and inferred dtypes. *)
Theorem X12_records_round_trip (d : DataFrame) :
  built_from_records d ->
  DataFrame_of_records (to_dict_records d) = d.
Proof. apply records_round_trip. Qed.

Lemma column_of_numbers (l : list xnum) :
  column_of_cells (column_cells (NumCol l)) = NumCol l.
Proof.
  cbn [column_cells]. unfold column_of_cells.
  replace (forallb cell_is_num (map CNum l)) with true
    by (induction l; simpl; auto).
  rewrite map_map. cbn [cell_num]. rewrite map_id. reflexivity.
Qed.

Lemma metrics_frame_built (ps : list product) :
  ps <> [] -> built_from_records (metrics_frame ps).
Proof.
  intros Hps. unfold built_from_records. cbn [index columns metrics_frame].
  rewrite length_seq.
  split; [ destruct ps; [ congruence | discriminate ] | ].
  split; [ reflexivity | ].
  split.
  { unfold base_columns. simpl.
    repeat (constructor; [ simpl; intuition discriminate | ]). constructor. }
  intros k c Hin. unfold base_columns, num_column in Hin. simpl in Hin.
  repeat (destruct Hin as [Hin|Hin];
          [ inversion Hin; subst k c; clear Hin; split;
            [ cbn [column_cells]; rewrite ?length_map; reflexivity
            | try (cbn [column_cells]; rewrite map_map;
                   apply column_of_num_cells) ]
          | ]);
    try contradiction.
  destruct ps as [|p ps]; [ congruence | reflexivity ].
Qed.

Lemma X12_records_round_trip_witness :
  DataFrame_of_records (to_dict_records (metrics_frame example_products))
  = metrics_frame example_products.
Proof.
  apply X12_records_round_trip. apply metrics_frame_built. discriminate.
Defined.

(** ** Metrics are recomputed from price, cost and quantity *)

(** A table with the base columns of [ps] and any five derived columns. *)
Definition stale_frame (ps : list product) (c1 c2 c3 c4 c5 : list xnum)
  : DataFrame :=
  mkFrame (seq 0 (List.length ps))
          (base_columns ps ++
           [ ("contribution_margin", NumCol c1);
             ("contribution_margin_percent", NumCol c2);
             ("total_revenue", NumCol c3);
             ("total_variable_cost", NumCol c4);
             ("total_contribution", NumCol c5) ]).

Section StaleMetrics.
Variable ps : list product.
Variables c1 c2 c3 c4 c5 : list xnum.
Hypothesis Hps : ps <> [].

(** [_calculate_metrics] overwrites whatever the derived columns hold. *)
Lemma calculate_metrics_stale (h : heap) recs fc :
  _calculate_metrics (mkAnalyzer recs fc (List.length h))
                     (h ++ [stale_frame ps c1 c2 c3 c4 c5])
  = (Ok tt, h ++ [metrics_frame ps]).
Proof using Hps.
  assert (Hlen : Nat.ltb 0 (List.length ps) = true).
  { destruct ps; [ congruence | reflexivity ]. }
  unfold _calculate_metrics. cbn [df].
  erewrite bind_ok by apply len_last. cbn [index stale_frame].
  rewrite length_seq, Hlen.
  run_last.
  rewrite setitem_last. f_equal. f_equal. f_equal.
  unfold stale_frame, metrics_frame, base_columns, num_column, fillna.
  rewrite !map2_map, !map_map.
  reflexivity.
Qed.

Hypothesis H1 : List.length c1 = List.length ps.
Hypothesis H2 : List.length c2 = List.length ps.
Hypothesis H3 : List.length c3 = List.length ps.
Hypothesis H4 : List.length c4 = List.length ps.
Hypothesis H5 : List.length c5 = List.length ps.

Lemma stale_frame_built : built_from_records (stale_frame ps c1 c2 c3 c4 c5).
Proof using Hps H1 H2 H3 H4 H5.
  unfold built_from_records. cbn [index columns stale_frame].
  rewrite length_seq.
  split; [ destruct ps; [ congruence | discriminate ] | ].
  split; [ reflexivity | ].
  split.
  { unfold base_columns. simpl.
    repeat (constructor; [ simpl; intuition discriminate | ]). constructor. }
  intros k c Hin. unfold base_columns, num_column in Hin. simpl in Hin.
  pose proof column_of_numbers as Hnum.
  repeat (destruct Hin as [Hin|Hin];
          [ inversion Hin; subst k c; clear Hin; split;
            [ cbn [column_cells]; rewrite ?length_map; auto
            | try apply Hnum ]
          | ]);
    try contradiction.
  destruct ps as [|p ps']; [ congruence | reflexivity ].
Qed.

(** The analyzer built from the records of such a table has the metrics of
    its base columns. *)
Lemma init_on_stale_records (h : heap) (fc : Q) :
  __init__ (to_dict_records (stale_frame ps c1 c2 c3 c4 c5)) fc h
  = (Ok (mkAnalyzer (to_dict_records (stale_frame ps c1 c2 c3 c4 c5)) fc
                    (List.length h)),
     h ++ [metrics_frame ps]).
Proof using Hps H1 H2 H3 H4 H5.
  unfold __init__.
  erewrite bind_ok by reflexivity.
  rewrite (records_round_trip stale_frame_built).
  erewrite bind_ok by apply calculate_metrics_stale.
  reflexivity.
Qed.

End StaleMetrics.

(** ** The rows [loc] addresses *)

Section Labels.
Variable b : product -> bool.

Lemma has_label_cons (x : nat) (idx : list nat) (lbl : nat) :
  has_label (x :: idx) lbl = Nat.eqb lbl x || has_label idx lbl.
Proof. reflexivity. Qed.

Lemma has_label_below (mask : list bool) (a n lbl : nat) :
  (lbl < a)%nat -> has_label (select mask (seq a n)) lbl = false.
Proof.
  revert a mask; induction n as [|n IH]; intros a mask Hlt.
  - destruct mask; reflexivity.
  - destruct mask as [|m mask]; [ reflexivity | ].
    cbn [seq select].
    assert (Hrest : has_label (select mask (seq (S a) n)) lbl = false)
      by (apply IH; lia).
    destruct m; [ | exact Hrest ].
    rewrite has_label_cons, Hrest.
    replace (Nat.eqb lbl a) with false; [ reflexivity | ].
    symmetry. apply Nat.eqb_neq. lia.
Qed.

(** The labels selected by a mask over the products are the positions of
    the products the mask holds for. *)
Lemma has_label_select (ps : list product) (a j : nat) (d : product) :
  (j < List.length ps)%nat ->
  has_label (select (map b ps) (seq a (List.length ps))) (a + j) = b (nth j ps d).
Proof.
  revert a j; induction ps as [|p ps IH]; intros a j Hj; simpl in Hj; [ lia | ].
  cbn [map List.length seq select].
  destruct j as [|j]; cbn [nth].
  - rewrite Nat.add_0_r. destruct (b p).
    + rewrite has_label_cons, Nat.eqb_refl. reflexivity.
    + apply has_label_below. lia.
  - pose proof (IH (S a) j ltac:(lia)) as Hrest.
    rewrite Nat.add_succ_comm in Hrest.
    destruct (b p); [ | exact Hrest ].
    rewrite has_label_cons, Hrest.
    replace (Nat.eqb (a + S j) a) with false; [ reflexivity | ].
    symmetry. apply Nat.eqb_neq. lia.
Qed.

Lemma map2_on_labels (A : Type) (idx : list nat) (f : nat -> A) (g : product -> A)
      (ps : list product) (a : nat) (d : product) :
  (forall j, (j < List.length ps)%nat ->
             has_label idx (a + j) = b (nth j ps d)) ->
  map2 (fun lbl old => if has_label idx lbl then f lbl else old)
       (seq a (List.length ps)) (map g ps)
  = map2 (fun lbl p => if b p then f lbl else g p) (seq a (List.length ps)) ps.
Proof.
  revert a; induction ps as [|p ps IH]; intros a Hlab; [ reflexivity | ].
  cbn [map List.length seq map2]. f_equal.
  - pose proof (Hlab 0%nat ltac:(simpl; lia)) as H0.
    rewrite Nat.add_0_r in H0. cbn [nth] in H0. rewrite H0. reflexivity.
  - apply IH. intros j Hj.
    pose proof (Hlab (S j) ltac:(simpl; lia)) as HS. cbn [nth] in HS.
    rewrite Nat.add_succ_comm. exact HS.
Qed.

Lemma map2_constant (A B C : Type) (g : B -> C) (l : list A) (ps : list B) :
  List.length l = List.length ps ->
  map2 (fun _ p => g p) l ps = map g ps.
Proof.
  revert l; induction ps as [|p ps IH]; intros [|x l] Hlen; simpl in *;
    try reflexivity; try discriminate.
  f_equal. apply IH. congruence.
Qed.

Lemma length_map2 (A B C : Type) (f : A -> B -> C) (l : list A) (l' : list B) :
  List.length l = List.length l' ->
  List.length (map2 f l l') = List.length l.
Proof.
  revert l'; induction l as [|x l IH]; intros [|y l'] Hlen; simpl in *;
    try reflexivity; try discriminate.
  f_equal. apply IH. congruence.
Qed.

End Labels.

(** The product with its price replaced when it has the given name. *)
Definition with_price (product_name : string) (new_price : Q) (p : product)
  : product :=
  if String.eqb (name p) product_name
  then mkProduct (name p) new_price (cost p) (quantity p)
  else p.

(** The products once every product of that name has the new price. *)
Definition repriced (product_name : string) (new_price : Q) (ps : list product)
  : list product :=
  map (with_price product_name new_price) ps.

Section Repricing.
Variable product_name : string.
Variable new_price : Q.
Variable ps : list product.

Lemma idx_labels (j : nat) (d : product) :
  (j < List.length ps)%nat ->
  has_label (index (named_frame product_name ps)) (0 + j)
  = String.eqb (name (nth j ps d)) product_name.
Proof.
  intros Hj. unfold named_frame, frame_filter.
  cbn [index metrics_frame].
  apply (has_label_select (fun p => String.eqb (name p) product_name) ps 0 d Hj).
Qed.

(** Column [price] after [df_sim.loc[product_idx, 'price'] = new_price]. *)
Lemma repriced_price_column :
  map2 (fun lbl old =>
          if has_label (index (named_frame product_name ps)) lbl
          then Fin new_price else old)
       (seq 0 (List.length ps)) (map (fun p => Fin (price p)) ps)
  = map (fun p => Fin (price p)) (repriced product_name new_price ps).
Proof.
  destruct ps as [|p0 ps'] eqn:Eps; [ reflexivity | ]. rewrite <- Eps.
  rewrite (map2_on_labels (fun p => String.eqb (name p) product_name)
             (index (named_frame product_name ps))
             (fun _ => Fin new_price) (fun p => Fin (price p)) ps 0 p0).
  - rewrite (map2_constant
               (fun p => if String.eqb (name p) product_name
                         then Fin new_price else Fin (price p)))
      by apply length_seq.
    unfold repriced. rewrite map_map. apply map_ext. intros p.
    unfold with_price. destruct (String.eqb (name p) product_name); reflexivity.
  - intros j Hj. apply idx_labels. exact Hj.
Qed.

Lemma repriced_other_columns :
  map (fun p => CStr (name p)) (repriced product_name new_price ps)
  = map (fun p => CStr (name p)) ps /\
  map (fun p => Fin (cost p)) (repriced product_name new_price ps)
  = map (fun p => Fin (cost p)) ps /\
  map (fun p => Fin (quantity p)) (repriced product_name new_price ps)
  = map (fun p => Fin (quantity p)) ps.
Proof.
  unfold repriced. rewrite !map_map.
  repeat split; apply map_ext; intros p; unfold with_price;
    destruct (String.eqb (name p) product_name); reflexivity.
Qed.

Lemma repriced_length :
  List.length (repriced product_name new_price ps) = List.length ps.
Proof. apply length_map. Qed.

End Repricing.

Section LocRun.
Variable h1 : heap.
Variable d : DataFrame.

Lemma loc_set_scalar_last idx k v :
  loc_set_scalar (List.length h1) idx k v (h1 ++ [d])
  = (Ok tt, h1 ++ [frame_loc_set d idx k (fun _ => v)]).
Proof.
  unfold loc_set_scalar. erewrite bind_ok by apply read_frame_last.
  apply write_frame_last.
Qed.

Lemma loc_set_last idx k s :
  loc_set (List.length h1) idx k s (h1 ++ [d])
  = (Ok tt, h1 ++ [frame_loc_set d idx k (lseries_at s)]).
Proof.
  unfold loc_set. erewrite bind_ok by apply read_frame_last.
  apply write_frame_last.
Qed.

Lemma loc_get_last idx k s :
  frame_loc_get d idx k = Ok s ->
  loc_get (List.length h1) idx k (h1 ++ [d]) = (Ok s, h1 ++ [d]).
Proof.
  intros Hs. unfold loc_get. erewrite bind_ok by apply read_frame_last.
  unfold lift. rewrite Hs. reflexivity.
Qed.

Lemma to_dict_last :
  to_dict (List.length h1) (h1 ++ [d]) = (Ok (to_dict_records d), h1 ++ [d]).
Proof.
  unfold to_dict. erewrite bind_ok by apply read_frame_last. reflexivity.
Qed.

End LocRun.

Lemma copy_frame_at (h1 : heap) (r : ref) (d : DataFrame) :
  nth_error h1 r = Some d -> copy r h1 = (Ok (List.length h1), h1 ++ [d]).
Proof.
  intros Hd. unfold copy, bind, read_frame, new_frame. rewrite Hd.
  reflexivity.
Qed.

(** A table that has the base columns of [ps] and five derived columns of
    the right length. *)
Definition stale (ps : list product) (d : DataFrame) : Prop :=
  exists c1 c2 c3 c4 c5,
    List.length c1 = List.length ps /\
    List.length c2 = List.length ps /\
    List.length c3 = List.length ps /\
    List.length c4 = List.length ps /\
    List.length c5 = List.length ps /\
    d = stale_frame ps c1 c2 c3 c4 c5.

Definition derived_keys : list string :=
  [ "contribution_margin"; "contribution_margin_percent"; "total_revenue";
    "total_variable_cost"; "total_contribution" ].

Section StaleSteps.
Variable ps : list product.
Variable idx : list nat.

Lemma assigned_length (f : nat -> xnum) (c : list xnum) :
  List.length c = List.length ps ->
  List.length
    (map2 (fun lbl old => if has_label idx lbl then f lbl else old)
          (seq 0 (List.length ps)) c)
  = List.length ps.
Proof.
  intros Hc. rewrite length_map2; rewrite length_seq; congruence.
Qed.

(** An assignment through [loc] to a derived column keeps the table in
    that shape. *)
Lemma stale_loc_set (d : DataFrame) (k : string) (f : nat -> xnum) :
  In k derived_keys -> stale ps d -> stale ps (frame_loc_set d idx k f).
Proof.
  intros Hk (c1 & c2 & c3 & c4 & c5 & H1 & H2 & H3 & H4 & H5 & Hd). subst d.
  unfold derived_keys in Hk. simpl in Hk.
  pose proof (@assigned_length f) as Hlen.
  destruct Hk as [Hk|[Hk|[Hk|[Hk|[Hk|[]]]]]]; subst k.
  - exists (map2 (fun lbl old => if has_label idx lbl then f lbl else old)
                 (seq 0 (List.length ps)) c1), c2, c3, c4, c5.
    repeat split; auto.
  - exists c1, (map2 (fun lbl old => if has_label idx lbl then f lbl else old)
                     (seq 0 (List.length ps)) c2), c3, c4, c5.
    repeat split; auto.
  - exists c1, c2, (map2 (fun lbl old => if has_label idx lbl then f lbl else old)
                         (seq 0 (List.length ps)) c3), c4, c5.
    repeat split; auto.
  - exists c1, c2, c3,
      (map2 (fun lbl old => if has_label idx lbl then f lbl else old)
            (seq 0 (List.length ps)) c4), c5.
    repeat split; auto.
  - exists c1, c2, c3, c4,
      (map2 (fun lbl old => if has_label idx lbl then f lbl else old)
            (seq 0 (List.length ps)) c5).
    repeat split; auto.
Qed.

End StaleSteps.

(** The first assignment of the simulation: the rows of the given name get
    the new price, the other columns are not touched yet. *)
Lemma stale_after_price (product_name : string) (new_price : Q)
      (ps : list product) :
  stale (repriced product_name new_price ps)
        (frame_loc_set (metrics_frame ps)
                       (index (named_frame product_name ps)) "price"
                       (fun _ => Fin new_price)).
Proof.
  destruct (repriced_other_columns product_name new_price ps)
    as (Hname & Hcost & Hquantity).
  pose proof (repriced_price_column product_name new_price ps) as Hprice.
  pose proof (repriced_length product_name new_price ps) as Hlen.
  exists (map (fun p => Fin (contribution_margin p)) ps),
    (map contribution_margin_percent ps),
    (map (fun p => Fin (total_revenue p)) ps),
    (map (fun p => Fin (total_variable_cost p)) ps),
    (map (fun p => Fin (total_contribution p)) ps).
  rewrite !length_map, Hlen.
  repeat (split; [ reflexivity | ]).
  unfold stale_frame, base_columns, num_column.
  rewrite Hname, Hcost, Hquantity, <- Hprice, Hlen.
  reflexivity.
Qed.

Section SimulationRun.
Variable self : FinancialAnalyzer.
Variable ps : list product.
Variable h : heap.
Hypothesis Hrows : ps <> [].
Hypothesis Htable : nth_error h (df self) = Some (metrics_frame ps).
Variable product_name : string.
Variable new_price : Q.
Hypothesis Hnamed : named product_name ps <> [].

Lemma simulation_run :
  exists h',
    simulate_price_changes self product_name new_price h
    = (Ok [ ("current_profit",
              VNum (Fin (total total_contribution ps - fixed_costs self)));
            ("new_profit",
              VNum (Fin (total total_contribution
                               (repriced product_name new_price ps)
                         - fixed_costs self)));
            ("profit_change",
              VNum (Fin ((total total_contribution
                                (repriced product_name new_price ps)
                          - fixed_costs self)
                         - (total total_contribution ps - fixed_costs self))));
            ("current_contribution_ratio",
              dict_get (cvp_result (Fin (total total_revenue ps))
                                   (Fin (total total_variable_cost ps))
                                   (Fin (total total_contribution ps))
                                   (Fin (total quantity ps))
                                   (fixed_costs self))
                       "contribution_margin_ratio" (VNum zero));
            ("new_contribution_ratio",
              dict_get (cvp_result
                          (Fin (total total_revenue
                                      (repriced product_name new_price ps)))
                          (Fin (total total_variable_cost
                                      (repriced product_name new_price ps)))
                          (Fin (total total_contribution
                                      (repriced product_name new_price ps)))
                          (Fin (total quantity
                                      (repriced product_name new_price ps)))
                          (fixed_costs self))
                       "contribution_margin_ratio" (VNum zero)) ],
       h').
Proof using Hrows Htable Hnamed.
  unfold simulate_price_changes.
  rewrite (@simulation_start self ps h Hrows Htable product_name).
  rewrite named_frame_rows, (rows_nonzero Hnamed).
  set (F := named_frame product_name ps).
  set (idx := index F).
  assert (Htable1 : nth_error (h ++ [F]) (df self) = Some (metrics_frame ps)).
  { rewrite nth_error_app1; [ exact Htable | ].
    apply nth_error_Some. rewrite Htable. discriminate. }
  erewrite bind_ok by (apply cvp_run with (ps := ps); assumption).
  erewrite bind_ok by (apply copy_frame_at; exact Htable1).
  erewrite bind_ok by apply loc_set_scalar_last.
  erewrite bind_ok by (apply loc_get_last; reflexivity).
  erewrite bind_ok by apply loc_set_last.
  erewrite bind_ok by (apply loc_get_last; reflexivity).
  erewrite bind_ok by apply loc_set_last.
  erewrite bind_ok by (apply loc_get_last; reflexivity).
  erewrite bind_ok by apply loc_set_last.
  erewrite bind_ok by (apply loc_get_last; reflexivity).
  erewrite bind_ok by (apply loc_get_last; reflexivity).
  erewrite bind_ok by apply loc_set_last.
  erewrite bind_ok by apply to_dict_last.
  match goal with |- context [to_dict_records ?D] => set (D5 := D) end.
  assert (Hstale : stale (repriced product_name new_price ps) D5).
  { subst D5.
    repeat (apply stale_loc_set; [ unfold derived_keys; simpl; tauto | ]).
    apply stale_after_price. }
  destruct Hstale as (c1 & c2 & c3 & c4 & c5 & H1 & H2 & H3 & H4 & H5 & HD5).
  clearbody D5. subst D5.
  assert (Hrows' : repriced product_name new_price ps <> []).
  { unfold repriced. destruct ps; [ congruence | discriminate ]. }
  erewrite bind_ok
    by (apply init_on_stale_records; assumption).
  erewrite bind_ok
    by (apply cvp_run with (ps := repriced product_name new_price ps);
        [ exact Hrows' | apply nth_error_last ]).
  cbn [fixed_costs].
  erewrite bind_ok by reflexivity.
  eexists. reflexivity.
Qed.

End SimulationRun.

(** A number that is not whole, which no [int] holds. *)
Definition fractional (q : Q) : bool :=
  negb (Z.eqb (Qnum q mod Zpos (Qden q)) 0).

(** Some price is not a whole number.  The column [price] is then of
    dtype float64 whatever the Python types of the prices, and so are the
    columns derived from it, the ones [simulate_price_changes] assigns to:
    every number can be assigned to them. *)
Definition float_prices (ps : list product) : Prop :=
  exists p, In p ps /\ fractional (price p) = true.

(** X13. On an analyzer built from a non-empty list of products, one of
    which has the given name and one of which has a price that is not a
    whole number (the price column is then of floats), [simulate_price_changes] succeeds and reports
    what two analyzers report: the current profit and contribution ratio
    are those of [get_cost_volume_profit_analysis] on the analyzer itself,
    the new ones are those of an analyzer built afresh from the products
    with the new price given to every product of that name, and the profit
    change is the difference of the two total contributions, the fixed
    costs cancelling out. *)
Theorem X13_simulation_is_a_rebuild
        (ps : list product) (fc : Q) (h0 h : heap) (self : FinancialAnalyzer)
        (product_name : string) (new_price : Q) :
  ps <> [] ->
  analyzer_of ps fc h0 = (Ok self, h) ->
  named product_name ps <> [] ->
  float_prices ps ->
  forall other : heap,
  exists res h' current fresh h1 new change,
    simulate_price_changes self product_name new_price h = (Ok res, h') /\
    get_cost_volume_profit_analysis self h = (Ok current, h) /\
    analyzer_of (repriced product_name new_price ps) fc other = (Ok fresh, h1) /\
    get_cost_volume_profit_analysis fresh h1 = (Ok new, h1) /\
    assoc_get "current_profit" res = assoc_get "net_profit" current /\
    assoc_get "new_profit" res = assoc_get "net_profit" new /\
    assoc_get "current_contribution_ratio" res
    = assoc_get "contribution_margin_ratio" current /\
    assoc_get "new_contribution_ratio" res
    = assoc_get "contribution_margin_ratio" new /\
    assoc_get "profit_change" res = Some (VNum (Fin change)) /\
    change == total total_contribution (repriced product_name new_price ps)
              - total total_contribution ps.
Proof.
  intros Hps Hinit Hnamed _ other.
  rewrite (analyzer_of_products h0 fc Hps) in Hinit.
  inversion Hinit; subst self h; clear Hinit.
  pose proof (nth_error_last h0 (metrics_frame ps)) as Htable.
  assert (Hps' : repriced product_name new_price ps <> []).
  { unfold repriced. destruct ps; [ congruence | discriminate ]. }
  destruct (@simulation_run (mkAnalyzer (map product_record ps) fc (List.length h0))
              ps _ Hps Htable product_name new_price Hnamed)
    as (h' & Hrun).
  eexists. exists h'. eexists. eexists. eexists. eexists. eexists.
  split; [ exact Hrun | ].
  split; [ apply cvp_run with (ps := ps); assumption | ].
  split; [ apply (analyzer_of_products other fc Hps') | ].
  split; [ apply cvp_run with (ps := repriced product_name new_price ps);
           [ exact Hps' | apply nth_error_last ] | ].
  cbn [fixed_costs].
  repeat split; try reflexivity.
  ring.
Qed.

Lemma X13_simulation_is_a_rebuild_witness :
  exists res h' current fresh h1 new change,
    simulate_price_changes example_analyzer "Cappuccino" 7
                           [metrics_frame example_products] = (Ok res, h') /\
    get_cost_volume_profit_analysis example_analyzer
                                    [metrics_frame example_products]
    = (Ok current, [metrics_frame example_products]) /\
    analyzer_of (repriced "Cappuccino" 7 example_products) 1000 []
    = (Ok fresh, h1) /\
    get_cost_volume_profit_analysis fresh h1 = (Ok new, h1) /\
    assoc_get "current_profit" res = assoc_get "net_profit" current /\
    assoc_get "new_profit" res = assoc_get "net_profit" new /\
    assoc_get "current_contribution_ratio" res
    = assoc_get "contribution_margin_ratio" current /\
    assoc_get "new_contribution_ratio" res
    = assoc_get "contribution_margin_ratio" new /\
    assoc_get "profit_change" res = Some (VNum (Fin change)) /\
    change == total total_contribution (repriced "Cappuccino" 7 example_products)
              - total total_contribution example_products.
Proof.
  apply (@X13_simulation_is_a_rebuild example_products 1000 []
                                      [metrics_frame example_products]
                                      example_analyzer "Cappuccino" 7).
  - discriminate.
  - vm_compute. reflexivity.
  - vm_compute. discriminate.
  - exists (mkProduct "Cafe Expresso" (9 # 2) (6 # 5) 300).
    split; [ left; reflexivity | vm_compute; reflexivity ].
Defined.

Section ProfitChange.
Variable product_name : string.
Variable new_price : Q.

Lemma named_cons (p : product) (ps : list product) :
  named product_name (p :: ps)
  = if String.eqb (name p) product_name
    then p :: named product_name ps
    else named product_name ps.
Proof. reflexivity. Qed.

Lemma repriced_cons (p : product) (ps : list product) :
  repriced product_name new_price (p :: ps)
  = with_price product_name new_price p :: repriced product_name new_price ps.
Proof. reflexivity. Qed.

(** The contribution gained by the new price: the price difference on
    every unit of the products of that name. *)
Lemma repriced_contribution (ps : list product) :
  total total_contribution (repriced product_name new_price ps)
  - total total_contribution ps
  == total (fun p => (new_price - price p) * quantity p)
           (named product_name ps).
Proof.
  induction ps as [|p ps IH].
  - unfold repriced, named. simpl. rewrite !total_empty. ring.
  - rewrite repriced_cons, named_cons, !total_cons.
    unfold with_price at 1.
    destruct (String.eqb (name p) product_name).
    + rewrite total_cons, <- IH.
      unfold total_contribution, contribution_margin. simpl. ring.
    + rewrite <- IH. ring.
Qed.

End ProfitChange.

(** X14. On an analyzer one of whose prices is not a whole number (the
    price column is then of floats), the profit change
    [simulate_price_changes] reports is the price difference times the
    quantity, summed over the products of the given name: the cost and the
    other products play no part, and a new price equal to the current one
    gives a change of 0. *)
Theorem X14_profit_change_is_price_difference_times_quantity
        (ps : list product) (fc : Q) (h0 h : heap) (self : FinancialAnalyzer)
        (product_name : string) (new_price : Q) :
  ps <> [] ->
  analyzer_of ps fc h0 = (Ok self, h) ->
  named product_name ps <> [] ->
  float_prices ps ->
  exists res h' change,
    simulate_price_changes self product_name new_price h = (Ok res, h') /\
    assoc_get "profit_change" res = Some (VNum (Fin change)) /\
    change == total (fun p => (new_price - price p) * quantity p)
                    (named product_name ps) /\
    ((forall p, In p (named product_name ps) -> price p == new_price) ->
     change == 0).
Proof.
  intros Hps Hinit Hnamed _.
  rewrite (analyzer_of_products h0 fc Hps) in Hinit.
  inversion Hinit; subst self h; clear Hinit.
  pose proof (nth_error_last h0 (metrics_frame ps)) as Htable.
  destruct (@simulation_run (mkAnalyzer (map product_record ps) fc (List.length h0))
              ps _ Hps Htable product_name new_price Hnamed)
    as (h' & Hrun).
  cbn [fixed_costs] in Hrun.
  eexists. exists h'. eexists.
  split; [ exact Hrun | ].
  split; [ reflexivity | ].
  assert (Hchange :
            total total_contribution (repriced product_name new_price ps) - fc
            - (total total_contribution ps - fc)
            == total (fun p => (new_price - price p) * quantity p)
                     (named product_name ps)).
  { rewrite <- repriced_contribution. ring. }
  split; [ exact Hchange | ].
  intros Hsame. rewrite Hchange.
  clear Hchange Hrun Hnamed.
  induction (named product_name ps) as [|p l IH].
  - rewrite total_empty. reflexivity.
  - rewrite total_cons, IH.
    + rewrite (Hsame p (or_introl eq_refl)). ring.
    + intros q Hq. apply Hsame. right; exact Hq.
Qed.

Lemma X14_profit_change_is_price_difference_times_quantity_witness :
  exists res h' change,
    simulate_price_changes example_analyzer "Cappuccino" 7
                           [metrics_frame example_products] = (Ok res, h') /\
    assoc_get "profit_change" res = Some (VNum (Fin change)) /\
    change == total (fun p => (7 - price p) * quantity p)
                    (named "Cappuccino" example_products) /\
    ((forall p, In p (named "Cappuccino" example_products) -> price p == 7) ->
     change == 0).
Proof.
  apply (@X14_profit_change_is_price_difference_times_quantity
           example_products 1000 []).
  - discriminate.
  - vm_compute. reflexivity.
  - vm_compute. discriminate.
  - exists (mkProduct "Cafe Expresso" (9 # 2) (6 # 5) 300).
    split; [ left; reflexivity | vm_compute; reflexivity ].
Defined.

(** ** More on the ranks *)

Section RankBounds.
Variable ps : list product.

Lemma filters_apart (A : Type) (f g : A -> bool) (l : list A) :
  (forall x, In x l -> f x = true -> g x = false) ->
  (List.length (filter f l) + List.length (filter g l) <= List.length l)%nat.
Proof.
  induction l as [|x l IH]; intros Hfg; simpl; [ lia | ].
  assert (IH' : (List.length (filter f l) + List.length (filter g l)
                 <= List.length l)%nat).
  { apply IH. intros y Hy. apply Hfg. right; exact Hy. }
  pose proof (Hfg x (or_introl eq_refl)) as Hx.
  destruct (f x) eqn:Hf; [ rewrite (Hx eq_refl) | destruct (g x) ]; simpl; lia.
Qed.

Lemma greater_and_equal_margins (p : product) :
  (greater_margin p ps + equal_margin p ps <= List.length ps)%nat.
Proof.
  unfold greater_margin, equal_margin. apply filters_apart.
  intros q _ Hgt.
  apply greater_not_equal; auto using margin_percent_not_nan.
Qed.

Lemma equal_margin_positive (p : product) :
  In p ps -> (1 <= equal_margin p ps)%nat.
Proof.
  intros Hin. rewrite <- count_equal_products.
  apply count_equal_positive; [ apply margin_percent_not_nan | ].
  apply in_map. exact Hin.
Qed.

Lemma average_rank_spec_bounds (p : product) :
  In p ps ->
  1 <= average_rank_spec p ps <= inject_Z (Z.of_nat (List.length ps)).
Proof.
  intros Hin. unfold average_rank_spec.
  pose proof (greater_and_equal_margins p) as Hsum.
  pose proof (equal_margin_positive p Hin) as Hone.
  set (g := greater_margin p ps) in *. set (e := equal_margin p ps) in *.
  assert (Hg : 0 <= inject_Z (Z.of_nat g)).
  { change 0 with (inject_Z 0). rewrite <- Zle_Qle. lia. }
  assert (He : 1 <= inject_Z (Z.of_nat e)).
  { change 1 with (inject_Z 1). rewrite <- Zle_Qle. lia. }
  assert (Hn : inject_Z (Z.of_nat g) + inject_Z (Z.of_nat e)
               <= inject_Z (Z.of_nat (List.length ps))).
  { rewrite <- inject_Z_plus, <- Zle_Qle. lia. }
  unfold Qdiv. change (/ 2) with (1 # 2).
  split; lra.
Qed.

End RankBounds.

(** X15. Every [contribution_rank] of a non-empty analyzer is a finite
    number between 1 and the number of products. *)
Theorem X15_ranks_lie_between_1_and_n
        (ps : list product) (fc : Q) (h0 h : heap) (self : FinancialAnalyzer) :
  ps <> [] ->
  analyzer_of ps fc h0 = (Ok self, h) ->
  exists r h' ranks,
    get_contribution_margin_analysis self h = (Ok r, h') /\
    getitem r "contribution_rank" h' = (Ok (NumCol ranks), h') /\
    forall i x,
      nth_error ranks i = Some x ->
      exists q, x = Fin q /\ 1 <= q <= inject_Z (Z.of_nat (List.length ps)).
Proof.
  intros Hps Hinit.
  rewrite (analyzer_of_products h0 fc Hps) in Hinit.
  inversion Hinit; subst self h; clear Hinit.
  pose proof (nth_error_last h0 (metrics_frame ps)) as Htable.
  eexists. eexists. eexists. split; [ | split ].
  - apply contribution_analysis_run with (ps := ps); assumption.
  - apply getitem_last. reflexivity.
  - intros i x Hx.
    assert (Hlen : (i < List.length ps)%nat).
    { rewrite <- (length_map contribution_margin_percent ps).
      rewrite <- (length_map
                    (average_rank
                       (sort_by (fun x => x) xgtb
                                (skipna (map contribution_margin_percent ps))))
                    (map contribution_margin_percent ps)).
      apply nth_error_Some. unfold rank_descending in Hx. rewrite Hx.
      discriminate. }
    destruct (nth_error ps i) as [p|] eqn:Hp;
      [ | apply nth_error_None in Hp; lia ].
    destruct (@rank_descending_value (map contribution_margin_percent ps) i
                (contribution_margin_percent p)
                (margin_percents_no_nan ps)) as (y & Hy & Hrank).
    { rewrite nth_error_map, Hp. reflexivity. }
    rewrite Hx in Hy. inversion Hy; subst y; clear Hy.
    rewrite count_greater_products, count_equal_products in Hrank.
    fold (average_rank_spec p ps) in Hrank.
    destruct x as [q| | |]; simpl in Hrank; try contradiction.
    exists q. split; [ reflexivity | ].
    pose proof (average_rank_spec_bounds ps p (nth_error_In _ _ Hp)) as Hb.
    rewrite Hrank. exact Hb.
Qed.

Lemma X15_ranks_lie_between_1_and_n_witness :
  exists r h' ranks,
    get_contribution_margin_analysis example_analyzer
                                     [metrics_frame example_products]
    = (Ok r, h') /\
    getitem r "contribution_rank" h' = (Ok (NumCol ranks), h') /\
    forall i x,
      nth_error ranks i = Some x ->
      exists q, x = Fin q /\
                1 <= q <= inject_Z (Z.of_nat (List.length example_products)).
Proof.
  apply (@X15_ranks_lie_between_1_and_n example_products 1000 []).
  - discriminate.
  - vm_compute. reflexivity.
Defined.

Section RankSum.

Lemma double_count (A B : Type) (R : A -> B -> bool) (l1 : list A) (l2 : list B) :
  list_sum (map (fun a => List.length (filter (R a) l2)) l1)
  = list_sum (map (fun b => List.length (filter (fun a => R a b) l1)) l2).
Proof.
  induction l1 as [|a l1 IH]; simpl.
  - induction l2 as [|b l2 IH2]; simpl; auto.
  - rewrite IH. clear IH.
    induction l2 as [|b l2 IH2]; simpl; [ reflexivity | ].
    destruct (R a b); simpl; lia.
Qed.

Lemma one_of_three (x y : xnum) :
  is_nan x = false -> is_nan y = false ->
  ((if xgtb y x then 1 else 0) + (if xeqb y x then 1 else 0)
   + (if xgtb x y then 1 else 0) = 1)%nat.
Proof.
  intros Hx Hy.
  destruct (xgtb y x) eqn:Hgt, (xeqb y x) eqn:Heq, (xgtb x y) eqn:Hlt;
    try reflexivity; exfalso; revert Hx Hy Hgt Heq Hlt; xorder.
Qed.

Lemma three_counts (v : xnum) (l : list xnum) :
  is_nan v = false -> no_nan l ->
  (count_greater v l + count_equal v l
   + List.length (filter (fun y => xgtb v y) l) = List.length l)%nat.
Proof.
  intros Hv Hl. unfold count_greater, count_equal.
  induction Hl as [|y l Hy Hl IH]; [ reflexivity | ].
  simpl. pose proof (@one_of_three v y Hv Hy) as Hone.
  destruct (xgtb y v), (xeqb y v), (xgtb v y); simpl in *; lia.
Qed.

Lemma list_sum_constant (A : Type) (c : nat) (l : list A) :
  list_sum (map (fun _ => c) l) = (List.length l * c)%nat.
Proof. induction l as [|x l IH]; simpl; lia. Qed.

Lemma list_sum_plus (A : Type) (f g : A -> nat) (l : list A) :
  list_sum (map (fun x => f x + g x)%nat l)
  = (list_sum (map f l) + list_sum (map g l))%nat.
Proof. induction l as [|x l IH]; simpl; lia. Qed.

Lemma list_sum_twice (A : Type) (f : A -> nat) (l : list A) :
  list_sum (map (fun x => 2 * f x)%nat l) = (2 * list_sum (map f l))%nat.
Proof. induction l as [|x l IH]; simpl in *; lia. Qed.

Lemma list_sum_ext (A : Type) (f g : A -> nat) (l : list A) :
  (forall x, In x l -> f x = g x) ->
  list_sum (map f l) = list_sum (map g l).
Proof.
  intros Hfg. induction l as [|x l IH]; simpl; [ reflexivity | ].
  rewrite (Hfg x (or_introl eq_refl)), IH; [ reflexivity | ].
  intros y Hy. apply Hfg. right; exact Hy.
Qed.

Variable ps : list product.

(** Among all pairs of products, those with a greater margin counted twice
    and those with an equal margin once make up all the pairs. *)
Lemma pairs_of_margins :
  (2 * list_sum (map (fun p => greater_margin p ps) ps)
   + list_sum (map (fun p => equal_margin p ps) ps)
   = List.length ps * List.length ps)%nat.
Proof.
  set (smaller := fun p : product =>
                    List.length
                      (filter (fun q => xgtb (contribution_margin_percent p)
                                             (contribution_margin_percent q))
                              ps)).
  assert (Hall : list_sum (map (fun p => greater_margin p ps + equal_margin p ps
                                          + smaller p)%nat ps)
                 = (List.length ps * List.length ps)%nat).
  { rewrite <- list_sum_constant.
    apply list_sum_ext. intros p _.
    pose proof (@three_counts (contribution_margin_percent p)
                  (map contribution_margin_percent ps)
                  (margin_percent_not_nan p) (margin_percents_no_nan ps))
      as Hthree.
    rewrite count_greater_products, count_equal_products in Hthree.
    rewrite filter_map_length, length_map in Hthree. exact Hthree. }
  assert (Hsym : list_sum (map smaller ps)
                 = list_sum (map (fun p => greater_margin p ps) ps)).
  { unfold smaller, greater_margin.
    apply (double_count
             (fun p q => xgtb (contribution_margin_percent p)
                              (contribution_margin_percent q)) ps ps). }
  rewrite !list_sum_plus in Hall. lia.
Qed.

Lemma total_of_counts (k : product -> nat) (l : list product) :
  total (fun p => inject_Z (Z.of_nat (k p))) l
  == inject_Z (Z.of_nat (list_sum (map k l))).
Proof.
  induction l as [|p l IH].
  - rewrite total_empty. reflexivity.
  - rewrite total_cons, IH. simpl list_sum.
    rewrite Nat2Z.inj_add, inject_Z_plus. reflexivity.
Qed.

Lemma total_of_ranks :
  total (fun p => average_rank_spec p ps) ps
  == inject_Z (Z.of_nat (List.length ps))
     * (inject_Z (Z.of_nat (List.length ps)) + 1) / 2.
Proof.
  rewrite (total_ext (fun p => average_rank_spec p ps)
             (fun p => inject_Z (Z.of_nat (2 * greater_margin p ps
                                           + equal_margin p ps + 1))
                       * (1 # 2))).
  - rewrite total_scale, total_of_counts.
    rewrite !list_sum_plus.
    rewrite (list_sum_twice (fun p => greater_margin p ps)), list_sum_constant,
      pairs_of_margins.
    rewrite Nat.mul_1_r, Nat2Z.inj_add, Nat2Z.inj_mul, inject_Z_plus,
      inject_Z_mult.
    field.
  - intros p. unfold average_rank_spec.
    rewrite !Nat2Z.inj_add, Nat2Z.inj_mul, !inject_Z_plus, inject_Z_mult.
    change (inject_Z (Z.of_nat 2)) with 2.
    change (inject_Z (Z.of_nat 1)) with 1.
    field.
Qed.

(** A column of numbers each equal to a finite number sums to the sum of
    those. *)
Lemma sum_values_of_equals (f : product -> xnum) (g : product -> Q)
      (l : list product) :
  (forall p, In p l -> f p =x= Fin (g p)) ->
  exists s, sum_values (map f l) = Fin s /\ s == total g l.
Proof.
  intros Hfg. unfold sum_values, total, zero.
  assert (Hgen : forall a : Q,
             exists s, fold_left xadd (skipna (map f l)) (Fin a) = Fin s /\
                       s == a + Qsum (map g l)).
  { induction l as [|p l IH]; intros a.
    - exists a. split; [ reflexivity | ]. unfold Qsum; simpl. ring.
    - pose proof (Hfg p (or_introl eq_refl)) as Hp.
      destruct (f p) as [x| | |] eqn:Hfp; simpl in Hp; try contradiction.
      simpl. rewrite Hfp. simpl.
      destruct (IH (fun q Hq => Hfg q (or_intror Hq)) (a + x)) as (s & Hs & Heq).
      exists s. split; [ exact Hs | ].
      rewrite Heq. unfold Qsum at 2. simpl. rewrite Qsum_from, Hp. ring. }
  destruct (Hgen 0) as (s & Hs & Heq).
  exists s. split; [ exact Hs | ]. rewrite Heq. ring.
Qed.

End RankSum.

(** X16. The ranks of a non-empty analyzer always add up to
    [n * (n + 1) / 2] for [n] products, ties or not: averaging the ranks of
    tied products keeps the total. *)
Theorem X16_ranks_add_up
        (ps : list product) (fc : Q) (h0 h : heap) (self : FinancialAnalyzer) :
  ps <> [] ->
  analyzer_of ps fc h0 = (Ok self, h) ->
  exists r h' s,
    get_contribution_margin_analysis self h = (Ok r, h') /\
    column_sum r "contribution_rank" h' = (Ok (Fin s), h') /\
    s == inject_Z (Z.of_nat (List.length ps))
         * (inject_Z (Z.of_nat (List.length ps)) + 1) / 2.
Proof.
  intros Hps Hinit.
  rewrite (analyzer_of_products h0 fc Hps) in Hinit.
  inversion Hinit; subst self h; clear Hinit.
  pose proof (nth_error_last h0 (metrics_frame ps)) as Htable.
  destruct (@sum_values_of_equals
              (fun p => average_rank
                          (sort_by (fun x => x) xgtb
                                   (skipna (map contribution_margin_percent ps)))
                          (contribution_margin_percent p))
              (fun p => average_rank_spec p ps) ps) as (s & Hs & Heq).
  { intros p Hp. unfold average_rank_spec.
    rewrite <- count_greater_products, <- count_equal_products.
    apply average_rank_value; [ apply margin_percents_no_nan | ].
    apply in_map. exact Hp. }
  eexists. eexists. exists s. split; [ | split ].
  - apply contribution_analysis_run with (ps := ps); assumption.
  - erewrite column_sum_last by reflexivity.
    unfold rank_descending. rewrite map_map, Hs. reflexivity.
  - rewrite Heq. apply total_of_ranks.
Qed.

Definition tied_products : list product :=
  [ mkProduct "Cafe" 10 5 100; mkProduct "Cha" 10 5 50; mkProduct "Bolo" 8 6 20 ].

Lemma X16_ranks_add_up_witness :
  exists r h' s,
    get_contribution_margin_analysis
      (mkAnalyzer (map product_record tied_products) 1000 0%nat)
      [metrics_frame tied_products] = (Ok r, h') /\
    column_sum r "contribution_rank" h' = (Ok (Fin s), h') /\
    s == inject_Z (Z.of_nat (List.length tied_products))
         * (inject_Z (Z.of_nat (List.length tied_products)) + 1) / 2.
Proof.
  apply (@X16_ranks_add_up tied_products 1000 []).
  - discriminate.
  - vm_compute. reflexivity.
Defined.

(** ** Sorting by a key *)



Section SortByKey.
Variable A : Type.
Variable key : A -> xnum.
Variable better : xnum -> xnum -> bool.






Hypothesis better_asym :
  forall x y, is_nan x = false -> is_nan y = false ->
              better y x = true -> better x y = false.
Hypothesis better_trans :
  forall x y z, is_nan x = false -> is_nan y = false -> is_nan z = false ->
                better z y = false -> better y x = false -> better z x = false.

Definition valued (l : list A) : Prop :=
  Forall (fun a => is_nan (key a) = false) l.





End SortByKey.

Section SortAndMap.
Variables A B : Type.
Variable keyA : A -> xnum.
Variable keyB : B -> xnum.
Variable better : xnum -> xnum -> bool.
Variable f : A -> B.



End SortAndMap.

(** ** The product mix *)

Section FrameRunAt.
Variable H : heap.
Variable r : ref.
Variable d : DataFrame.
Hypothesis Hd : nth_error H r = Some d.




End FrameRunAt.




Section Positions.
Variable key : product -> xnum.
Variable better : xnum -> xnum -> bool.
Hypothesis key_valued : forall p, is_nan (key p) = false.





End Positions.

Section RowsOfPositions.



Variable ps : list product.
Variable d : product.




End RowsOfPositions.

Section MixRun.
Variable self : FinancialAnalyzer.
Variable ps : list product.


Variable h : heap.
Hypothesis Hrows : ps <> [].
Hypothesis Htable : nth_error h (df self) = Some (metrics_frame ps).



End MixRun.





Section ThreeBest.
Variable key : product -> xnum.
Variable better : xnum -> xnum -> bool.
Hypothesis key_valued : forall p, is_nan (key p) = false.
Hypothesis better_asym :
  forall x y, is_nan x = false -> is_nan y = false ->
              better y x = true -> better x y = false.
Hypothesis better_trans :
  forall x y z, is_nan x = false -> is_nan y = false -> is_nan z = false ->
                better z y = false -> better y x = false -> better z x = false.


End ThreeBest.



(** ** The combo and its discount *)

Lemma total_minus (f g : product -> Q) (ps : list product) :
  total (fun p => f p - g p) ps == total f ps - total g ps.
Proof.
  induction ps as [|p ps IH].
  - rewrite !total_empty. ring.
  - rewrite !total_cons, IH. ring.
Qed.

(** X18. [calculate_combo_analysis] takes the discount off the margin in
    full, whatever the discount: for names that select at least one product
    of a non-empty analyzer, [original_price] and [total_cost] are the sums
    of the prices and of the costs of the selected products,
    [discounted_price] is the original price less the discount, and
    [combo_margin] is the sum of the unit margins of the selected products
    less the discount.  The requested names and the discount are returned
    as given. *)
Theorem X18_combo_discount_comes_off_the_margin
        (ps : list product) (fc : Q) (h0 h : heap) (self : FinancialAnalyzer)
        (product_names : list string) (discount_percent : Q) :
  ps <> [] ->
  analyzer_of ps fc h0 = (Ok self, h) ->
  selected product_names ps <> [] ->
  let chosen := selected product_names ps in
  let discount := total price chosen * discount_percent / 100 in
  exists res h' discounted margin,
    calculate_combo_analysis self product_names discount_percent h
    = (Ok res, h') /\
    assoc_get "products" res = Some (VNames product_names) /\
    assoc_get "discount_applied" res = Some (VNum (Fin discount_percent)) /\
    assoc_get "original_price" res = Some (VNum (Fin (total price chosen))) /\
    assoc_get "total_cost" res = Some (VNum (Fin (total cost chosen))) /\
    assoc_get "discounted_price" res = Some (VNum (Fin discounted)) /\
    assoc_get "combo_margin" res = Some (VNum (Fin margin)) /\
    discounted == total price chosen - discount /\
    margin == total contribution_margin chosen - discount.
Proof.
  intros Hps Hinit Hsel chosen discount.
  rewrite (analyzer_of_products h0 fc Hps) in Hinit.
  inversion Hinit; subst self h; clear Hinit.
  pose proof (nth_error_last h0 (metrics_frame ps)) as Htable.
  exists (combo_result product_names (Fin (total price chosen))
                       (Fin (total cost chosen))
                       (mean_values (map contribution_margin_percent chosen))
                       discount_percent).
  eexists.
  exists (total price chosen * (1 - discount_percent / 100)).
  exists (total price chosen * (1 - discount_percent / 100) - total cost chosen).
  split; [ apply combo_run with (ps := ps); assumption | ].
  unfold combo_result.
  repeat (split; [ dict_field; reflexivity | ]).
  subst discount. split.
  - field.
  - unfold contribution_margin. rewrite total_minus. field.
Qed.

Lemma X18_combo_discount_comes_off_the_margin_witness :
  let chosen := selected ["Cappuccino"] example_products in
  let discount := total price chosen * 10 / 100 in
  exists res h' discounted margin,
    calculate_combo_analysis example_analyzer ["Cappuccino"] 10
                             [metrics_frame example_products]
    = (Ok res, h') /\
    assoc_get "products" res = Some (VNames ["Cappuccino"]) /\
    assoc_get "discount_applied" res = Some (VNum (Fin 10)) /\
    assoc_get "original_price" res = Some (VNum (Fin (total price chosen))) /\
    assoc_get "total_cost" res = Some (VNum (Fin (total cost chosen))) /\
    assoc_get "discounted_price" res = Some (VNum (Fin discounted)) /\
    assoc_get "combo_margin" res = Some (VNum (Fin margin)) /\
    discounted == total price chosen - discount /\
    margin == total contribution_margin chosen - discount.
Proof.
  apply (@X18_combo_discount_comes_off_the_margin example_products 1000 []).
  - discriminate.
  - vm_compute. reflexivity.
  - vm_compute. discriminate.
Defined.

(** X19. A discount of 100 percent or more is accepted: for selected
    products whose prices sum to a positive number the discounted price is
    then zero or negative, and [calculate_combo_analysis] reports a
    [combo_margin_percent] of 0, the verdict "Não recomendado" (not
    recommended), and as [margin_impact] the average individual margin in
    percent taken from 0. *)
Theorem X19_combo_discount_of_100_or_more
        (ps : list product) (fc : Q) (h0 h : heap) (self : FinancialAnalyzer)
        (product_names : list string) (discount_percent : Q) :
  ps <> [] ->
  analyzer_of ps fc h0 = (Ok self, h) ->
  selected product_names ps <> [] ->
  0 < total price (selected product_names ps) ->
  100 <= discount_percent ->
  exists res h' discounted average,
    calculate_combo_analysis self product_names discount_percent h
    = (Ok res, h') /\
    assoc_get "discounted_price" res = Some (VNum (Fin discounted)) /\
    discounted <= 0 /\
    assoc_get "combo_margin_percent" res = Some (VNum (Fin 0)) /\
    assoc_get "viability" res = Some (VStr "Não recomendado") /\
    assoc_get "avg_individual_margin_percent" res = Some (VNum average) /\
    assoc_get "margin_impact" res = Some (VNum (xsub (Fin 0) average)).
Proof.
  intros Hps Hinit Hsel Hprice Hd.
  rewrite (analyzer_of_products h0 fc Hps) in Hinit.
  inversion Hinit; subst self h; clear Hinit.
  pose proof (nth_error_last h0 (metrics_frame ps)) as Htable.
  set (chosen := selected product_names ps) in *.
  assert (Hneg : total price chosen * (1 - discount_percent / 100) <= 0).
  { assert (Hone : 1 <= discount_percent / 100)
      by (apply Qle_shift_div_l; lra).
    assert (H0 : 0 <= total price chosen * (discount_percent / 100 - 1))
      by (apply Qmult_le_0_compat; lra).
    lra. }
  exists (combo_result product_names (Fin (total price chosen))
                       (Fin (total cost chosen))
                       (mean_values (map contribution_margin_percent chosen))
                       discount_percent).
  eexists.
  exists (total price chosen * (1 - discount_percent / 100)).
  exists (mean_values (map contribution_margin_percent chosen)).
  split; [ apply combo_run with (ps := ps); assumption | ].
  unfold combo_result.
  change (xmul (Fin (total price chosen))
               (xsub (Fin 1) (xdiv (Fin discount_percent) hundred)))
    with (Fin (total price chosen * (1 - discount_percent / 100))).
  change (xsub (Fin (total price chosen * (1 - discount_percent / 100)))
               (Fin (total cost chosen)))
    with (Fin (total price chosen * (1 - discount_percent / 100)
               - total cost chosen)).
  rewrite guarded_percent.
  replace (Qltb 0 (total price chosen * (1 - discount_percent / 100)))
    with false by (symmetry; apply Qltb_ge; exact Hneg).
  split; [ dict_field; reflexivity | ].
  split; [ exact Hneg | ].
  repeat split; dict_field; reflexivity.
Qed.

Lemma X19_combo_discount_of_100_or_more_witness :
  exists res h' discounted average,
    calculate_combo_analysis example_analyzer ["Cappuccino"] 120
                             [metrics_frame example_products]
    = (Ok res, h') /\
    assoc_get "discounted_price" res = Some (VNum (Fin discounted)) /\
    discounted <= 0 /\
    assoc_get "combo_margin_percent" res = Some (VNum (Fin 0)) /\
    assoc_get "viability" res = Some (VStr "Não recomendado") /\
    assoc_get "avg_individual_margin_percent" res = Some (VNum average) /\
    assoc_get "margin_impact" res = Some (VNum (xsub (Fin 0) average)).
Proof.
  apply (@X19_combo_discount_of_100_or_more example_products 1000 []).
  - discriminate.
  - vm_compute. reflexivity.
  - vm_compute. discriminate.
  - vm_compute. reflexivity.
  - vm_compute. discriminate.
Defined.

Lemma selected_in (names : list string) (ps : list product) (p : product) :
  In p (selected names ps) -> In p ps.
Proof. unfold selected. intros Hp. apply filter_In in Hp. tauto. Qed.

(** X20. The [avg_individual_margin_percent] of a combo is the plain mean
    of the margins in percent of the selected products, one term for each
    selected row whatever its price or quantity, when no selected product
    has price 0; [margin_impact] is the combo margin in percent less that
    mean. *)
Theorem X20_combo_average_is_the_plain_mean
        (ps : list product) (fc : Q) (h0 h : heap) (self : FinancialAnalyzer)
        (product_names : list string) (discount_percent : Q) :
  ps <> [] ->
  analyzer_of ps fc h0 = (Ok self, h) ->
  selected product_names ps <> [] ->
  (forall p, In p (selected product_names ps) -> ~ price p == 0) ->
  let chosen := selected product_names ps in
  exists res h' average percent impact,
    calculate_combo_analysis self product_names discount_percent h
    = (Ok res, h') /\
    assoc_get "avg_individual_margin_percent" res = Some (VNum (Fin average)) /\
    assoc_get "combo_margin_percent" res = Some (VNum (Fin percent)) /\
    assoc_get "margin_impact" res = Some (VNum (Fin impact)) /\
    average == total (fun p => (price p - cost p) / price p * 100) chosen
               / inject_Z (Z.of_nat (List.length chosen)) /\
    impact == percent - average.
Proof.
  intros Hps Hinit Hsel Hpriced chosen.
  rewrite (analyzer_of_products h0 fc Hps) in Hinit.
  inversion Hinit; subst self h; clear Hinit.
  pose proof (nth_error_last h0 (metrics_frame ps)) as Htable.
  destruct (@sum_values_of_equals
              contribution_margin_percent
              (fun p => (price p - cost p) / price p * 100) chosen)
    as (s & Hs & Hsum).
  { intros p Hp. rewrite (@margin_percent_value p (Hpriced p Hp)).
    simpl. reflexivity. }
  assert (Hcount : ~ inject_Z (Z.of_nat (List.length chosen)) == 0).
  { destruct chosen as [|p l] eqn:E; [ contradiction | ].
    intros H0. apply (proj1 (Qeq_alt _ _)) in H0.
    cbn [List.length] in H0. rewrite Nat2Z.inj_succ in H0.
    unfold inject_Z, Qcompare in H0. simpl in H0.
    apply Z.compare_eq in H0. lia. }
  assert (Hmean : mean_values (map contribution_margin_percent chosen)
                  = Fin (s / inject_Z (Z.of_nat (List.length chosen)))).
  { unfold mean_values.
    rewrite (skipna_no_nan (margin_percents_no_nan chosen)), length_map, Hs.
    unfold of_nat. apply xdiv_finite. exact Hcount. }
  exists (combo_result product_names (Fin (total price chosen))
                       (Fin (total cost chosen))
                       (mean_values (map contribution_margin_percent chosen))
                       discount_percent).
  eexists.
  exists (s / inject_Z (Z.of_nat (List.length chosen))).
  eexists. eexists.
  split; [ apply combo_run with (ps := ps); assumption | ].
  unfold combo_result. rewrite Hmean.
  change (xmul (Fin (total price chosen))
               (xsub (Fin 1) (xdiv (Fin discount_percent) hundred)))
    with (Fin (total price chosen * (1 - discount_percent / 100))).
  change (xsub (Fin (total price chosen * (1 - discount_percent / 100)))
               (Fin (total cost chosen)))
    with (Fin (total price chosen * (1 - discount_percent / 100)
               - total cost chosen)).
  rewrite guarded_percent.
  split; [ dict_field; reflexivity | ].
  split; [ dict_field; reflexivity | ].
  split; [ dict_field; reflexivity | ].
  split.
  - rewrite Hsum. reflexivity.
  - reflexivity.
Qed.

Lemma X20_combo_average_is_the_plain_mean_witness :
  let chosen := selected ["Cappuccino"; "Cafe Expresso"] example_products in
  exists res h' average percent impact,
    calculate_combo_analysis example_analyzer ["Cappuccino"; "Cafe Expresso"] 10
                             [metrics_frame example_products]
    = (Ok res, h') /\
    assoc_get "avg_individual_margin_percent" res = Some (VNum (Fin average)) /\
    assoc_get "combo_margin_percent" res = Some (VNum (Fin percent)) /\
    assoc_get "margin_impact" res = Some (VNum (Fin impact)) /\
    average == total (fun p => (price p - cost p) / price p * 100) chosen
               / inject_Z (Z.of_nat (List.length chosen)) /\
    impact == percent - average.
Proof.
  apply (@X20_combo_average_is_the_plain_mean example_products 1000 []).
  - discriminate.
  - vm_compute. reflexivity.
  - vm_compute. discriminate.
  - intros p Hp. apply selected_in in Hp.
    destruct Hp as [Hp | [Hp | []]]; subst p; vm_compute; discriminate.
Defined.
